(** * pyani: the [anib] and [plot] subcommands

    A shallow embedding of [pyani/scripts/subcommands/subcmd_anib.py] and
    [pyani/scripts/subcommands/subcmd_plot.py], and the properties of
    the fragmenter, of the comparison enumeration and of the control
    flow of the two subcommands.

    Python integers are [Z] (offsets, fragment sizes, run identifiers)
    or [nat] (counters that only count up from zero, lengths); strings
    are [string]; a sequence is a [list ascii]; a [dict] keeps its
    insertion order, as Python's does; files and the run table live in
    a [World] that every effectful function threads; exceptions are
    values of [exn], and a [while] loop runs on fuel. *)

From Stdlib Require Import ZArith Ascii DecimalString DecimalNat DecimalFacts.
From stdpp Require Import gmap strings list.

(** ** Python builtins the two modules use *)

Module Py.

(** [slice.indices]: a bound of [s[start:stop]] on a sequence of
    length [n]; a negative bound counts from the end, and every bound
    is clamped to [0..n]. *)
Definition slice_index (n i : Z) : Z :=
  if (i <? 0)%Z then Z.max 0 (i + n) else Z.min i n.

(** [s[start:stop]] *)
Definition slice {A : Type} (s : list A) (start stop : Z) : list A :=
  let n := Z.of_nat (length s) in
  let lo := slice_index n start in
  let hi := slice_index n stop in
  take (Z.to_nat (hi - lo)) (drop (Z.to_nat lo) s).

(** [str(n)] for a non-negative [int] *)
Definition str_of_nat (n : nat) : string :=
  NilEmpty.string_of_uint (Nat.to_uint n).

(** [str(z)] for an [int] *)
Definition str_of_Z (z : Z) : string :=
  if (z <? 0)%Z then "-" +:+ str_of_nat (Z.to_nat (- z))
  else str_of_nat (Z.to_nat z).

Fixpoint zeros (n : nat) : string :=
  match n with
  | O => ""
  | S k => String "0"%char (zeros k)
  end.

(** The format specification [0<width>d] on a non-negative [int]:
    zeros on the left up to [width] characters, and no truncation of
    a longer number. *)
Definition zero_pad (width : nat) (digits : string) : string :=
  zeros (width - String.length digits) +:+ digits.

(** [f"{n:05d}"] *)
Definition format_05d (n : nat) : string := zero_pad 5 (str_of_nat n).

(** A [dict] with [str] keys, in insertion order. *)
Definition dict (V : Type) : Type := list (string * V).

(** [d[k] = v]: a key already present keeps its place and takes the
    new value, a new key goes last. *)
Fixpoint dict_set {V : Type} (d : dict V) (k : string) (v : V) : dict V :=
  match d with
  | [] => [(k, v)]
  | (k', v') :: d' =>
      if decide (k' = k) then (k', v) :: d'
      else (k', v') :: dict_set d' k v
  end.

Definition dict_keys {V : Type} (d : dict V) : list string := d.*1.
Definition dict_values {V : Type} (d : dict V) : list V := d.*2.

Fixpoint dict_get {V : Type} (d : dict V) (k : string) : option V :=
  match d with
  | [] => None
  | (k', v') :: d' => if decide (k' = k) then Some v' else dict_get d' k
  end.

(** [sep.join(l)] *)
Fixpoint join (sep : string) (l : list string) : string :=
  match l with
  | [] => ""
  | [s] => s
  | s :: rest => s +:+ sep +:+ join sep rest
  end.

Definition dquote : string := String (ascii_of_nat 34) "".

(** [json.dumps(d)] for a [dict] from [str] to non-negative [int],
    with the default separators; the keys the fragmenter makes are
    [frag] and digits, which JSON writes as they are. *)
Definition json_dumps (d : dict nat) : string :=
  "{" +:+
  join ", " ((λ kv, dquote +:+ kv.1 +:+ dquote +:+ ": " +:+ str_of_nat kv.2) <$> d)
  +:+ "}".

(** [itertools.permutations(pool, 2)]: the pairs of two different
    positions of [pool], first position outermost, each in the order
    of [range(len(pool))]; elements count as different by position,
    not by value. *)
Definition permutations2 {A : Type} (pool : list A) : list (A * A) :=
  let indexed := zip (seq 0 (length pool)) pool in
  ix ← indexed;
  jy ← indexed;
  if decide (ix.1 = jy.1) then [] else [(ix.2, jy.2)].

(** Exceptions, by class. [IOError] is Python 3's alias of [OSError],
    and [FileNotFoundError] and the like are subclasses of it. *)
Inductive exn : Type :=
| SystemExit (code : Z)
| KeyboardInterrupt
| SystemError (arg : Z)
| NotImplementedError
| UnboundLocalError (variable : string)
| AttributeError (attribute : string)
| KeyError (key : string)
| ValueError
| OSError (what : string)
| PyaniORMException
| OtherException (class : string).

(** [isinstance(e, Exception)]: what [except Exception] catches. *)
Definition is_Exception (e : exn) : bool :=
  match e with
  | SystemExit _ | KeyboardInterrupt => false
  | _ => true
  end.

(** [isinstance(e, OSError)]: what [except IOError] catches. *)
Definition is_OSError (e : exn) : bool :=
  match e with
  | OSError _ => true
  | _ => false
  end.

Definition is_PyaniORMException (e : exn) : bool :=
  match e with
  | PyaniORMException => true
  | _ => false
  end.

(** The status the interpreter exits with when [e] leaves the
    program uncaught: the code of a [SystemExit], 1 for a traceback. *)
Definition exit_status (e : exn) : Z :=
  match e with
  | SystemExit code => code
  | _ => 1
  end.

End Py.

(** ** [pathlib.Path] *)

Module Pathlib.

(** A path by its parts. *)
Definition Path : Type := list string.

(** [p / name] *)
Definition div (p : Path) (name : string) : Path := p ++ [name].

(** [p.name] *)
Definition name (p : Path) : string := List.last p "".

(** [s.rfind(c)], scanning from position [i] of the whole string. *)
Fixpoint rfind_from (c : ascii) (s : string) (i : nat) : option nat :=
  match s with
  | EmptyString => None
  | String a s' =>
      match rfind_from c s' (S i) with
      | Some j => Some j
      | None => if decide (a = c) then Some i else None
      end
  end.

(** [p.stem]: the name without its last suffix; a dot that opens or
    closes the name starts no suffix. *)
Definition stem (p : Path) : string :=
  let nm := name p in
  match rfind_from "."%char nm 0 with
  | Some i =>
      if bool_decide (0 < i < String.length nm - 1) then String.substring 0 i nm
      else nm
  | None => nm
  end.

(** [str(p)] *)
Definition str (p : Path) : string := Py.join "/" p.

End Pathlib.

(** ** Biopython's [SeqRecord] *)

Module Bio.

Record SeqRecord : Type := mkSeqRecord {
  id : string;
  name : string;
  description : string;
  seq : list ascii
}.

(** [len(record)] *)
Definition len (r : SeqRecord) : nat := length (seq r).

(** [record[start:stop]]: a new record over the sliced sequence that
    keeps the identifier, the name and the description. *)
Definition getslice (r : SeqRecord) (start stop : Z) : SeqRecord :=
  {| id := id r; name := name r; description := description r;
     seq := Py.slice (seq r) start stop |}.

(** [record.id = i] *)
Definition set_id (r : SeqRecord) (i : string) : SeqRecord :=
  {| id := i; name := name r; description := description r; seq := seq r |}.

End Bio.

(** ** The rows of [pyani_orm] the subcommands touch

    The object-relational layer is not part of these two modules; the
    rows carry the attributes the subcommands read and write. *)

Module Orm.

Record Genome : Type := mkGenome {
  genome_id : Z;
  path : Pathlib.Path;
  label : string
}.

#[global] Instance Genome_eq_dec : EqDecision Genome.
Proof. solve_decision. Defined.

(** A row of the run table; the five matrices are kept as JSON text. *)
Record Run : Type := mkRun {
  run_id : Z;
  method : string;
  cmdline : string;
  date : string;
  status : string;
  run_name : string;
  genomes : list Genome;
  df_identity : string;
  df_coverage : string;
  df_alnlength : string;
  df_simerrors : string;
  df_hadamard : string
}.

End Orm.

(** ** The world, its events, and the monad of effectful code *)

Module Rt.

Import Py Pathlib.

(** A [pandas.DataFrame], by the JSON text [pd.read_json] read it from. *)
Record DataFrame : Type := mkDataFrame { of_json : string }.

(** [pyani_graphics.Params(cmap, labels, classes)] *)
Record Params : Type := mkParams {
  cmap : string;
  labels : dict string;
  classes : dict string
}.

Inductive loglevel : Type := Info | Warning | Error.

(** Functions of the rest of the package and of its libraries that
    the two modules call and that act on something outside them. *)
Inductive collaborator : Type :=
| GetVersion                 (* anib.get_version *)
| Tqdm                       (* tqdm(genomes, disable=...) *)
| GetSession                 (* pyani_orm.get_session *)
| AddRun                     (* pyani_orm.add_run *)
| AddRunGenomes              (* pyani_orm.add_run_genomes *)
| RunGenomesAll              (* run.genomes.all() *)
| FilterExistingComparisons  (* pyani_orm.filter_existing_comparisons *)
| UpdateComparisonMatrices   (* pyani_orm.update_comparison_matrices *)
| CollectExistingOutput      (* pyani_files.collect_existing_output *)
| FragmentFastaFiles         (* anib.fragment_fasta_files *)
| GenerateJoblist            (* generate_joblist *)
| QueryRun                   (* session.query(Run).filter(..).first() *)
| GetMatrixLabels            (* pyani_orm.get_matrix_labels_for_run *)
| GetMatrixClasses.          (* pyani_orm.get_matrix_classes_for_run *)

(** What a run of a subcommand does that can be seen from outside.
    A log line is kept by its level and its text, with the
    interpolated values left as written in the source ([Log]) or
    listed after it ([Logf]). *)
Inductive event : Type :=
| Log (lvl : loglevel) (template : string)
| Logf (lvl : loglevel) (template : string) (values : list string)
| Call (c : collaborator) (arg : string)
| Makedirs (p : Path)
| SeqIOParse (p : Path)
| SeqIOWrite (p : Path) (written : nat)
| Print (p : Path) (n : nat)
| Heatmap (gmethod : string) (data : DataFrame) (outfname : Path)
          (title : string) (params : Params)
| Distribution (gmethod : string) (data : DataFrame) (outfname : Path)
               (matname : string) (title : string)
| PltCloseAll.

Record World : Type := mkWorld {
  files : gmap Path (list Bio.SeqRecord);  (* FASTA files, by the records
                                              read from or handed to them *)
  runs : gmap Z Orm.Run;                   (* the run table of the store *)
  trace : list event
}.

(** How a computation ends: with a value, with an exception, or not
    within the fuel its loops were given. *)
Inductive res (A : Type) : Type :=
| Val (a : A)
| Exc (e : exn)
| OutOfFuel.
Arguments Val {A} a.
Arguments Exc {A} e.
Arguments OutOfFuel {A}.

Definition M (A : Type) : Type := World → World * res A.

Definition ret {A : Type} (a : A) : M A := λ w, (w, Val a).

Definition bind {A B : Type} (m : M A) (k : A → M B) : M B :=
  λ w, match m w with
       | (w', Val a) => k a w'
       | (w', Exc e) => (w', Exc e)
       | (w', OutOfFuel) => (w', OutOfFuel)
       end.

#[global] Instance M_ret : MRet M := @ret.
#[global] Instance M_bind : MBind M := λ A B k m, bind m k.

(** [raise e] *)
Definition raise {A : Type} (e : exn) : M A := λ w, (w, Exc e).

(** [try: body  except <class>: handler] *)
Definition try_except {A : Type} (body : M A) (catches : exn → bool)
    (handler : M A) : M A :=
  λ w, match body w with
       | (w', Exc e) => if catches e then handler w' else (w', Exc e)
       | r => r
       end.

Definition emit (ev : event) : M unit :=
  λ w, ({| files := files w; runs := runs w; trace := trace w ++ [ev] |}, Val tt).

(** A local variable that was never assigned raises on its first read. *)
Definition read_local {A : Type} (variable : string) (v : option A) : M A :=
  match v with
  | Some a => ret a
  | None => raise (UnboundLocalError variable)
  end.

(** A loop on fuel, inside the monad. *)
Definition of_fuel {A : Type} (o : option A) : M A :=
  λ w, match o with
       | Some a => (w, Val a)
       | None => (w, OutOfFuel)
       end.

(** [for x in xs: body x] *)
Fixpoint for_each {A : Type} (xs : list A) (body : A → M unit) : M unit :=
  match xs with
  | [] => ret tt
  | x :: rest => body x;; for_each rest body
  end.

Definition logger_info (template : string) : M unit := emit (Log Info template).
Definition logger_warning (template : string) : M unit := emit (Log Warning template).
Definition logger_error (template : string) : M unit := emit (Log Error template).
Definition logger_info_f (template : string) (values : list string) : M unit :=
  emit (Logf Info template values).

(** How a write to disk can go wrong: not at all, before the file is
    opened, or after some of the records have reached the file. *)
Inductive write_fault : Type :=
| NoFault
| OpenFails
| FailsAfter (written : nat).

Definition read_file (path : Path) : M (list Bio.SeqRecord) :=
  λ w, match files w !! path with
       | Some records => (w, Val records)
       | None => (w, Exc (OSError "FileNotFoundError"))
       end.

Definition put_file (path : Path) (records : list Bio.SeqRecord) : M unit :=
  λ w, ({| files := <[path := records]> (files w); runs := runs w;
           trace := trace w |}, Val tt).

(** [SeqIO.parse(path, "fasta")], read to its end. *)
Definition SeqIO_parse (path : Path) : M (list Bio.SeqRecord) :=
  emit (SeqIOParse path);;
  read_file path.

(** [SeqIO.write(records, path, "fasta")]: the file at [path] is
    opened for writing, which empties it, and takes the records one
    after the other. The file is kept as the records the writer was
    handed: the header line that Biopython makes of the identifier and
    the description of a record is not modelled, and of what a reader
    would find in the file only the identifiers and the sequences, in
    their order, are meant. *)
Definition SeqIO_write (fault : write_fault) (records : list Bio.SeqRecord)
    (path : Path) : M nat :=
  match fault with
  | NoFault =>
      emit (SeqIOWrite path (length records));;
      put_file path records;;
      ret (length records)
  | OpenFails => raise (OSError "open")
  | FailsAfter k =>
      emit (SeqIOWrite path (length (take k records)));;
      put_file path (take k records);;
      raise (OSError "write")
  end.

End Rt.

(** ** [subcmd_anib.py] *)

Module Anib.

Import Py Pathlib Rt.

(** *** [fragment_fasta_file] *)

(** The locals of [fragment_fasta_file] that its two loops update. *)
Record Locals : Type := mkLocals {
  sizedict : dict nat;
  outseqs : list Bio.SeqRecord;
  count : nat
}.

(** [f"frag{count:05d}"] *)
Definition frag_id (count : nat) : string := "frag" +:+ format_05d count.

(** One turn of the [while] loop, from [count += 1] to
    [idx += fragsize]. *)
Definition while_body (fragsize : Z) (seq : Bio.SeqRecord) (idx : Z)
    (l : Locals) : Z * Locals :=
  let count := S (count l) in
  let newseq := Bio.getslice seq idx (idx + fragsize) in
  let newseq := Bio.set_id newseq (frag_id count) in
  let outseqs := outseqs l ++ [newseq] in
  let sizedict := dict_set (sizedict l) (Bio.id newseq) (Bio.len newseq) in
  ((idx + fragsize)%Z,
   {| sizedict := sizedict; outseqs := outseqs; count := count |}).

(** [while idx < len(seq): ...], at most [fuel] turns. *)
Fixpoint while_idx (fuel : nat) (fragsize : Z) (seq : Bio.SeqRecord)
    (idx : Z) (l : Locals) : option Locals :=
  if (idx <? Z.of_nat (Bio.len seq))%Z then
    match fuel with
    | O => None
    | S fuel' =>
        let '(idx', l') := while_body fragsize seq idx l in
        while_idx fuel' fragsize seq idx' l'
    end
  else Some l.

(** [for seq in SeqIO.parse(inpath, "fasta"): idx = 0; while ...] *)
Fixpoint for_seq (fuel : nat) (fragsize : Z) (records : list Bio.SeqRecord)
    (l : Locals) : option Locals :=
  match records with
  | [] => Some l
  | seq :: rest =>
      match while_idx fuel fragsize seq 0 l with
      | Some l' => for_seq fuel fragsize rest l'
      | None => None
      end
  end.

(** [outdir / f"{inpath.stem}-fragments.fasta"] *)
Definition fragpath_of (inpath outdir : Path) : Path :=
  div outdir (stem inpath +:+ "-fragments.fasta").

(** [fragment_fasta_file(inpath, outdir, fragsize)]; [fault] says how
    the write of the fragment file goes. *)
Definition fragment_fasta_file (fault : write_fault) (fuel : nat)
    (inpath outdir : Path) (fragsize : Z) : M (Path * string) :=
  records ← SeqIO_parse inpath;
  l ← of_fuel (for_seq fuel fragsize records
                 {| sizedict := []; outseqs := []; count := 0 |});
  let fragpath := fragpath_of inpath outdir in
  SeqIO_write fault (outseqs l) fragpath;;
  ret (fragpath, json_dumps (sizedict l)).

(** *** What the fragmenter is to do, in the words of its contract

    For a record of length [L] and a fragment size [F], the offsets
    [0, F, 2F, ...] below [L] each give one fragment: the next [F]
    letters, or those that are left. *)

Definition ceil_div (L F : nat) : nat := (L + F - 1) / F.

Definition expected_fragments (F : nat) (s : list ascii) : list (list ascii) :=
  (λ j, take F (drop (j * F) s)) <$> seq 0 (ceil_div (length s) F).

(** The fragment that the step at offset [j * F] of record [r] is to
    give when [c0] fragments were numbered before the record. *)
Definition fragment_at (F : nat) (r : Bio.SeqRecord) (c0 j : nat) : Bio.SeqRecord :=
  {| Bio.id := frag_id (c0 + S j);
     Bio.name := Bio.name r;
     Bio.description := Bio.description r;
     Bio.seq := take F (drop (j * F) (Bio.seq r)) |}.

Definition record_fragments (F c0 : nat) (r : Bio.SeqRecord) : list Bio.SeqRecord :=
  fragment_at F r c0 <$> seq 0 (ceil_div (Bio.len r) F).

(** The fragments of each record of a file, record by record. *)
Fixpoint file_fragments (F c0 : nat) (records : list Bio.SeqRecord)
    : list (list Bio.SeqRecord) :=
  match records with
  | [] => []
  | r :: rest =>
      record_fragments F c0 r
      :: file_fragments F (c0 + ceil_div (Bio.len r) F) rest
  end.

(** What one turn of the loop does to the locals, given its fragment. *)
Definition push (l : Locals) (fr : Bio.SeqRecord) : Locals :=
  {| sizedict := dict_set (sizedict l) (Bio.id fr) (Bio.len fr);
     outseqs := outseqs l ++ [fr];
     count := S (count l) |}.

(** Reading a fragment identifier back: the number after [frag]. *)
Definition parse_frag_id (s : string) : option nat :=
  match s with
  | String _ (String _ (String _ (String _ digits))) =>
      Nat.of_uint <$> NilEmpty.uint_of_string digits
  | _ => None
  end.

(** The locals when the two loops have gone through [records]: every
    fragment in [outseqs], its length in [sizedict] under its
    identifier, and their number in [count]. *)
Definition final_locals (F : nat) (records : list Bio.SeqRecord) : Locals :=
  let frs := mjoin (file_fragments F 0 records) in
  {| sizedict := (λ fr, (Bio.id fr, Bio.len fr)) <$> frs;
     outseqs := frs;
     count := length frs |}.

(** *** [subcmd_anib] *)

(** The [argparse.Namespace] the subcommand is called with. *)
Record Namespace : Type := mkNamespace {
  blastn_exe : string;
  name : option string;
  dbpath : string;
  cmdline : string;
  indir : Path;
  classes : string;
  labels : string;
  outdir : Path;
  fragsize : Z;
  disable_tqdm : bool;
  recovery : bool
}.

(** What the collaborators of the subcommand answer: the rest of the
    package ([anib], [pyani_orm], [pyani_files]), the clock and the
    operating system. A field named [_fault] gives the exception a
    call raises, if it raises one. *)
Record Env : Type := mkEnv {
  blastn_version_of : string → string;
  now_isoformat : string;
  get_session_fault : string → option exn;
  add_run_fault : option exn;
  add_run_genomes_result : exn + list Orm.Genome;
  makedirs_fault : Path → option exn;
  write_fault_at : Path → write_fault;
  already_computed : Orm.Genome → Orm.Genome → string → string → Z → bool;
  summary_matrices : Orm.Run → Orm.Run;
  existing_output : Path → list Path;
  fragment_fasta_files_result : list Path * list string;
  fragment_fasta_files_writes :
    list Path → Path → Z → gmap Path (list Bio.SeqRecord)
    → gmap Path (list Bio.SeqRecord)
}.

(** [anib.get_version(blastn_exe)] *)
Definition get_version (env : Env) (exe : string) : M string :=
  emit (Call GetVersion exe);;
  ret (blastn_version_of env exe).

(** [x or y] on an optional string: [None] and the empty string are
    false. *)
Definition py_or (x : option string) (y : string) : string :=
  match x with
  | Some s => if decide (s = "") then y else s
  | None => y
  end.

(** Modelled from the spec: [pyani_orm.get_session], the connection
    to the persistent store, which fails with an exception when the
    store cannot be reached. *)
Definition get_session (env : Env) (dbpath : string) : M unit :=
  emit (Call GetSession dbpath);;
  match get_session_fault env dbpath with
  | Some e => raise e
  | None => ret tt
  end.

Definition fresh_run_id (rs : gmap Z Orm.Run) : Z :=
  (1 + map_fold (λ k _ m, Z.max k m) 0 rs)%Z.

Definition store_run (run : Z) (row : Orm.Run) : M unit :=
  λ w, ({| files := files w; runs := <[run := row]> (runs w);
           trace := trace w |}, Val tt).

Definition fresh_id : M Z := λ w, (w, Val (fresh_run_id (runs w))).

Definition lookup_run (run : Z) : M (option Orm.Run) :=
  λ w, (w, Val (runs w !! run)).

(** Modelled from the spec: [pyani_orm.add_run], the store's "create
    run": a new row of the run table with the attributes given, under
    an identifier no row has yet; the run is returned by that
    identifier. *)
Definition add_run (env : Env) (method cmdline date status name : string) : M Z :=
  emit (Call AddRun name);;
  match add_run_fault env with
  | Some e => raise e
  | None =>
      run ← fresh_id;
      store_run run
                 {| Orm.run_id := run; Orm.method := method;
                    Orm.cmdline := cmdline; Orm.date := date;
                    Orm.status := status; Orm.run_name := name;
                    Orm.genomes := [];
                    Orm.df_identity := ""; Orm.df_coverage := "";
                    Orm.df_alnlength := ""; Orm.df_simerrors := "";
                    Orm.df_hadamard := "" |};;
      ret run
  end.

Definition set_genomes (row : Orm.Run) (gs : list Orm.Genome) : Orm.Run :=
  {| Orm.run_id := Orm.run_id row; Orm.method := Orm.method row;
     Orm.cmdline := Orm.cmdline row; Orm.date := Orm.date row;
     Orm.status := Orm.status row; Orm.run_name := Orm.run_name row;
     Orm.genomes := gs;
     Orm.df_identity := Orm.df_identity row;
     Orm.df_coverage := Orm.df_coverage row;
     Orm.df_alnlength := Orm.df_alnlength row;
     Orm.df_simerrors := Orm.df_simerrors row;
     Orm.df_hadamard := Orm.df_hadamard row |}.

(** Modelled from the spec: [pyani_orm.add_run_genomes], the store's
    "add genomes to run": the genome files of the input directory
    become the member genomes of the run, and their identifiers are
    returned. *)
Definition add_run_genomes (env : Env) (run : Z) (indir : Path)
    (classes labels : string) : M (list Z) :=
  emit (Call AddRunGenomes (str indir));;
  match add_run_genomes_result env with
  | inl e => raise e
  | inr gs =>
      row ← lookup_run run;
      match row with
      | Some row => store_run run (set_genomes row gs)
      | None => ret tt
      end;;
      ret (Orm.genome_id <$> gs)
  end.

(** [run.genomes.all()] *)
Definition run_genomes_all (run : Z) : M (list Orm.Genome) :=
  emit (Call RunGenomesAll "");;
  row ← lookup_run run;
  ret (from_option Orm.genomes [] row).

(** [os.makedirs(p, exist_ok=True)] *)
Definition makedirs (env : Env) (p : Path) : M unit :=
  emit (Makedirs p);;
  match makedirs_fault env p with
  | Some e => raise e
  | None => ret tt
  end.

(** Modelled from the spec: [pyani_orm.filter_existing_comparisons],
    section 4.3: a pair with a stored result for the same method,
    version and fragment size leaves the pending set, any other pair
    stays in it. *)
Definition filter_existing_comparisons (env : Env) (run : Z)
    (comparisons : list (Orm.Genome * Orm.Genome))
    (program version : string) (fragsize : Z)
    : M (list (Orm.Genome * Orm.Genome)) :=
  emit (Call FilterExistingComparisons program);;
  ret (filter (λ c, already_computed env c.1 c.2 program version fragsize = false)
         comparisons).

(** Modelled from the spec: [pyani_orm.update_comparison_matrices],
    the store's "update summary matrices for a run". *)
Definition update_comparison_matrices (env : Env) (run : Z) : M unit :=
  emit (Call UpdateComparisonMatrices "");;
  row ← lookup_run run;
  match row with
  | Some row => store_run run (summary_matrices env row)
  | None => ret tt
  end.

(** [pyani_files.collect_existing_output(outdir, program, args)] *)
Definition collect_existing_output (env : Env) (outdir : Path)
    (program : string) : M (list Path) :=
  emit (Call CollectExistingOutput program);;
  ret (existing_output env outdir).

(** What a collaborator does to the files. *)
Definition write_files
    (writes : gmap Path (list Bio.SeqRecord) → gmap Path (list Bio.SeqRecord))
    : M unit :=
  λ w, ({| files := writes (files w); runs := runs w; trace := trace w |}, Val tt).

(** [anib.fragment_fasta_files(paths, outdir, fragsize)]: it writes
    fragment files, and returns their paths and the sizes of their
    fragments. *)
Definition anib_fragment_fasta_files (env : Env) (paths : list Path)
    (outdir : Path) (fragsize : Z) : M (list Path * list string) :=
  emit (Call FragmentFastaFiles (str outdir));;
  write_files (fragment_fasta_files_writes env paths outdir fragsize);;
  ret (fragment_fasta_files_result env).

(** [generate_joblist]: its body is [raise NotImplementedError]. *)
Definition generate_joblist (comparisons : list (Orm.Genome * Orm.Genome))
    (existingfiles : option (list Path)) (fragfiles : list Path)
    (fraglens : list string) (args : Namespace) : M (list unit) :=
  emit (Call GenerateJoblist "");;
  raise NotImplementedError.

(** Lines 164 to 171 of [subcmd_anib]: the loop over the genomes of
    the run, which fragments each and prints the path of its fragment
    file and the length of the JSON text of its sizes. *)
Definition fragment_genomes (env : Env) (fuel : nat) (args : Namespace)
    (fragdir : Path) (genomes : list Orm.Genome) : M unit :=
  for_each genomes (λ genome,
    '(fragpath, fraglengths) ←
      fragment_fasta_file
        (write_fault_at env (fragpath_of (Orm.path genome) fragdir))
        fuel (Orm.path genome) fragdir (fragsize args);
    emit (Print fragpath (String.length fraglengths))).

(** Lines 91 to 171 of [subcmd_anib]: from the first log line to the
    end of the loop that fragments every genome. The locals the rest
    of the function reads are returned. *)
Definition setup_and_fragment (env : Env) (fuel : nat) (args : Namespace)
    : M (string * Z * list Orm.Genome) :=
  logger_info "Running ANIm analysis";;
  blastn_version ← get_version env (blastn_exe args);
  logger_info "BLAST+ blastn version: {blastn_version}";;
  let start_time := now_isoformat env in
  let name := py_or (name args) (join "_" ["ANIb"; start_time]) in
  logger_info "Analysis name: {name}";;
  logger_info "Connecting to database {args.dbpath}";;
  try_except (get_session env (dbpath args)) is_Exception
    (logger_error "Could not connect to database {args.dbpath} (exiting)";;
     raise (SystemExit 1));;
  logger_info "Adding run info to database {args.dbpath}...";;
  run ← try_except
          (add_run env "ANIb" (cmdline args) start_time "started" name)
          is_PyaniORMException
          (logger_error "Could not add run to the database (exiting)";;
           raise (SystemExit 1));
  logger_info "\t...added run ID: {run} to the database";;
  logger_info "Adding files for {run} to database...";;
  genome_ids ← try_except
                 (ids ← add_run_genomes env run (indir args) (classes args)
                          (labels args);
                  ret (Some ids))
                 is_PyaniORMException
                 (logger_error
                    "Could not add genomes to database for run {run} (exiting)";;
                  ret None);
  read_local "genome_ids" genome_ids;;
  logger_info "\t...added genome IDs: {genome_ids}";;
  logger_info "Compiling genomes for comparison";;
  genomes ← run_genomes_all run;
  logger_info "\tCollected {len(genomes)} genomes for this run";;
  logger_info "Creating output directory {args.outdir}";;
  try_except (makedirs env (outdir args)) is_OSError
    (logger_error "Could not create output directory {args.outdir} (exiting)";;
     raise (SystemError 1));;
  let fragdir := div (outdir args) "fragments" in
  let blastdbdir := div (outdir args) "blastdbs" in
  logger_info "\t...creating subdirectories";;
  makedirs env fragdir;;
  makedirs env blastdbdir;;
  logger_info "Creating input sequence fragment files...";;
  fragment_genomes env fuel args fragdir genomes;;
  ret (blastn_version, run, genomes).

(** Lines 175 to 238 of [subcmd_anib]: enumeration, the filter on
    existing comparisons, recovery, and the job list. *)
Definition compare_and_aggregate (env : Env) (args : Namespace)
    (blastn_version : string) (run : Z) (genomes : list Orm.Genome) : M unit :=
  logger_info
    "Compiling pairwise comparisons (this can take time for large datasets)...";;
  emit (Call Tqdm "");;
  let comparisons := permutations2 genomes in
  logger_info "\t...total parwise comparisons to be performed: {len(comparisons)}";;
  logger_info "Checking database for existing comparison data...";;
  comparisons_to_run ←
    filter_existing_comparisons env run comparisons "blastn" blastn_version
      (fragsize args);
  logger_info
    "\t...after check, still need to run {len(comparisons_to_run)} comparisons";;
  if bool_decide (comparisons_to_run = []) then
    logger_info "All comparison results present in database (skipping comparisons)";;
    logger_info "Updating summary matrices with existing results";;
    update_comparison_matrices env run
  else
    existingfiles ←
      (if recovery args then
         logger_warning "Entering recovery mode...";;
         logger_info
           "\tIn this mode, existing comparison output from {args.outdir} is reused";;
         existingfiles ← collect_existing_output env (outdir args) "blastn";
         logger_info
           "\tIdentified {len(existingfiles)} existing output files for reuse";;
         ret (Some existingfiles)
       else
         logger_info "\tIdentified no existing output files";;
         ret None);
    logger_info "Splitting input genome files into {args.fragsize}nt fragments...";;
    let fragdir := div (outdir args) "fragments" in
    makedirs env fragdir;;
    '(fragfiles, fraglens) ←
      anib_fragment_fasta_files env (Orm.path <$> genomes) fragdir (fragsize args);
    logger_info "...wrote {len(fragfiles)} fragment files to {fragdir}";;
    logger_info "Creating blastn jobs for ANIb...";;
    joblist ← generate_joblist comparisons_to_run existingfiles fragfiles
                fraglens args;
    logger_info "...created {len(joblist)} blastn jobs";;
    raise NotImplementedError.

(** The events of lines 175 to 238: the enumeration of the pairs, the
    filter on existing comparisons, the update of the matrices, the
    scan for recovery, the second fragmenting and the job list. *)
Definition comparison_stage (ev : event) : bool :=
  match ev with
  | Call (Tqdm | FilterExistingComparisons | UpdateComparisonMatrices
         | CollectExistingOutput | FragmentFastaFiles | GenerateJoblist) _ => true
  | _ => false
  end.

(** The events of the loop that fragments the genomes. *)
Definition fragmenting (ev : event) : bool :=
  match ev with
  | SeqIOParse _ | SeqIOWrite _ _ | Print _ _ => true
  | _ => false
  end.

(** [subcmd_anib(args, logger)]: the two parts, with the
    [raise NotImplementedError] of line 173 between them. *)
Definition subcmd_anib (env : Env) (fuel : nat) (args : Namespace) : M unit :=
  '(blastn_version, run, genomes) ← setup_and_fragment env fuel args;
  (raise NotImplementedError : M unit);;
  compare_and_aggregate env args blastn_version run genomes.

(** [w'] comes after [w] by events that are not of the comparison
    stage, and the run table of [w'] has every row of [w], with the
    status it had, and new rows with the status [started] only. *)
Definition advances (w w' : World) : Prop :=
  (∃ evs, trace w' = trace w ++ evs
          ∧ Forall (λ ev, comparison_stage ev = false) evs)
  ∧ (∀ run row', runs w' !! run = Some row' →
       match runs w !! run with
       | Some row => Orm.status row' = Orm.status row
       | None => Orm.status row' = "started"
       end)
  ∧ (∀ run, is_Some (runs w !! run) → is_Some (runs w' !! run)).

(** A computation that only ever takes a world to one that comes
    after it. *)
Definition keeps {A : Type} (m : M A) : Prop := ∀ w, advances w (m w).1.

End Anib.

(** ** [subcmd_plot.py] *)

Module Plot.

Import Py Pathlib Rt.

(** The [argparse.Namespace] the subcommand is called with;
    [run_id] is the text of the option, a comma-separated list. *)
Record Namespace : Type := mkNamespace {
  outdir : Path;
  method : string;
  dbpath : string;
  formats : string;
  run_id : string
}.

(** An active session on the store, by what its queries answer. The
    value a query compares with [Run.run_id] is whatever the caller
    passes, here a string. *)
Record Session : Type := mkSession {
  run_first : string → option Orm.Run;
  matrix_labels_for_run : string → dict string;
  matrix_classes_for_run : string → dict string
}.

(** What the collaborators of the subcommand answer. *)
Record Env : Type := mkEnv {
  session_of : string → Session;
  get_colormap : DataFrame → string → string;
  int_of : string → option Z;
  makedirs_fault : Path → option exn;
  readable_json : string → bool
}.

(** [pyani_tools.MatrixData(name, data, graphic_args)] *)
Record MatrixData : Type := mkMatrixData {
  name : string;
  data : DataFrame;
  graphic_args : dict string
}.

(** The keys of [GMETHODS] and of [DISTMETHODS]. *)
Definition graphics_methods : list string := ["mpl"; "seaborn"].

(** [GMETHODS[key]], [DISTMETHODS[key]] *)
Definition method_lookup (key : string) : M string :=
  if bool_decide (key ∈ graphics_methods) then ret key else raise (KeyError key).

(** [s.split(c)] *)
Fixpoint split (c : ascii) (s : string) : list string :=
  match s with
  | EmptyString => [""]
  | String a s' =>
      let parts := split c s' in
      if decide (a = c) then "" :: parts
      else match parts with
           | part :: rest => String a part :: rest
           | [] => [String a ""]
           end
  end.

(** [session.query(Run).filter(Run.run_id == key).first()] *)
Definition query_run_first (session : Session) (key : string) : M (option Orm.Run) :=
  emit (Call QueryRun key);;
  ret (run_first session key).

Definition get_matrix_labels_for_run (session : Session) (key : string)
    : M (dict string) :=
  emit (Call GetMatrixLabels key);;
  ret (matrix_labels_for_run session key).

Definition get_matrix_classes_for_run (session : Session) (key : string)
    : M (dict string) :=
  emit (Call GetMatrixClasses key);;
  ret (matrix_classes_for_run session key).

(** [results.<attribute>], where [results] may be [None]. *)
Definition getattr {A : Type} (results : option Orm.Run) (attribute : string)
    (field : Orm.Run → A) : M A :=
  match results with
  | Some row => ret (field row)
  | None => raise (AttributeError attribute)
  end.

(** The five matrices of a row, in the order in which
    [write_run_heatmaps] reads them. *)
Definition matrices (row : Orm.Run) : list string :=
  [Orm.df_identity row; Orm.df_coverage row; Orm.df_alnlength row;
   Orm.df_simerrors row; Orm.df_hadamard row].

(** [pd.read_json(text)]: the frame of a JSON text; on a text that
    [pandas] cannot read as JSON it raises [ValueError]. *)
Definition read_json (env : Env) (text : string) : M DataFrame :=
  if readable_json env text then ret (mkDataFrame text) else raise ValueError.

(** [write_heatmap] *)
Definition write_heatmap (env : Env) (run_id : Z) (matdata : MatrixData)
    (result_labels result_classes : dict string) (outfmts : list string)
    (args : Namespace) : M unit :=
  logger_info "Writing {matdata.name} matrix heatmaps";;
  let cmap := get_colormap env (data matdata) (name matdata) in
  for_each outfmts (λ fmt,
    let outfname :=
      div (outdir args)
        ("matrix_" +:+ name matdata +:+ "_run" +:+ str_of_Z run_id +:+ "." +:+ fmt) in
    logger_info_f "\tWriting graphics to {outfname}" [str outfname];;
    let params := mkParams cmap result_labels result_classes in
    gmethod ← method_lookup (method args);
    emit (Heatmap gmethod (data matdata) outfname
            ("matrix_" +:+ name matdata +:+ "_run" +:+ str_of_Z run_id) params));;
  emit PltCloseAll.

(** [write_distribution] *)
Definition write_distribution (run_id : Z) (matdata : MatrixData)
    (outfmts : list string) (args : Namespace) : M unit :=
  logger_info "Writing distribution plot for {matdata.name} matrix";;
  for_each outfmts (λ fmt,
    let outfname :=
      div (outdir args)
        ("distribution_" +:+ name matdata +:+ "_run" +:+ str_of_Z run_id
         +:+ "." +:+ fmt) in
    logger_info_f "\tWriting graphics to {outfname}" [str outfname];;
    dmethod ← method_lookup (method args);
    emit (Distribution dmethod (data matdata) outfname (name matdata)
            ("matrix_" +:+ name matdata +:+ "_run" +:+ str_of_Z run_id))).

(** Lines 109 to 116 of [write_run_heatmaps]: what is read from the
    store. The three queries are keyed by [args.run_id]. *)
Definition acquire_results (run_id : Z) (session : Session) (args : Namespace)
    : M (option Orm.Run * dict string * dict string) :=
  logger_info_f "Acquiring results for run {run_id}" [str_of_Z run_id];;
  logger_info "\t...retrieving results matrices";;
  results ← query_run_first session (Plot.run_id args);
  result_label_dict ← get_matrix_labels_for_run session (Plot.run_id args);
  result_class_dict ← get_matrix_classes_for_run session (Plot.run_id args);
  ret (results, result_label_dict, result_class_dict).

(** [write_run_heatmaps]: the list of lines 121 to 127 is built
    before the loop starts, one matrix after the other, each read from
    the row and then parsed. *)
Definition write_run_heatmaps (env : Env) (run_id : Z) (session : Session)
    (outfmts : list string) (args : Namespace) : M unit :=
  '(results, result_label_dict, result_class_dict) ←
    acquire_results run_id session args;
  identity ← getattr results "df_identity" Orm.df_identity ≫= read_json env;
  coverage ← getattr results "df_coverage" Orm.df_coverage ≫= read_json env;
  aln_lengths ← getattr results "df_alnlength" Orm.df_alnlength ≫= read_json env;
  sim_errors ← getattr results "df_simerrors" Orm.df_simerrors ≫= read_json env;
  hadamard ← getattr results "df_hadamard" Orm.df_hadamard ≫= read_json env;
  for_each
    [mkMatrixData "identity" identity [];
     mkMatrixData "coverage" coverage [];
     mkMatrixData "aln_lengths" aln_lengths [];
     mkMatrixData "sim_errors" sim_errors [];
     mkMatrixData "hadamard" hadamard []]
    (λ matdata,
      write_heatmap env run_id matdata result_label_dict result_class_dict
        outfmts args;;
      write_distribution run_id matdata outfmts args).

(** [[int(run) for run in runs]] *)
Fixpoint ints_of (env : Env) (runs : list string) : M (list Z) :=
  match runs with
  | [] => ret []
  | run :: rest =>
      match int_of env run with
      | Some z => zs ← ints_of env rest; ret (z :: zs)
      | None => raise ValueError
      end
  end.

(** [subcmd_plot(args, logger)] *)
Definition subcmd_plot (env : Env) (args : Namespace) : M Z :=
  logger_info "Generating graphical output for analyses";;
  logger_info "Writing output to: {args.outdir}";;
  emit (Makedirs (outdir args));;
  match makedirs_fault env (outdir args) with
  | Some e => raise e
  | None => ret tt
  end;;
  logger_info "Rendering method: {args.method}";;
  logger_info "Activating session for database: {args.dbpath}";;
  emit (Call GetSession (dbpath args));;
  let session := session_of env (dbpath args) in
  let outfmts := split "," (formats args) in
  logger_info "Requested output formats: {outfmts}";;
  run_ids ← ints_of env (split "," (Plot.run_id args));
  logger_info "Generating graphics for runs: {run_ids}";;
  for_each run_ids (λ run_id,
    write_run_heatmaps env run_id session outfmts args);;
  ret 0%Z.

(** An event without the name of its output file and without its
    plot title: a plot as it is drawn, and the log line of lines 153
    and 185 that quotes the name of the file. *)
Definition untitled (ev : event) : event :=
  match ev with
  | Heatmap gmethod data _ _ params => Heatmap gmethod data [] "" params
  | Distribution dmethod data _ matname _ => Distribution dmethod data [] matname ""
  | Logf lvl template values =>
      if String.eqb template "\tWriting graphics to {outfname}"
      then Logf lvl template [] else ev
  | ev => ev
  end.

(** An untitled event, and without the run identifier that the log
    line of line 110 quotes. *)
Definition unnamed (ev : event) : event :=
  match untitled ev with
  | Logf lvl template values =>
      if String.eqb template "Acquiring results for run {run_id}"
      then Logf lvl template [] else Logf lvl template values
  | ev => ev
  end.

(** Two worlds with the same files and the same run table, whose
    events are the same once unnamed. *)
Definition alike (w1 w2 : World) : Prop :=
  files w1 = files w2
  ∧ runs w1 = runs w2
  ∧ unnamed <$> trace w1 = unnamed <$> trace w2.

(** Two computations that take alike worlds to alike worlds and end
    the same way. *)
Definition agree {A : Type} (m1 m2 : M A) : Prop :=
  ∀ w1 w2, alike w1 w2 → alike (m1 w1).1 (m2 w2).1 ∧ (m1 w1).2 = (m2 w2).2.

End Plot.

(** ** Inputs the properties are tried on *)

Module Examples.

Import Py Pathlib Rt.

(** A genome of two records, of seven and of three letters. *)
Definition genome_two_contigs : list Bio.SeqRecord :=
  [Bio.mkSeqRecord "contig1" "contig1" "contig1 first" (replicate 7 "A"%char);
   Bio.mkSeqRecord "contig2" "contig2" "contig2 second" (replicate 3 "C"%char)].

Definition genome_one_contig : list Bio.SeqRecord :=
  [Bio.mkSeqRecord "chr" "chr" "chr" (replicate 5 "G"%char)].

Definition world_two_contigs : World :=
  mkWorld {[ ["genomes"; "g1.fasta"] := genome_two_contigs ]} ∅ [].

(** A genome of one record of [n] letters. *)
Definition long_record (n : nat) : Bio.SeqRecord :=
  Bio.mkSeqRecord "chr1" "chr1" "chr1" (replicate n "A"%char).

Definition world_long_record (n : nat) : World :=
  mkWorld {[ ["genomes"; "big.fasta"] := [long_record n] ]} ∅ [].

Definition g1 : Orm.Genome := Orm.mkGenome 1 ["genomes"; "g1.fasta"] "first".
Definition g2 : Orm.Genome := Orm.mkGenome 2 ["genomes"; "g2.fasta"] "second".

Definition world_two_genomes : World :=
  mkWorld {[ ["genomes"; "g1.fasta"] := genome_two_contigs;
             ["genomes"; "g2.fasta"] := genome_one_contig ]} ∅ [].

Definition args_anib : Anib.Namespace :=
  Anib.mkNamespace "blastn" None "pyanidb" "pyani anib genomes out"
    ["genomes"] "classes.txt" "labels.txt" ["out"] 3 true false.

(** Every collaborator answers, and the store holds a result for
    every pair. *)
Definition env_ok : Anib.Env :=
  Anib.mkEnv (λ _, "2.9.0+") "2019-07-01T10:00:00" (λ _, None) None
    (inr [g1; g2]) (λ _, None) (λ _, NoFault) (λ _ _ _ _ _, true)
    (λ row, row) (λ _, []) ([], [])
    (λ _ _ _ fs, fs).

(** The store cannot be reached. *)
Definition env_no_store : Anib.Env :=
  Anib.mkEnv (λ _, "2.9.0+") "2019-07-01T10:00:00"
    (λ _, Some (OtherException "OperationalError")) None
    (inr [g1; g2]) (λ _, None) (λ _, NoFault) (λ _ _ _ _ _, true)
    (λ row, row) (λ _, []) ([], [])
    (λ _ _ _ fs, fs).

(** The store refuses the genomes of the run. *)
Definition env_no_genomes : Anib.Env :=
  Anib.mkEnv (λ _, "2.9.0+") "2019-07-01T10:00:00" (λ _, None) None
    (inl PyaniORMException) (λ _, None) (λ _, NoFault) (λ _ _ _ _ _, true)
    (λ row, row) (λ _, []) ([], [])
    (λ _ _ _ fs, fs).

(** The output directory cannot be made. *)
Definition env_no_outdir : Anib.Env :=
  Anib.mkEnv (λ _, "2.9.0+") "2019-07-01T10:00:00" (λ _, None) None
    (inr [g1; g2])
    (λ p, if decide (p = ["out"]) then Some (OSError "PermissionError") else None)
    (λ _, NoFault) (λ _ _ _ _ _, true) (λ row, row) (λ _, []) ([], [])
    (λ _ _ _ fs, fs).

(** Every write of a fragment file breaks off after two records. *)
Definition env_write_breaks : Anib.Env :=
  Anib.mkEnv (λ _, "2.9.0+") "2019-07-01T10:00:00" (λ _, None) None
    (inr [g1; g2]) (λ _, None) (λ _, FailsAfter 2) (λ _ _ _ _ _, true)
    (λ row, row) (λ _, []) ([], [])
    (λ _ _ _ fs, fs).

(** The JSON text of a matrix over the genomes 1 and 2, column by
    column, as [DataFrame.to_json] writes it. *)
Definition matrix_json (a11 a21 a12 a22 : string) : string :=
  let key k := dquote +:+ k +:+ dquote +:+ ":" in
  "{" +:+ key "1" +:+ "{" +:+ key "1" +:+ a11 +:+ "," +:+ key "2" +:+ a21 +:+ "},"
  +:+ key "2" +:+ "{" +:+ key "1" +:+ a12 +:+ "," +:+ key "2" +:+ a22 +:+ "}}".

Definition stored_run : Orm.Run :=
  Orm.mkRun 1 "ANIm" "pyani anim" "2019-06-30" "complete" "first run" [g1; g2]
    (matrix_json "1.0" "0.9" "0.9" "1.0")
    (matrix_json "1.0" "0.8" "0.7" "1.0")
    (matrix_json "10" "7" "7" "5")
    (matrix_json "0" "1" "1" "0")
    (matrix_json "1.0" "0.72" "0.63" "1.0").


(** A session whose queries know the run [1] and no other key. *)
Definition session_one_run : Plot.Session :=
  Plot.mkSession
    (λ key, if decide (key = "1") then Some stored_run else None)
    (λ key, if decide (key = "1") then [("1", "first"); ("2", "second")] else [])
    (λ key, if decide (key = "1") then [("1", "A"); ("2", "B")] else []).

(** [pandas] reads the matrices of the stored run, and no other text
    that is tried. *)
Definition env_plot : Plot.Env :=
  Plot.mkEnv (λ _, session_one_run) (λ _ _, "spbnd_BuRd")
    (λ s, if decide (s = "1") then Some 1%Z
          else if decide (s = "2") then Some 2%Z else None)
    (λ _, None)
    (λ text, bool_decide (text ∈ Plot.matrices stored_run)).

Definition args_plot : Plot.Namespace :=
  Plot.mkNamespace ["plots"] "mpl" "pyanidb" "png,pdf" "1".

Definition world_empty : World := mkWorld ∅ ∅ [].

End Examples.

(** ** What a run shows of itself *)

Module Obs.

Import Py Pathlib Rt.

(** A computation whose new events all satisfy [ok], from every world. *)
Definition emits_only {A : Type} (ok : event → Prop) (m : M A) : Prop :=
  ∀ w, ∃ evs, trace (m w).1 = trace w ++ evs ∧ Forall ok evs.

(** The files the heat maps of a list of events were drawn to. *)
Definition heatmap_files (evs : list event) : list Path :=
  ev ← evs;
  match ev with
  | Heatmap _ _ outfname _ _ => [outfname]
  | _ => []
  end.


(** An event that draws a plot. *)
Definition draws (ev : event) : bool :=
  match ev with
  | Heatmap _ _ _ _ _ | Distribution _ _ _ _ _ => true
  | _ => false
  end.

(** The names of the five matrices, in the order of lines 122 to 126
    of [write_run_heatmaps]. *)
Definition matrix_names : list string :=
  ["identity"; "coverage"; "aln_lengths"; "sim_errors"; "hadamard"].

(** The numbers a list of events printed beside a path. *)
Definition printed (evs : list event) : list nat :=
  ev ← evs;
  match ev with
  | Print _ n => [n]
  | _ => []
  end.



(** The data of the plots of a list of events. *)
Definition plotted_data (evs : list event) : list DataFrame :=
  ev ← evs;
  match ev with
  | Heatmap _ data _ _ _ | Distribution _ data _ _ _ => [data]
  | _ => []
  end.

(** A query on the store asks under the key [key]. *)
Definition keyed_by (key : string) (ev : event) : Prop :=
  match ev with
  | Call (QueryRun | GetMatrixLabels | GetMatrixClasses) asked => asked = key
  | _ => True
  end.

(** The world [w] with the events [evs] after its own. *)
Definition after (w : World) (evs : list event) : World :=
  {| files := files w; runs := runs w; trace := trace w ++ evs |}.

(** A computation that, from every world, makes the events [evs],
    changes nothing else and returns [a]. *)
Definition says {A : Type} (m : M A) (evs : list event) (a : A) : Prop :=
  ∀ w, m w = (after w evs, Val a).

(** A computation that, from every world, makes the events [evs],
    changes nothing else and raises [e]. *)
Definition throws {A : Type} (m : M A) (evs : list event) (e : exn) : Prop :=
  ∀ w, m w = (after w evs, Exc e).

End Obs.

(** ** More inputs *)

Module Inputs.

Import Py Pathlib Rt.

(** The fragments of the two genomes of [Examples.world_two_genomes],
    cut with a fragment size of 3. *)
Definition fragments_g1 : Anib.Locals := Anib.final_locals 3 Examples.genome_two_contigs.
Definition fragments_g2 : Anib.Locals := Anib.final_locals 3 Examples.genome_one_contig.

(** Every collaborator answers, and the store holds no result; [anib]
    writes a fragment file for each of the two genomes. *)
Definition env_nothing_stored : Anib.Env :=
  Anib.mkEnv (λ _, "2.9.0+") "2019-07-01T10:00:00" (λ _, None) None
    (inr [Examples.g1; Examples.g2]) (λ _, None) (λ _, NoFault)
    (λ _ _ _ _ _, false) (λ row, row) (λ _, [])
    ([["out"; "fragments"; "g1-fragments.fasta"];
      ["out"; "fragments"; "g2-fragments.fasta"]],
     [json_dumps (Anib.sizedict fragments_g1);
      json_dumps (Anib.sizedict fragments_g2)])
    (λ _ outdir _ fs,
       <[div outdir "g2-fragments.fasta" := Anib.outseqs fragments_g2]>
         (<[div outdir "g1-fragments.fasta" := Anib.outseqs fragments_g1]> fs)).

(** The store refuses the run. *)
Definition env_no_run : Anib.Env :=
  Anib.mkEnv (λ _, "2.9.0+") "2019-07-01T10:00:00" (λ _, None)
    (Some PyaniORMException)
    (inr [Examples.g1; Examples.g2]) (λ _, None) (λ _, NoFault)
    (λ _ _ _ _ _, true) (λ row, row) (λ _, []) ([], [])
    (λ _ _ _ fs, fs).

(** The directory of the fragments cannot be made. *)
Definition env_no_fragdir : Anib.Env :=
  Anib.mkEnv (λ _, "2.9.0+") "2019-07-01T10:00:00" (λ _, None) None
    (inr [Examples.g1; Examples.g2])
    (λ p, if decide (p = ["out"; "fragments"]) then Some (OSError "PermissionError")
          else None)
    (λ _, NoFault) (λ _ _ _ _ _, true) (λ row, row) (λ _, []) ([], [])
    (λ _ _ _ fs, fs).

(** The arguments of [Examples.args_anib] with a fragment size of zero. *)
Definition args_fragsize_zero : Anib.Namespace :=
  Anib.mkNamespace "blastn" None "pyanidb" "pyani anib genomes out"
    ["genomes"] "classes.txt" "labels.txt" ["out"] 0 true false.

(** The arguments of [Examples.args_anib] with a name for the run. *)
Definition args_named : Anib.Namespace :=
  Anib.mkNamespace "blastn" (Some "trial") "pyanidb" "pyani anib genomes out"
    ["genomes"] "classes.txt" "labels.txt" ["out"] 3 true false.

(** A genome file without a letter: one empty record. *)
Definition genome_empty : list Bio.SeqRecord :=
  [Bio.mkSeqRecord "void" "void" "void" []].

Definition world_empty_genome : World :=
  mkWorld {[ ["genomes"; "e.fasta"] := genome_empty ]} ∅ [].

(** Two genome files of one stem, in two directories. *)
Definition world_same_stem : World :=
  mkWorld {[ ["a"; "g.fasta"] := Examples.genome_two_contigs;
             ["b"; "g.fna"] := Examples.genome_one_contig ]} ∅ [].

(** The row of a run as [subcmd_anib] leaves it: started, and without
    matrices. *)
Definition fresh_run : Orm.Run :=
  Orm.mkRun 1 "ANIb" "pyani anib genomes out" "2019-07-01T10:00:00" "started"
    "ANIb_2019-07-01T10:00:00" [Examples.g1; Examples.g2] "" "" "" "" "".

(** A session whose queries know the fresh run under the key [1]. *)
Definition session_fresh_run : Plot.Session :=
  Plot.mkSession (λ key, if decide (key = "1") then Some fresh_run else None)
    (λ _, []) (λ _, []).

(** The collaborators of [Examples.env_plot], with a session that
    answers every key with the stored run. *)
Definition env_plot_any_key : Plot.Env :=
  Plot.mkEnv
    (λ _, Plot.mkSession (λ _, Some Examples.stored_run) (λ _, []) (λ _, []))
    (λ _ _, "cmap")
    (λ s, if decide (s = "1") then Some 1%Z
          else if decide (s = "2") then Some 2%Z else None)
    (λ _, None)
    (λ text, bool_decide (text ∈ Plot.matrices Examples.stored_run)).

(** A session on a store without any run. *)
Definition session_no_run : Plot.Session :=
  Plot.mkSession (λ _, None) (λ _, []) (λ _, []).

(** The arguments of [Examples.args_plot] with a rendering method that
    [GMETHODS] does not have. *)
Definition args_plot_bokeh : Plot.Namespace :=
  Plot.mkNamespace ["plots"] "bokeh" "pyanidb" "png,pdf" "1".

(** The arguments of [Examples.args_plot] with two runs, the second one
    not a number. *)
Definition args_plot_bad_id : Plot.Namespace :=
  Plot.mkNamespace ["plots"] "mpl" "pyanidb" "png,pdf" "1,x".

(** The arguments of [Examples.args_plot] with two runs. *)
Definition args_plot_two : Plot.Namespace :=
  Plot.mkNamespace ["plots"] "mpl" "pyanidb" "png" "1,2".

End Inputs.

(** * Properties *)

(** * Python builtins *)

Section slices.
Context {A : Type}.
Implicit Types s : list A.

Lemma slice_chunk s (F off : nat) :
  1 ≤ F →
  Py.slice s (Z.of_nat off) (Z.of_nat off + Z.of_nat F) = take F (drop off s).
Proof.
  intros HF. unfold Py.slice, Py.slice_index.
  destruct (Z.ltb_spec (Z.of_nat off) 0); [lia|].
  destruct (Z.ltb_spec (Z.of_nat off + Z.of_nat F) 0); [lia|].
  destruct (decide (off ≤ length s)) as [Hle|Hgt].
  - replace (Z.to_nat (Z.of_nat off `min` Z.of_nat (length s))) with off by lia.
    destruct (decide (off + F ≤ length s)).
    + f_equal. lia.
    + rewrite !take_ge; [done | rewrite length_drop; lia | rewrite length_drop; lia].
  - rewrite !drop_ge by lia. by rewrite !take_nil.
Qed.
End slices.

Lemma ceil_div_lt (L F j : nat) :
  1 ≤ F → j < Anib.ceil_div L F ↔ j * F < L.
Proof.
  intros HF. unfold Anib.ceil_div. split.
  - intros Hj.
    destruct (decide (j * F < L)) as [|Hn]; [done|].
    assert ((L + F - 1) / F < S j); [|lia].
    apply Nat.Div0.div_lt_upper_bound. nia.
  - intros Hj.
    assert (S j ≤ (L + F - 1) / F); [|lia].
    apply Nat.div_le_lower_bound; [lia | nia].
Qed.

Lemma ceil_div_le (L F : nat) : 1 ≤ F → Anib.ceil_div L F ≤ L.
Proof.
  intros HF. destruct (decide (Anib.ceil_div L F ≤ L)) as [|Hn]; [done|].
  assert (L < Anib.ceil_div L F) as H%ceil_div_lt by lia; [nia | done].
Qed.

(** ** Decimal formatting *)

Lemma string_of_uint_zeros (k : nat) (d : Decimal.uint) :
  (Py.zeros k +:+ NilEmpty.string_of_uint d)%string
  = NilEmpty.string_of_uint (Nat.iter k Decimal.D0 d).
Proof. induction k as [|k IH]; simpl; [done | by rewrite <- IH]. Qed.

Lemma of_uint_iter_D0 (k : nat) (d : Decimal.uint) :
  Nat.of_uint (Nat.iter k Decimal.D0 d) = Nat.of_uint d.
Proof.
  rewrite <- Unsigned.of_uint_norm, unorm_iter_D0.
  apply Unsigned.of_uint_norm.
Qed.

Lemma parse_frag_id_frag_id (c : nat) :
  Anib.parse_frag_id (Anib.frag_id c) = Some c.
Proof.
  change (Anib.frag_id c) with
    (String "f" (String "r" (String "a" (String "g" (Py.format_05d c))))).
  unfold Py.format_05d, Py.zero_pad, Py.str_of_nat, Anib.parse_frag_id.
  rewrite string_of_uint_zeros, NilEmpty.usu. simpl.
  by rewrite of_uint_iter_D0, Unsigned.of_to.
Qed.

Lemma frag_id_inj : Inj (=) (=) Anib.frag_id.
Proof.
  intros c1 c2 Heq.
  assert (Some c1 = Some c2) as [= ->]; [|done].
  by rewrite <- !parse_frag_id_frag_id, Heq.
Qed.

Lemma length_zeros (k : nat) : String.length (Py.zeros k) = k.
Proof. induction k; simpl; auto. Qed.

Lemma string_length_app (s t : string) :
  String.length (s +:+ t) = String.length s + String.length t.
Proof. induction s; simpl; auto. Qed.

Lemma length_zero_pad (width : nat) (s : string) :
  String.length (Py.zero_pad width s) = width `max` String.length s.
Proof. unfold Py.zero_pad. rewrite string_length_app, length_zeros. lia. Qed.

Lemma length_frag_id (c : nat) :
  String.length (Anib.frag_id c) = 4 + 5 `max` String.length (Py.str_of_nat c).
Proof.
  unfold Anib.frag_id, Py.format_05d.
  rewrite string_length_app, length_zero_pad. done.
Qed.

Lemma length_string_of_uint (d : Decimal.uint) :
  String.length (NilEmpty.string_of_uint d) = Decimal.nb_digits d.
Proof. induction d; simpl; auto. Qed.

(** A numeral is at least its leading digits times the power of ten of
    the digits that follow. *)
Lemma of_uint_acc_lower (d : Decimal.uint) (acc : nat) :
  acc * 10 ^ Decimal.nb_digits d ≤ Nat.of_uint_acc d acc.
Proof.
  revert acc. induction d; intros acc; simpl Nat.of_uint_acc;
    [simpl; lia | ..];
    (etrans; [|apply IHd]); rewrite Nat.tail_mul_spec;
    change (Decimal.nb_digits (_ d)) with (S (Decimal.nb_digits d));
    rewrite Nat.pow_succ_r'; nia.
Qed.

Lemma nb_digits_to_uint (c : nat) :
  (Z.of_nat c < 100000)%Z → Decimal.nb_digits (Nat.to_uint c) ≤ 5.
Proof.
  intros Hc.
  assert (Z.of_nat (10 ^ 5) = 100000%Z) as Hpow by (by vm_compute).
  pose proof (Unsigned.of_to c) as Hof.
  pose proof (Unsigned.to_of (Nat.to_uint c)) as Hnorm.
  rewrite Hof in Hnorm.
  destruct (Nat.to_uint c) as [|d|d|d|d|d|d|d|d|d|d] eqn:Hd; simpl; [lia | ..].
  1: { rewrite unorm_D0 in Hnorm.
       destruct (Decimal.uint_eq_dec (Decimal.nzhead d) Decimal.Nil) as [Hz|Hnz].
       - apply unorm_0 in Hz. rewrite Hz in Hnorm. injection Hnorm as ->. simpl; lia.
       - rewrite unorm_nzhead in Hnorm by done.
         pose proof (nb_digits_nzhead d) as Hle. rewrite <- Hnorm in Hle.
         simpl in Hle. lia. }
  all: unfold Nat.of_uint in Hof; simpl Nat.of_uint_acc in Hof;
    match type of Hof with
    | Nat.of_uint_acc _ ?a = _ => pose proof (of_uint_acc_lower d a) as Hlow
    end;
    rewrite Hof in Hlow; simpl Nat.tail_mul in Hlow;
    destruct (decide (Decimal.nb_digits d ≤ 4)) as [|Hbig]; [lia|];
    assert (10 ^ 5 ≤ 10 ^ Decimal.nb_digits d) by (apply Nat.pow_le_mono_r; lia);
    nia.
Qed.

Lemma length_frag_id_small (c : nat) :
  (Z.of_nat c < 100000)%Z → String.length (Anib.frag_id c) = 9.
Proof.
  intros Hc. rewrite length_frag_id. unfold Py.str_of_nat.
  rewrite length_string_of_uint.
  pose proof (nb_digits_to_uint c Hc). lia.
Qed.

(** ** Dictionaries *)

Lemma dict_set_fresh {V : Type} (d : Py.dict V) (k : string) (v : V) :
  k ∉ Py.dict_keys d → Py.dict_set d k v = d ++ [(k, v)].
Proof.
  unfold Py.dict_keys. induction d as [|[k' v'] d IH]; simpl; intros Hk; [done|].
  apply not_elem_of_cons in Hk as [Hne Hk].
  destruct (decide (k' = k)) as [->|_]; [done|]. by rewrite IH.
Qed.

(** * The fragmenter *)

Lemma outseqs_foldl_push (l : Anib.Locals) (frs : list Bio.SeqRecord) :
  Anib.outseqs (foldl Anib.push l frs) = Anib.outseqs l ++ frs.
Proof.
  revert l. induction frs as [|fr frs IH]; intros l; simpl.
  - by rewrite app_nil_r.
  - rewrite IH. simpl. by rewrite <- app_assoc.
Qed.

Lemma count_foldl_push (l : Anib.Locals) (frs : list Bio.SeqRecord) :
  Anib.count (foldl Anib.push l frs) = Anib.count l + length frs.
Proof.
  revert l. induction frs as [|fr frs IH]; intros l; simpl; [lia|].
  rewrite IH. simpl. lia.
Qed.

Lemma sizedict_foldl_push (l : Anib.Locals) (frs : list Bio.SeqRecord) :
  NoDup (Py.dict_keys (Anib.sizedict l) ++ (Bio.id <$> frs)) →
  Anib.sizedict (foldl Anib.push l frs)
  = Anib.sizedict l ++ ((λ fr, (Bio.id fr, Bio.len fr)) <$> frs).
Proof.
  revert l. induction frs as [|fr frs IH]; intros l Hnd; simpl.
  - by rewrite app_nil_r.
  - simpl in Hnd. apply NoDup_app in Hnd as (Hd & Hdisj & Hfrs).
    apply NoDup_cons in Hfrs as [Hfr Hfrs].
    assert (Bio.id fr ∉ Py.dict_keys (Anib.sizedict l)) as Hfresh.
    { intros Hin. apply (Hdisj _ Hin). left. }
    rewrite IH; simpl; rewrite dict_set_fresh by done.
    + by rewrite <- app_assoc.
    + unfold Py.dict_keys. rewrite fmap_app. simpl.
      apply NoDup_app. split_and!.
      * apply NoDup_app. split_and!; [done | | apply NoDup_singleton].
        intros x Hx ->%list_elem_of_singleton. done.
      * intros x [Hx| ->%list_elem_of_singleton]%elem_of_app Hx'; [|done].
        apply (Hdisj _ Hx). by right.
      * done.
Qed.

Lemma while_idx_S (fuel : nat) (fragsize : Z) (r : Bio.SeqRecord) (idx : Z)
    (l : Anib.Locals) :
  Anib.while_idx (S fuel) fragsize r idx l
  = if (idx <? Z.of_nat (Bio.len r))%Z then
      Anib.while_idx fuel fragsize r (Anib.while_body fragsize r idx l).1
        (Anib.while_body fragsize r idx l).2
    else Some l.
Proof. simpl. by destruct (Anib.while_body fragsize r idx l). Qed.

Section fragmenter.
Variable F : nat.
Hypothesis HF : 1 ≤ F.

Lemma while_body_push (r : Bio.SeqRecord) (c0 j : nat) (l : Anib.Locals) :
  Anib.count l = c0 + j →
  Anib.while_body (Z.of_nat F) r (Z.of_nat (j * F)) l
  = (Z.of_nat (S j * F), Anib.push l (Anib.fragment_at F r c0 j)).
Proof.
  intros Hc. unfold Anib.while_body, Anib.push, Anib.fragment_at,
    Bio.set_id, Bio.getslice, Bio.len. simpl.
  rewrite slice_chunk by done. rewrite Hc.
  replace (S (c0 + j)) with (c0 + S j) by lia.
  f_equal. lia.
Qed.

Lemma while_idx_spec (r : Bio.SeqRecord) (c0 n j fuel : nat) (l : Anib.Locals) :
  Anib.count l = c0 + j →
  j + n = Anib.ceil_div (Bio.len r) F →
  n ≤ fuel →
  Anib.while_idx fuel (Z.of_nat F) r (Z.of_nat (j * F)) l
  = Some (foldl Anib.push l (Anib.fragment_at F r c0 <$> seq j n)).
Proof.
  revert j fuel l. induction n as [|n IH]; intros j fuel l Hc Hn Hfuel.
  - assert (¬ j * F < Bio.len r) as Hge.
    { rewrite <- ceil_div_lt by done. lia. }
    destruct fuel; simpl;
      destruct (Z.ltb_spec (Z.of_nat (j * F)) (Z.of_nat (Bio.len r))); done || lia.
  - assert (j * F < Bio.len r) as Hlt.
    { rewrite <- ceil_div_lt by done. lia. }
    destruct fuel as [|fuel]; [lia|]. rewrite while_idx_S.
    destruct (Z.ltb_spec (Z.of_nat (j * F)) (Z.of_nat (Bio.len r))); [|lia].
    rewrite (while_body_push r c0 j l Hc). cbn [fst snd].
    rewrite IH; [done | simpl; lia | lia | lia].
Qed.

Lemma for_seq_spec (records : list Bio.SeqRecord) (fuel : nat) (l : Anib.Locals) :
  Forall (λ r, Bio.len r ≤ fuel) records →
  Anib.for_seq fuel (Z.of_nat F) records l
  = Some (foldl Anib.push l (mjoin (Anib.file_fragments F (Anib.count l) records))).
Proof.
  revert l. induction records as [|r records IH]; intros l Hfuel; simpl; [done|].
  apply Forall_cons in Hfuel as [Hr Hfuel].
  pose proof (ceil_div_le (Bio.len r) F HF).
  change 0%Z with (Z.of_nat (0 * F)).
  rewrite (while_idx_spec r (Anib.count l) (Anib.ceil_div (Bio.len r) F) 0 fuel l)
    by (simpl; lia).
  rewrite IH by done. rewrite foldl_app, count_foldl_push.
  do 4 f_equal. unfold Anib.record_fragments. by rewrite length_fmap, length_seq.
Qed.

(** The fragments of a record, put end to end, are the record. *)
Lemma join_expected_from (s : list ascii) (n j : nat) :
  j + n = Anib.ceil_div (length s) F →
  mjoin ((λ i, take F (drop (i * F) s)) <$> seq j n) = drop (j * F) s.
Proof.
  revert j. induction n as [|n IH]; intros j Hn; simpl.
  - rewrite drop_ge; [done|].
    assert (¬ j * F < length s); [|lia]. rewrite <- ceil_div_lt by done. lia.
  - rewrite IH by lia.
    replace (S j * F) with (j * F + F) by lia.
    rewrite <- drop_drop. apply take_drop.
Qed.

Lemma join_expected_fragments (s : list ascii) :
  mjoin (Anib.expected_fragments F s) = s.
Proof. unfold Anib.expected_fragments. by rewrite join_expected_from. Qed.

Lemma seq_record_fragments (c0 : nat) (r : Bio.SeqRecord) :
  Bio.seq <$> Anib.record_fragments F c0 r = Anib.expected_fragments F (Bio.seq r).
Proof.
  unfold Anib.record_fragments, Anib.expected_fragments.
  by rewrite <- list_fmap_compose.
Qed.

Lemma id_record_fragments (c0 : nat) (r : Bio.SeqRecord) :
  Bio.id <$> Anib.record_fragments F c0 r
  = Anib.frag_id <$> seq (S c0) (Anib.ceil_div (Bio.len r) F).
Proof.
  unfold Anib.record_fragments. rewrite <- list_fmap_compose.
  replace (S c0) with (S c0 + 0) by lia.
  rewrite <- fmap_add_seq, <- list_fmap_compose.
  apply list_fmap_ext. intros _ j _. simpl. f_equal. lia.
Qed.

Lemma id_file_fragments (c0 : nat) (records : list Bio.SeqRecord) :
  Bio.id <$> mjoin (Anib.file_fragments F c0 records)
  = Anib.frag_id <$> seq (S c0) (length (mjoin (Anib.file_fragments F c0 records))).
Proof.
  revert c0. induction records as [|r records IH]; intros c0; simpl; [done|].
  rewrite fmap_app, length_app, seq_app, fmap_app, IH, id_record_fragments.
  assert (length (Anib.record_fragments F c0 r) = Anib.ceil_div (Bio.len r) F) as ->.
  { unfold Anib.record_fragments. by rewrite length_fmap, length_seq. }
  do 3 f_equal; lia.
Qed.

Lemma sum_len_file_fragments (c0 : nat) (records : list Bio.SeqRecord) :
  sum_list (Bio.len <$> mjoin (Anib.file_fragments F c0 records))
  = sum_list (Bio.len <$> records).
Proof.
  revert c0. induction records as [|r records IH]; intros c0; simpl; [done|].
  rewrite fmap_app, sum_list_with_app, IH. f_equal.
  change Bio.len with (length ∘ Bio.seq).
  rewrite list_fmap_compose, seq_record_fragments, <- length_join.
  by rewrite join_expected_fragments.
Qed.

End fragmenter.

Section fragment_groups.
Variable F : nat.
Hypothesis HF : 1 ≤ F.

Lemma length_record_fragments (c0 : nat) (r : Bio.SeqRecord) :
  length (Anib.record_fragments F c0 r) = Anib.ceil_div (Bio.len r) F.
Proof. unfold Anib.record_fragments. by rewrite length_fmap, length_seq. Qed.

Lemma lookup_record_fragments (c0 j : nat) (r fr : Bio.SeqRecord) :
  Anib.record_fragments F c0 r !! j = Some fr →
  j < Anib.ceil_div (Bio.len r) F ∧ fr = Anib.fragment_at F r c0 j.
Proof.
  unfold Anib.record_fragments. rewrite list_lookup_fmap.
  destruct (seq 0 _ !! j) as [i|] eqn:Hi; simpl; [|done].
  apply lookup_seq in Hi as [-> Hj]. by intros [= <-].
Qed.

Lemma len_fragment_at (c0 j : nat) (r : Bio.SeqRecord) :
  Bio.len (Anib.fragment_at F r c0 j) = F `min` (Bio.len r - j * F).
Proof. unfold Bio.len. simpl. by rewrite length_take, length_drop. Qed.

(** Every fragment of a record but the last is [F] long; the last one
    takes what is left, at least one letter and at most [F]. *)
Lemma record_fragments_lengths (c0 : nat) (r : Bio.SeqRecord) :
  let g := Anib.record_fragments F c0 r in
  (∀ j fr, g !! j = Some fr → S j < length g → Bio.len fr = F)
  ∧ (∀ fr, last g = Some fr →
       Bio.len fr = Bio.len r - (length g - 1) * F ∧ 1 ≤ Bio.len fr ≤ F).
Proof.
  intros g. subst g. rewrite length_record_fragments. split.
  - intros j fr [_ ->]%lookup_record_fragments Hj.
    apply ceil_div_lt in Hj; [|done]. rewrite len_fragment_at. lia.
  - intros fr. rewrite last_lookup, length_record_fragments.
    intros [Hj ->]%lookup_record_fragments.
    assert (Anib.ceil_div (Bio.len r) F ≠ 0) as Hm by lia.
    assert (¬ Anib.ceil_div (Bio.len r) F * F < Bio.len r) as Hge.
    { rewrite <- ceil_div_lt by done. lia. }
    apply ceil_div_lt in Hj; [|done]. rewrite len_fragment_at.
    replace (Init.Nat.pred (Anib.ceil_div (Bio.len r) F))
      with (Anib.ceil_div (Bio.len r) F - 1) in * by lia.
    nia.
Qed.

End fragment_groups.

(** The locals when the two loops have run over [records]. *)
Lemma for_seq_final (F fuel : nat) (records : list Bio.SeqRecord) :
  1 ≤ F →
  Forall (λ r, Bio.len r ≤ fuel) records →
  Anib.for_seq fuel (Z.of_nat F) records
    {| Anib.sizedict := []; Anib.outseqs := []; Anib.count := 0 |}
  = Some (Anib.final_locals F records).
Proof.
  intros HF Hfuel. rewrite for_seq_spec by done. f_equal. simpl.
  set (frs := mjoin (Anib.file_fragments F 0 records)).
  set (l0 := {| Anib.sizedict := []; Anib.outseqs := []; Anib.count := 0 |}).
  pose proof (outseqs_foldl_push l0 frs) as Ho.
  pose proof (count_foldl_push l0 frs) as Hc.
  pose proof (sizedict_foldl_push l0 frs) as Hs.
  destruct (foldl Anib.push l0 frs) as [d o c]. simpl in *.
  unfold Anib.final_locals. fold frs. f_equal; [|done..].
  apply Hs. unfold frs. rewrite id_file_fragments by done.
  apply NoDup_fmap; [apply frag_id_inj | apply NoDup_seq].
Qed.

(** With a fragment size of zero or less the offset never passes the
    end of a record that has a letter. *)
Lemma while_idx_stuck (fuel : nat) (fragsize idx : Z) (r : Bio.SeqRecord)
    (l : Anib.Locals) :
  (fragsize ≤ 0)%Z → (idx ≤ 0)%Z → 0 < Bio.len r →
  Anib.while_idx fuel fragsize r idx l = None.
Proof.
  intros HF. revert idx l. induction fuel as [|fuel IH]; intros idx l Hidx Hr.
  - simpl. destruct (Z.ltb_spec idx (Z.of_nat (Bio.len r))); [done | lia].
  - rewrite while_idx_S.
    destruct (Z.ltb_spec idx (Z.of_nat (Bio.len r))); [|lia].
    apply IH; [simpl; lia | done].
Qed.

Lemma while_idx_empty (fuel : nat) (fragsize : Z) (r : Bio.SeqRecord)
    (l : Anib.Locals) :
  Bio.len r = 0 → Anib.while_idx fuel fragsize r 0 l = Some l.
Proof. intros Hr. destruct fuel; simpl; rewrite Hr; done. Qed.

Lemma for_seq_stuck (fuel : nat) (fragsize : Z) (records : list Bio.SeqRecord)
    (l : Anib.Locals) :
  (fragsize ≤ 0)%Z → Exists (λ r, 0 < Bio.len r) records →
  Anib.for_seq fuel fragsize records l = None.
Proof.
  intros HF. induction records as [|r records IH]; intros Hex.
  - by apply Exists_nil in Hex.
  - simpl. destruct (decide (0 < Bio.len r)) as [Hr|Hr].
    + by rewrite while_idx_stuck.
    + rewrite while_idx_empty by lia. apply IH.
      apply Exists_cons in Hex as [|]; done.
Qed.

Ltac run_monad :=
  unfold mbind, Rt.M_bind, mret, Rt.M_ret, Rt.bind, Rt.ret, Rt.raise, Rt.emit,
    Rt.of_fuel, Rt.read_file, Rt.put_file; simpl.

(** How [fragment_fasta_file] runs on a file that is there, with a
    fragment size of one or more and fuel for its longest record. *)
Lemma fragment_fasta_file_run (w : Rt.World) (fault : Rt.write_fault) (fuel : nat)
    (inpath outdir : Pathlib.Path) (fragsize : Z) (records : list Bio.SeqRecord) :
  (1 ≤ fragsize)%Z →
  Rt.files w !! inpath = Some records →
  Forall (λ r, Bio.len r ≤ fuel) records →
  Anib.fragment_fasta_file fault fuel inpath outdir fragsize w
  = let l := Anib.final_locals (Z.to_nat fragsize) records in
    let fragpath := Anib.fragpath_of inpath outdir in
    match fault with
    | Rt.NoFault =>
        (Rt.mkWorld (<[fragpath := Anib.outseqs l]> (Rt.files w)) (Rt.runs w)
           (Rt.trace w ++ [Rt.SeqIOParse inpath;
                           Rt.SeqIOWrite fragpath (length (Anib.outseqs l))]),
         Rt.Val (fragpath, Py.json_dumps (Anib.sizedict l)))
    | Rt.OpenFails =>
        (Rt.mkWorld (Rt.files w) (Rt.runs w) (Rt.trace w ++ [Rt.SeqIOParse inpath]),
         Rt.Exc (Py.OSError "open"))
    | Rt.FailsAfter k =>
        (Rt.mkWorld (<[fragpath := take k (Anib.outseqs l)]> (Rt.files w)) (Rt.runs w)
           (Rt.trace w ++ [Rt.SeqIOParse inpath;
                           Rt.SeqIOWrite fragpath (length (take k (Anib.outseqs l)))]),
         Rt.Exc (Py.OSError "write"))
    end.
Proof.
  intros HF Hfile Hfuel.
  unfold Anib.fragment_fasta_file, Rt.SeqIO_parse. run_monad. rewrite Hfile.
  rewrite <- (Z2Nat.id fragsize) at 1 by lia.
  rewrite for_seq_final by (done || lia).
  destruct fault; unfold Rt.SeqIO_write; run_monad; by rewrite <- ?app_assoc.
Qed.

Lemma file_fragments_groups (F c0 : nat) (records : list Bio.SeqRecord) :
  1 ≤ F →
  Forall2
    (λ r g,
       length g = Anib.ceil_div (Bio.len r) F
       ∧ Bio.seq <$> g = Anib.expected_fragments F (Bio.seq r)
       ∧ mjoin (Bio.seq <$> g) = Bio.seq r
       ∧ (∀ j fr, g !! j = Some fr → S j < length g → Bio.len fr = F)
       ∧ (∀ fr, last g = Some fr →
            Bio.len fr = Bio.len r - (length g - 1) * F ∧ 1 ≤ Bio.len fr ≤ F))
    records (Anib.file_fragments F c0 records).
Proof.
  intros HF. revert c0. induction records as [|r records IH]; intros c0; simpl.
  - constructor.
  - constructor; [|apply IH].
    pose proof (record_fragments_lengths F HF c0 r) as [Hfull Hlast].
    split_and!; [apply length_record_fragments | apply seq_record_fragments | | done..].
    rewrite seq_record_fragments. by apply join_expected_fragments.
Qed.

(** C1. For a genome file with records of lengths [L_1 .. L_k] and a
    fragment size [F] of one or more, [fragment_fasta_file] returns,
    and the fragment file it writes holds, record by record in file
    order, [ceil (L_i / F)] fragments of record [i]: the slices of the
    record at the offsets [0, F, 2F, ...], which put end to end give
    the record back. Every fragment of a record but its last is [F]
    long; the last one is as long as what is left of the record,
    between one letter and [F]. The dictionary whose JSON text is
    returned has one entry per fragment, its length under its
    identifier, and these lengths sum to [L_1 + ... + L_k]. *)
Theorem fragment_fasta_file_fragments (w : Rt.World) (fuel : nat)
    (inpath outdir : Pathlib.Path) (fragsize : Z) (records : list Bio.SeqRecord) :
  (1 ≤ fragsize)%Z →
  Rt.files w !! inpath = Some records →
  Forall (λ r, Bio.len r ≤ fuel) records →
  let F := Z.to_nat fragsize in
  let fragpath := Anib.fragpath_of inpath outdir in
  ∃ (groups : list (list Bio.SeqRecord)) (sizedict : Py.dict nat) (w' : Rt.World),
    Anib.fragment_fasta_file Rt.NoFault fuel inpath outdir fragsize w
      = (w', Rt.Val (fragpath, Py.json_dumps sizedict))
    ∧ Rt.files w' !! fragpath = Some (mjoin groups)
    ∧ Forall2
        (λ r g,
           length g = Anib.ceil_div (Bio.len r) F
           ∧ Bio.seq <$> g = Anib.expected_fragments F (Bio.seq r)
           ∧ mjoin (Bio.seq <$> g) = Bio.seq r
           ∧ (∀ j fr, g !! j = Some fr → S j < length g → Bio.len fr = F)
           ∧ (∀ fr, last g = Some fr →
                Bio.len fr = Bio.len r - (length g - 1) * F
                ∧ 1 ≤ Bio.len fr ≤ F))
        records groups
    ∧ sizedict = (λ fr, (Bio.id fr, Bio.len fr)) <$> mjoin groups
    ∧ NoDup (Py.dict_keys sizedict)
    ∧ sum_list (Py.dict_values sizedict) = sum_list (Bio.len <$> records).
Proof.
  intros HF Hfile Hfuel F fragpath.
  assert (1 ≤ F) as HF' by (unfold F; lia).
  eexists (Anib.file_fragments F 0 records),
    ((λ fr, (Bio.id fr, Bio.len fr)) <$> mjoin (Anib.file_fragments F 0 records)), _.
  split_and!.
  - by rewrite (fragment_fasta_file_run w Rt.NoFault fuel inpath outdir fragsize records).
  - simpl. by rewrite lookup_insert_eq.
  - by apply file_fragments_groups.
  - done.
  - unfold Py.dict_keys. rewrite <- list_fmap_compose.
    change (fst ∘ _) with Bio.id. rewrite id_file_fragments by done.
    apply NoDup_fmap; [apply frag_id_inj | apply NoDup_seq].
  - unfold Py.dict_values. rewrite <- list_fmap_compose.
    change (snd ∘ _) with Bio.len. by apply sum_len_file_fragments.
Qed.

Lemma fragment_fasta_file_fragments_witness :
  ∃ (groups : list (list Bio.SeqRecord)) (sizedict : Py.dict nat) (w' : Rt.World),
    Anib.fragment_fasta_file Rt.NoFault 7 ["genomes"; "g1.fasta"]
      ["out"; "fragments"] 3 Examples.world_two_contigs
      = (w', Rt.Val (["out"; "fragments"; "g1-fragments.fasta"],
                     Py.json_dumps sizedict))
    ∧ Rt.files w' !! ["out"; "fragments"; "g1-fragments.fasta"] = Some (mjoin groups)
    ∧ length <$> groups = [3; 1]
    ∧ sum_list (Py.dict_values sizedict) = 10.
Proof.
  destruct (fragment_fasta_file_fragments Examples.world_two_contigs 7
              ["genomes"; "g1.fasta"] ["out"; "fragments"] 3 Examples.genome_two_contigs)
    as (groups & d & w' & Hrun & Hfile & Hgroups & Hd & Hnd & Hsum).
  - lia.
  - reflexivity.
  - repeat constructor.
  - exists groups, d, w'. split_and!; [exact Hrun | exact Hfile | | exact Hsum].
    unfold Examples.genome_two_contigs in Hgroups.
    apply Forall2_cons_inv_l in Hgroups as (g1 & gs & (Hg1 & _) & Hgs & ->).
    apply Forall2_cons_inv_l in Hgs as (g2 & gs' & (Hg2 & _) & Hnil & ->).
    apply Forall2_nil_inv_l in Hnil as ->.
    simpl. by rewrite Hg1, Hg2.
Defined.

Lemma seq_file_fragments (F c0 : nat) (records : list Bio.SeqRecord) :
  Bio.seq <$> mjoin (Anib.file_fragments F c0 records)
  = mjoin (Anib.expected_fragments F ∘ Bio.seq <$> records).
Proof.
  revert c0. induction records as [|r records IH]; intros c0; simpl; [done|].
  by rewrite fmap_app, IH, seq_record_fragments.
Qed.

(** C6, as the code has it. Within one call of [fragment_fasta_file]
    with a fragment size of one or more, the fragments are written in
    the order of the records and, within a record, of the offsets, and
    the fragment at position [i] of the file (from zero) has the
    identifier [frag] followed by [i + 1] in decimal, padded with zeros
    on the left to five digits at least: the counter starts at 1 for
    the genome and goes up by one per fragment across its records. The
    identifier is nine characters wide while the counter is below
    100000, and wider by the extra digits from there on. The
    identifiers of a fragment file are pairwise different, and they are
    the keys of the dictionary of sizes, in the same order. *)
Theorem fragment_ids_sequential (w : Rt.World) (fuel : nat)
    (inpath outdir : Pathlib.Path) (fragsize : Z) (records : list Bio.SeqRecord) :
  (1 ≤ fragsize)%Z →
  Rt.files w !! inpath = Some records →
  Forall (λ r, Bio.len r ≤ fuel) records →
  let F := Z.to_nat fragsize in
  let fragpath := Anib.fragpath_of inpath outdir in
  ∃ (frs : list Bio.SeqRecord) (sizedict : Py.dict nat) (w' : Rt.World),
    Anib.fragment_fasta_file Rt.NoFault fuel inpath outdir fragsize w
      = (w', Rt.Val (fragpath, Py.json_dumps sizedict))
    ∧ Rt.files w' !! fragpath = Some frs
    ∧ Bio.seq <$> frs = mjoin (Anib.expected_fragments F ∘ Bio.seq <$> records)
    ∧ (∀ i fr, frs !! i = Some fr →
         Bio.id fr = ("frag" +:+ Py.zero_pad 5 (Py.str_of_nat (S i)))%string
         ∧ String.length (Bio.id fr) = 4 + 5 `max` String.length (Py.str_of_nat (S i))
         ∧ ((Z.of_nat (S i) < 100000)%Z → String.length (Bio.id fr) = 9))
    ∧ NoDup (Bio.id <$> frs)
    ∧ Py.dict_keys sizedict = Bio.id <$> frs.
Proof.
  intros HF Hfile Hfuel F fragpath.
  assert (1 ≤ F) as HF' by (unfold F; lia).
  set (frs := mjoin (Anib.file_fragments F 0 records)).
  assert (Bio.id <$> frs = Anib.frag_id <$> seq 1 (length frs)) as Hids.
  { by apply id_file_fragments. }
  exists frs, ((λ fr, (Bio.id fr, Bio.len fr)) <$> frs).
  eexists. split_and!.
  - by rewrite (fragment_fasta_file_run w Rt.NoFault fuel inpath outdir fragsize records).
  - simpl. by rewrite lookup_insert_eq.
  - apply seq_file_fragments.
  - intros i fr Hi.
    assert (Bio.id fr = Anib.frag_id (S i)) as ->.
    { assert ((Bio.id <$> frs) !! i = Some (Bio.id fr)) as Hid
        by (by rewrite list_lookup_fmap, Hi).
      rewrite Hids, list_lookup_fmap in Hid.
      apply lookup_lt_Some in Hi.
      rewrite lookup_seq_lt in Hid by done. by injection Hid as <-. }
    split_and!; [done | apply length_frag_id | apply length_frag_id_small].
  - rewrite Hids. apply NoDup_fmap; [apply frag_id_inj | apply NoDup_seq].
  - unfold Py.dict_keys. by rewrite <- list_fmap_compose.
Qed.

Lemma fragment_ids_sequential_witness :
  ∃ (frs : list Bio.SeqRecord) (sizedict : Py.dict nat) (w' : Rt.World),
    Anib.fragment_fasta_file Rt.NoFault 7 ["genomes"; "g1.fasta"]
      ["out"; "fragments"] 3 Examples.world_two_contigs
      = (w', Rt.Val (["out"; "fragments"; "g1-fragments.fasta"],
                     Py.json_dumps sizedict))
    ∧ Rt.files w' !! ["out"; "fragments"; "g1-fragments.fasta"] = Some frs
    ∧ NoDup (Bio.id <$> frs)
    ∧ Py.dict_keys sizedict = Bio.id <$> frs.
Proof.
  destruct (fragment_ids_sequential Examples.world_two_contigs 7
              ["genomes"; "g1.fasta"] ["out"; "fragments"] 3 Examples.genome_two_contigs)
    as (frs & d & w' & Hrun & Hfile & _ & _ & Hnd & Hkeys).
  - lia.
  - reflexivity.
  - repeat constructor.
  - exists frs, d, w'. split_and!; [exact Hrun | exact Hfile | exact Hnd | exact Hkeys].
Defined.

Lemma long_record_fragments (n : nat) :
  Anib.fragment_fasta_file Rt.NoFault n ["genomes"; "big.fasta"]
    ["out"; "fragments"] 1 (Examples.world_long_record n)
  = (Rt.mkWorld
       (<[ ["out"; "fragments"; "big-fragments.fasta"] :=
             Anib.fragment_at 1 (Examples.long_record n) 0 <$> seq 0 n ]>
          (Rt.files (Examples.world_long_record n)))
       ∅
       [Rt.SeqIOParse ["genomes"; "big.fasta"];
        Rt.SeqIOWrite ["out"; "fragments"; "big-fragments.fasta"] n],
     Rt.Val (["out"; "fragments"; "big-fragments.fasta"],
             Py.json_dumps
               ((λ fr, (Bio.id fr, Bio.len fr))
                  <$> (Anib.fragment_at 1 (Examples.long_record n) 0 <$> seq 0 n)))).
Proof.
  rewrite (fragment_fasta_file_run _ _ _ _ _ _ [Examples.long_record n]).
  - assert (Anib.outseqs (Anib.final_locals (Z.to_nat 1) [Examples.long_record n])
            = Anib.fragment_at 1 (Examples.long_record n) 0 <$> seq 0 n) as Hout.
    { unfold Anib.final_locals, Anib.file_fragments, Anib.record_fragments.
      cbn [Anib.outseqs mjoin list_join]. rewrite app_nil_r.
      change (Z.to_nat 1) with 1.
      replace (Anib.ceil_div (Bio.len (Examples.long_record n)) 1) with n; [done|].
      unfold Bio.len, Examples.long_record, Anib.ceil_div. cbn [Bio.seq].
      rewrite length_replicate, Nat.div_1_r. lia. }
    cbv zeta. rewrite Hout.
    assert (Anib.sizedict (Anib.final_locals (Z.to_nat 1) [Examples.long_record n])
            = (λ fr, (Bio.id fr, Bio.len fr))
                <$> (Anib.fragment_at 1 (Examples.long_record n) 0 <$> seq 0 n)) as ->.
    { rewrite <- Hout. done. }
    by rewrite length_fmap, length_seq.
  - lia.
  - done.
  - constructor; [|constructor].
    unfold Bio.len, Examples.long_record. cbn [Bio.seq]. by rewrite length_replicate.
Qed.

(** C6, as stated, fails: the identifiers of one fragment file need not
    have one width. In the fragment file of a genome of one record of
    100000 letters, cut with a fragment size of 1, the first fragment
    has an identifier of nine characters and the last one of ten. *)
Lemma fragment_ids_not_fixed_width :
  let n := Z.to_nat 100000 in
  ∃ (frs : list Bio.SeqRecord) (text : string) (w' : Rt.World)
    (first last : Bio.SeqRecord),
    Anib.fragment_fasta_file Rt.NoFault n ["genomes"; "big.fasta"]
      ["out"; "fragments"] 1 (Examples.world_long_record n)
      = (w', Rt.Val (["out"; "fragments"; "big-fragments.fasta"], text))
    ∧ Rt.files w' !! ["out"; "fragments"; "big-fragments.fasta"] = Some frs
    ∧ frs !! 0 = Some first
    ∧ frs !! (n - 1) = Some last
    ∧ Bio.id first = "frag00001"
    ∧ Bio.id last = "frag100000"
    ∧ String.length (Bio.id first) ≠ String.length (Bio.id last).
Proof.
  intros n.
  exists (Anib.fragment_at 1 (Examples.long_record n) 0 <$> seq 0 n).
  eexists _, _, (Anib.fragment_at 1 (Examples.long_record n) 0 0),
    (Anib.fragment_at 1 (Examples.long_record n) 0 (n - 1)).
  split_and!.
  - apply long_record_fragments.
  - cbn [Rt.files]. by rewrite lookup_insert_eq.
  - rewrite list_lookup_fmap, lookup_seq_lt; [done|]. unfold n. lia.
  - rewrite list_lookup_fmap, lookup_seq_lt; [done|]. unfold n. lia.
  - by vm_compute.
  - by vm_compute.
  - by vm_compute.
Qed.

(** The fuel that the longest record of a file asks for. *)
Lemma max_len_fuel (records : list Bio.SeqRecord) :
  Forall (λ r, Bio.len r ≤ max_list (Bio.len <$> records)) records.
Proof.
  apply Forall_forall. intros r Hr. apply max_list_elem_of_le.
  apply list_elem_of_fmap. by exists r.
Qed.

(** C9. With a fragment size of one or more, [fragment_fasta_file]
    ends on every genome file, whatever the world and whatever becomes
    of the write: one turn of the loop moves the offset up by the
    fragment size, so a record of [L] letters takes at most [L] turns,
    and fuel for the longest record is enough. With a fragment size of
    zero or less and a file that has a record with a letter in it, the
    loop of that record never ends: the call runs out of any fuel. *)
Theorem fragment_fasta_file_termination (w : Rt.World) (fault : Rt.write_fault)
    (inpath outdir : Pathlib.Path) (fragsize : Z) :
  ((1 ≤ fragsize)%Z →
     (∀ r idx l, (idx < (Anib.while_body fragsize r idx l).1)%Z)
     ∧ ∃ fuel0, ∀ fuel, fuel0 ≤ fuel →
         (Anib.fragment_fasta_file fault fuel inpath outdir fragsize w).2 ≠ Rt.OutOfFuel)
  ∧ ((fragsize ≤ 0)%Z →
     ∀ records, Rt.files w !! inpath = Some records →
       Exists (λ r, 0 < Bio.len r) records →
       ∀ fuel,
         (Anib.fragment_fasta_file fault fuel inpath outdir fragsize w).2 = Rt.OutOfFuel).
Proof.
  split.
  - intros HF. split; [intros r idx l; simpl; lia|].
    destruct (Rt.files w !! inpath) as [records|] eqn:Hfile.
    + exists (max_list (Bio.len <$> records)). intros fuel Hfuel.
      rewrite (fragment_fasta_file_run w fault fuel inpath outdir fragsize records);
        [by destruct fault | done | done |].
      eapply Forall_impl; [apply max_len_fuel|]. simpl. lia.
    + exists 0. intros fuel _.
      unfold Anib.fragment_fasta_file, Rt.SeqIO_parse. run_monad. by rewrite Hfile.
  - intros HF records Hfile Hex fuel.
    unfold Anib.fragment_fasta_file, Rt.SeqIO_parse. run_monad. rewrite Hfile.
    by rewrite for_seq_stuck.
Qed.

Lemma fragment_fasta_file_termination_witness :
  (∃ fuel0, ∀ fuel, fuel0 ≤ fuel →
     (Anib.fragment_fasta_file Rt.NoFault fuel ["genomes"; "g1.fasta"]
        ["out"; "fragments"] 3 Examples.world_two_contigs).2 ≠ Rt.OutOfFuel)
  ∧ (∀ fuel,
     (Anib.fragment_fasta_file Rt.NoFault fuel ["genomes"; "g1.fasta"]
        ["out"; "fragments"] 0 Examples.world_two_contigs).2 = Rt.OutOfFuel).
Proof.
  split.
  - apply (fragment_fasta_file_termination Examples.world_two_contigs Rt.NoFault
             ["genomes"; "g1.fasta"] ["out"; "fragments"] 3). lia.
  - apply (proj2 (fragment_fasta_file_termination Examples.world_two_contigs Rt.NoFault
                    ["genomes"; "g1.fasta"] ["out"; "fragments"] 0)
             ltac:(lia) Examples.genome_two_contigs).
    + reflexivity.
    + apply Exists_cons_hd. vm_compute. lia.
Defined.

(** C8, as stated, fails: a write that breaks off leaves a truncated
    fragment file at the final path. On the genome of two records of
    seven and three letters, cut with a fragment size of 3, a write
    that fails after two records leaves two of the four fragments at
    the path where a write that succeeds leaves four. *)
Lemma fragment_file_truncated_on_error :
  ∃ (w_ok w_err : Rt.World) (text : string) (full : list Bio.SeqRecord),
    Anib.fragment_fasta_file Rt.NoFault 7 ["genomes"; "g1.fasta"]
      ["out"; "fragments"] 3 Examples.world_two_contigs
      = (w_ok, Rt.Val (["out"; "fragments"; "g1-fragments.fasta"], text))
    ∧ Rt.files w_ok !! ["out"; "fragments"; "g1-fragments.fasta"] = Some full
    ∧ length full = 4
    ∧ Anib.fragment_fasta_file (Rt.FailsAfter 2) 7 ["genomes"; "g1.fasta"]
        ["out"; "fragments"] 3 Examples.world_two_contigs
      = (w_err, Rt.Exc (Py.OSError "write"))
    ∧ Rt.files w_err !! ["out"; "fragments"; "g1-fragments.fasta"] = Some (take 2 full)
    ∧ take 2 full ≠ full.
Proof.
  eexists _, _, _, _. split_and!.
  - vm_compute. reflexivity.
  - vm_compute. reflexivity.
  - reflexivity.
  - vm_compute. reflexivity.
  - vm_compute. reflexivity.
  - intros Heq. apply (f_equal length) in Heq. vm_compute in Heq. discriminate.
Qed.

(** C8, as the code has it. [fragment_fasta_file] writes the fragment
    file in place: the final path is the only path it writes, there is
    no temporary file and no rename. A write that goes through leaves
    every fragment of the genome at the final path, and the call
    returns the path. When the file cannot be opened, the call raises
    and the final path holds what it held. When the write breaks off
    after [k] records, the call raises and the final path holds the
    first [k] of the fragments that the write that goes through leaves.
    In both failures nothing is returned, and the loop of [subcmd_anib]
    that made the call ends at once with the exception of the write, in
    the world the call left. *)
Theorem fragment_file_written_in_place (env : Anib.Env) (args : Anib.Namespace)
    (fuel : nat) (fragdir : Pathlib.Path) (g : Orm.Genome) (rest : list Orm.Genome)
    (records : list Bio.SeqRecord) (w : Rt.World) :
  (1 ≤ Anib.fragsize args)%Z →
  Rt.files w !! Orm.path g = Some records →
  Forall (λ r, Bio.len r ≤ fuel) records →
  let fragpath := Anib.fragpath_of (Orm.path g) fragdir in
  let call fault :=
    Anib.fragment_fasta_file fault fuel (Orm.path g) fragdir (Anib.fragsize args) w in
  let frs := mjoin (Anib.file_fragments (Z.to_nat (Anib.fragsize args)) 0 records) in
  let out := call (Anib.write_fault_at env fragpath) in
  (call Rt.NoFault).2
  = Rt.Val (fragpath, Py.json_dumps ((λ fr, (Bio.id fr, Bio.len fr)) <$> frs))
  ∧ Rt.files (call Rt.NoFault).1 !! fragpath = Some frs
  ∧ (∀ p, p ≠ fragpath → Rt.files out.1 !! p = Rt.files w !! p)
  ∧ match Anib.write_fault_at env fragpath with
    | Rt.NoFault => out = call Rt.NoFault
    | Rt.OpenFails =>
        out.2 = Rt.Exc (Py.OSError "open")
        ∧ Rt.files out.1 !! fragpath = Rt.files w !! fragpath
        ∧ Anib.fragment_genomes env fuel args fragdir (g :: rest) w
          = (out.1, Rt.Exc (Py.OSError "open"))
    | Rt.FailsAfter k =>
        out.2 = Rt.Exc (Py.OSError "write")
        ∧ Rt.files out.1 !! fragpath = Some (take k frs)
        ∧ Anib.fragment_genomes env fuel args fragdir (g :: rest) w
          = (out.1, Rt.Exc (Py.OSError "write"))
    end.
Proof.
  intros HF Hfile Hfuel fragpath call frs out.
  assert (Anib.fragment_genomes env fuel args fragdir (g :: rest) w
          = match out.2 with
            | Rt.Val (p, text) =>
                Anib.fragment_genomes env fuel args fragdir rest
                  (Rt.mkWorld (Rt.files out.1) (Rt.runs out.1)
                     (Rt.trace out.1 ++ [Rt.Print p (String.length text)]))
            | Rt.Exc e => (out.1, Rt.Exc e)
            | Rt.OutOfFuel => (out.1, Rt.OutOfFuel)
            end) as Hloop.
  { unfold Anib.fragment_genomes at 1. cbn [Rt.for_each]. run_monad.
    fold fragpath. fold (call (Anib.write_fault_at env fragpath)). fold out.
    destruct out as [w' [[p text]|e|]]; done. }
  rewrite Hloop. clear Hloop. subst out call. cbv beta.
  rewrite !(fragment_fasta_file_run w _ fuel (Orm.path g) fragdir _ records)
    by done.
  fold fragpath. unfold Anib.final_locals. fold frs. cbn [Anib.outseqs Anib.sizedict].
  cbv zeta. cbn [fst snd Rt.files].
  split_and!; [done | apply lookup_insert_eq | |].
  - intros p Hp.
    destruct (Anib.write_fault_at env fragpath); cbn [fst Rt.files];
      by rewrite ?lookup_insert_ne.
  - destruct (Anib.write_fault_at env fragpath) as [| |k]; cbn [fst snd Rt.files].
    + done.
    + done.
    + split_and!; [done | apply lookup_insert_eq | done].
Qed.

Lemma fragment_file_written_in_place_witness :
  let out := Anib.fragment_fasta_file (Rt.FailsAfter 2) 7 ["genomes"; "g1.fasta"]
               ["out"; "fragments"] 3 Examples.world_two_genomes in
  let frs := mjoin (Anib.file_fragments 3 0 Examples.genome_two_contigs) in
  out.2 = Rt.Exc (Py.OSError "write")
  ∧ Rt.files out.1 !! ["out"; "fragments"; "g1-fragments.fasta"] = Some (take 2 frs)
  ∧ Rt.files (Anib.fragment_fasta_file Rt.NoFault 7 ["genomes"; "g1.fasta"]
                ["out"; "fragments"] 3 Examples.world_two_genomes).1
      !! ["out"; "fragments"; "g1-fragments.fasta"] = Some frs
  ∧ Anib.fragment_genomes Examples.env_write_breaks 7 Examples.args_anib
      ["out"; "fragments"] [Examples.g1; Examples.g2] Examples.world_two_genomes
    = (out.1, Rt.Exc (Py.OSError "write")).
Proof.
  destruct (fragment_file_written_in_place Examples.env_write_breaks
              Examples.args_anib 7 ["out"; "fragments"] Examples.g1 [Examples.g2]
              Examples.genome_two_contigs Examples.world_two_genomes)
    as (_ & Hfull & _ & Hexc & Hfile & Hloop).
  - simpl. lia.
  - reflexivity.
  - repeat constructor.
  - split_and!; [exact Hexc | exact Hfile | exact Hfull | exact Hloop].
Defined.

(** * The enumeration of the comparisons *)

Lemma length_bind {A B : Type} (f : A → list B) (l : list A) :
  length (l ≫= f) = sum_list_with (length ∘ f) l.
Proof.
  induction l as [|x l IH]; [done|].
  by rewrite bind_cons, length_app, IH.
Qed.

Lemma sum_list_with_agree {A : Type} (f g : A → nat) (l : list A) :
  (∀ x, x ∈ l → f x = g x) → sum_list_with f l = sum_list_with g l.
Proof.
  induction l as [|x l IH]; intros Hfg; simpl; [done|].
  rewrite Hfg by left. rewrite IH; [done|]. intros y Hy. apply Hfg. by right.
Qed.

Lemma sum_list_with_same {A : Type} (n : nat) (l : list A) :
  sum_list_with (λ _, n) l = length l * n.
Proof. induction l as [|x l IH]; simpl; [done|]. rewrite IH. lia. Qed.

Section permutations.
Context {A : Type}.
Implicit Types pool : list A.

Lemma elem_of_indexed pool (i : nat) (x : A) :
  (i, x) ∈ zip (seq 0 (length pool)) pool ↔ pool !! i = Some x.
Proof.
  rewrite list_elem_of_lookup. split.
  - intros [k Hk]. apply lookup_zip_with_Some in Hk as (j & y & [= -> ->] & Hj & Hy).
    apply lookup_seq in Hj as [-> _]. done.
  - intros Hi. exists i. apply lookup_zip_with_Some. exists i, x.
    split_and!; [done | | done].
    apply lookup_seq. split; [done|]. by apply lookup_lt_Some in Hi.
Qed.

Lemma NoDup_indexed pool : NoDup (zip (seq 0 (length pool)) pool).
Proof.
  apply (NoDup_fmap_1 fst). rewrite fst_zip by (by rewrite length_seq).
  apply NoDup_seq.
Qed.

Lemma elem_of_permutations2 pool (q r : A) :
  (q, r) ∈ Py.permutations2 pool
  ↔ ∃ i j, i ≠ j ∧ pool !! i = Some q ∧ pool !! j = Some r.
Proof.
  unfold Py.permutations2. rewrite list_elem_of_bind. split.
  - intros ([i x] & Hin & Hx). apply list_elem_of_bind in Hin as ([j y] & Hin & Hy).
    simpl in Hin. destruct (decide (i = j)) as [|Hne]; [by apply elem_of_nil in Hin|].
    apply list_elem_of_singleton in Hin as [= -> ->].
    exists i, j. by rewrite <- !elem_of_indexed.
  - intros (i & j & Hne & Hi & Hj). exists (i, q).
    split; [|by apply elem_of_indexed].
    apply list_elem_of_bind. exists (j, r). split; [|by apply elem_of_indexed].
    simpl. destruct (decide (i = j)); [done|]. by apply list_elem_of_singleton.
Qed.

(** In the indexed pool every position but [i] is another position. *)
Lemma count_other_positions pool (s i : nat) :
  sum_list_with (λ jy : nat * A, if decide (i = jy.1) then 0 else 1)
    (zip (seq s (length pool)) pool)
  = length pool - (if bool_decide (s ≤ i < s + length pool) then 1 else 0).
Proof.
  revert s. induction pool as [|x pool IH]; intros s; simpl.
  - by case_bool_decide.
  - rewrite IH. destruct (decide (i = s)) as [->|Hne];
      repeat case_bool_decide; lia.
Qed.

Lemma length_permutations2 pool :
  length (Py.permutations2 pool) = length pool * (length pool - 1).
Proof.
  unfold Py.permutations2. cbv zeta. rewrite length_bind.
  rewrite (sum_list_with_agree _ (λ _, length pool - 1)).
  - rewrite sum_list_with_same, length_zip_with, length_seq. lia.
  - intros [i x] Hin. simpl.
    rewrite length_bind.
    rewrite (sum_list_with_agree _ (λ jy, if decide (i = jy.1) then 0 else 1)).
    + rewrite count_other_positions.
      apply elem_of_indexed, lookup_lt_Some in Hin.
      case_bool_decide; lia.
    + intros [j y] _. simpl. by destruct (decide (i = j)).
Qed.

Lemma NoDup_permutations2 pool : NoDup pool → NoDup (Py.permutations2 pool).
Proof.
  intros Hnd. unfold Py.permutations2.
  assert (∀ i j x, pool !! i = Some x → pool !! j = Some x → i = j) as Hinj.
  { intros i j x. by apply NoDup_lookup. }
  apply NoDup_bind; [| |apply NoDup_indexed].
  - intros [i x] [i' x'] [q r] Hi Hi' Hin Hin'. simpl in *.
    apply list_elem_of_bind in Hin as ([j y] & Hin & _).
    apply list_elem_of_bind in Hin' as ([j' y'] & Hin' & _). simpl in *.
    destruct (decide (i = j)); [by apply elem_of_nil in Hin|].
    destruct (decide (i' = j')); [by apply elem_of_nil in Hin'|].
    apply list_elem_of_singleton in Hin as [= -> ->].
    apply list_elem_of_singleton in Hin' as [= -> ->].
    apply elem_of_indexed in Hi, Hi'. by rewrite (Hinj i i' x').
  - intros [i x] Hi. simpl.
    apply NoDup_bind; [| |apply NoDup_indexed].
    + intros [j y] [j' y'] [q r] Hj Hj' Hin Hin'. simpl in *.
      destruct (decide (i = j)); [by apply elem_of_nil in Hin|].
      destruct (decide (i = j')); [by apply elem_of_nil in Hin'|].
      apply list_elem_of_singleton in Hin as [= -> ->].
      apply list_elem_of_singleton in Hin' as [= ->].
      apply elem_of_indexed in Hj, Hj'. by rewrite (Hinj j j' y').
    + intros [j y] _. simpl. destruct (decide (i = j)); [constructor|].
      apply NoDup_singleton.
Qed.

End permutations.

(** C2. For [N] pairwise different genomes, the enumeration of line
    179, [permutations(genomes, 2)], gives [N * (N - 1)] pairs, no pair
    twice, and a pair [(query, reference)] is among them exactly when
    the two are genomes of the set and differ: every ordered pair of
    two different genomes, and no genome with itself. *)
Theorem comparisons_enumerated (genomes : list Orm.Genome) :
  NoDup genomes →
  let comparisons := Py.permutations2 genomes in
  length comparisons = length genomes * (length genomes - 1)
  ∧ NoDup comparisons
  ∧ (∀ query reference,
       (query, reference) ∈ comparisons
       ↔ query ∈ genomes ∧ reference ∈ genomes ∧ query ≠ reference).
Proof.
  intros Hnd comparisons. split_and!.
  - apply length_permutations2.
  - by apply NoDup_permutations2.
  - intros q r. unfold comparisons. rewrite elem_of_permutations2. split.
    + intros (i & j & Hne & Hi & Hj).
      split_and!; [by eapply list_elem_of_lookup_2.. |].
      intros ->. apply Hne. by eapply NoDup_lookup.
    + intros (Hq & Hr & Hne).
      apply list_elem_of_lookup in Hq as [i Hi].
      apply list_elem_of_lookup in Hr as [j Hj].
      exists i, j. split_and!; [|done..]. intros ->. congruence.
Qed.

Lemma comparisons_enumerated_witness :
  let comparisons := Py.permutations2 [Examples.g1; Examples.g2] in
  length comparisons = 2
  ∧ NoDup comparisons
  ∧ (Examples.g1, Examples.g2) ∈ comparisons.
Proof.
  destruct (comparisons_enumerated [Examples.g1; Examples.g2])
    as (Hlen & Hnd & Hin).
  - apply NoDup_cons. split; [|apply NoDup_singleton].
    intros Hin%list_elem_of_singleton. discriminate.
  - split_and!; [exact Hlen | exact Hnd |].
    apply Hin. split_and!; [left | right; left | discriminate].
Defined.


(** * The control flow of [subcmd_anib] *)

Lemma advances_refl (w : Rt.World) : Anib.advances w w.
Proof.
  split_and!.
  - exists []. by rewrite app_nil_r.
  - intros run row' Hrow. by rewrite Hrow.
  - done.
Qed.

Lemma advances_trans (w1 w2 w3 : Rt.World) :
  Anib.advances w1 w2 → Anib.advances w2 w3 → Anib.advances w1 w3.
Proof.
  intros ((evs & Ht & Hevs) & Hst & Hdom) ((evs' & Ht' & Hevs') & Hst' & Hdom').
  split_and!.
  - exists (evs ++ evs'). split; [by rewrite Ht', Ht, app_assoc | by apply Forall_app].
  - intros run row3 H3. specialize (Hst' run row3 H3).
    destruct (Rt.runs w2 !! run) as [row2|] eqn:H2.
    + specialize (Hst run row2 H2). destruct (Rt.runs w1 !! run); congruence.
    + destruct (Rt.runs w1 !! run) as [row1|] eqn:H1; [|done].
      destruct (Hdom run) as [row2 Hrow2]; [by rewrite H1 | congruence].
  - intros run H1. auto.
Qed.

Lemma advances_emit (w : Rt.World) (ev : Rt.event) :
  Anib.comparison_stage ev = false →
  Anib.advances w (Rt.mkWorld (Rt.files w) (Rt.runs w) (Rt.trace w ++ [ev])).
Proof.
  intros Hev. split_and!; simpl.
  - exists [ev]. split; [done | by constructor].
  - intros run row' Hrow. by rewrite Hrow.
  - done.
Qed.

Lemma advances_files (w : Rt.World) (fs : gmap Pathlib.Path (list Bio.SeqRecord)) :
  Anib.advances w (Rt.mkWorld fs (Rt.runs w) (Rt.trace w)).
Proof.
  split_and!; simpl.
  - exists []. by rewrite app_nil_r.
  - intros run row' Hrow. by rewrite Hrow.
  - done.
Qed.

(** A row may be stored under a new key with the status [started], or
    over a row of the same status. *)
Lemma advances_store (w : Rt.World) (run : Z) (row : Orm.Run) :
  match Rt.runs w !! run with
  | Some old => Orm.status row = Orm.status old
  | None => Orm.status row = "started"
  end →
  Anib.advances w (Rt.mkWorld (Rt.files w) (<[run := row]> (Rt.runs w)) (Rt.trace w)).
Proof.
  intros Hrow. split_and!; simpl.
  - exists []. by rewrite app_nil_r.
  - intros run' row'. destruct (decide (run = run')) as [<-|Hne].
    + rewrite lookup_insert_eq. by intros [= <-].
    + rewrite lookup_insert_ne by done. intros H. by rewrite H.
  - intros run' Hsome. destruct (decide (run = run')) as [<-|Hne].
    + by rewrite lookup_insert_eq.
    + by rewrite lookup_insert_ne.
Qed.

Section keeps.
Context {A B : Type}.

Lemma keeps_ret (a : A) : Anib.keeps (Rt.ret a).
Proof. intros w. apply advances_refl. Qed.

Lemma keeps_mret (a : A) : Anib.keeps (mret a : Rt.M A).
Proof. intros w. apply advances_refl. Qed.

Lemma keeps_raise (e : Py.exn) : Anib.keeps (Rt.raise e : Rt.M A).
Proof. intros w. apply advances_refl. Qed.

Lemma keeps_of_fuel (o : option A) : Anib.keeps (Rt.of_fuel o).
Proof. intros w. unfold Rt.of_fuel. destruct o; apply advances_refl. Qed.

Lemma keeps_bind (m : Rt.M A) (k : A → Rt.M B) :
  Anib.keeps m → (∀ a, Anib.keeps (k a)) → Anib.keeps (m ≫= k).
Proof.
  intros Hm Hk w. unfold mbind, Rt.M_bind, Rt.bind.
  specialize (Hm w). destruct (m w) as [w' [a|e|]]; simpl in *; [|done..].
  eapply advances_trans; [done | apply Hk].
Qed.

Lemma keeps_try_except (body handler : Rt.M A) (catches : Py.exn → bool) :
  Anib.keeps body → Anib.keeps handler →
  Anib.keeps (Rt.try_except body catches handler).
Proof.
  intros Hbody Hhandler w. unfold Rt.try_except.
  specialize (Hbody w). destruct (body w) as [w' [a|e|]]; simpl in *; [done| |done].
  destruct (catches e); [|done].
  eapply advances_trans; [done | apply Hhandler].
Qed.

Lemma keeps_read_local (variable : string) (v : option A) :
  Anib.keeps (Rt.read_local variable v).
Proof. destruct v; [apply keeps_ret | apply keeps_raise]. Qed.

End keeps.

Lemma keeps_emit (ev : Rt.event) :
  Anib.comparison_stage ev = false → Anib.keeps (Rt.emit ev).
Proof. intros Hev w. by apply advances_emit. Qed.

Lemma keeps_for_each {A : Type} (xs : list A) (body : A → Rt.M unit) :
  (∀ x, Anib.keeps (body x)) → Anib.keeps (Rt.for_each xs body).
Proof.
  intros Hbody. induction xs as [|x xs IH]; simpl.
  - apply keeps_ret.
  - apply keeps_bind; [apply Hbody | by intros _].
Qed.

Lemma keeps_read_file (path : Pathlib.Path) : Anib.keeps (Rt.read_file path).
Proof. intros w. unfold Rt.read_file. destruct (_ !! _); apply advances_refl. Qed.

Lemma keeps_put_file (path : Pathlib.Path) (records : list Bio.SeqRecord) :
  Anib.keeps (Rt.put_file path records).
Proof. intros w. apply advances_files. Qed.

Lemma keeps_lookup_run (run : Z) : Anib.keeps (Anib.lookup_run run).
Proof. intros w. apply advances_refl. Qed.

Lemma max_key_bound (rs : gmap Z Orm.Run) (run : Z) :
  is_Some (rs !! run) → (run ≤ map_fold (λ k _ m, Z.max k m) 0 rs)%Z.
Proof.
  revert run.
  apply (map_fold_weak_ind
           (λ r (m : gmap Z Orm.Run), ∀ run, is_Some (m !! run) → (run ≤ r)%Z)).
  - intros run [row Hrow]. by rewrite lookup_empty in Hrow.
  - intros k row m r Hk IH run. destruct (decide (k = run)) as [->|Hne].
    + intros _. lia.
    + rewrite lookup_insert_ne by done. intros H%IH. lia.
Qed.

Lemma fresh_run_id_fresh (rs : gmap Z Orm.Run) : rs !! Anib.fresh_run_id rs = None.
Proof.
  destruct (rs !! Anib.fresh_run_id rs) as [row|] eqn:Hrow; [|done].
  assert (is_Some (rs !! Anib.fresh_run_id rs)) as Hb%max_key_bound by eauto.
  unfold Anib.fresh_run_id in Hb. lia.
Qed.

Ltac keeps_step :=
  first
    [ apply keeps_bind; [|intros ?]
    | apply keeps_try_except
    | apply keeps_for_each; intros ?
    | apply keeps_emit; reflexivity
    | apply keeps_ret
    | apply keeps_mret
    | apply keeps_raise
    | apply keeps_of_fuel
    | apply keeps_read_local
    | apply keeps_read_file
    | apply keeps_put_file
    | apply keeps_lookup_run ].

Lemma keeps_add_run (env : Anib.Env) (method cmdline date name : string) :
  Anib.keeps (Anib.add_run env method cmdline date "started" name).
Proof.
  unfold Anib.add_run. keeps_step; [keeps_step|].
  destruct (Anib.add_run_fault env); [keeps_step|].
  intros w. unfold Anib.fresh_id, Anib.store_run. run_monad.
  apply advances_store. by rewrite fresh_run_id_fresh.
Qed.

Lemma keeps_add_run_genomes (env : Anib.Env) (run : Z) (indir : Pathlib.Path)
    (classes labels : string) :
  Anib.keeps (Anib.add_run_genomes env run indir classes labels).
Proof.
  unfold Anib.add_run_genomes. keeps_step; [keeps_step|].
  destruct (Anib.add_run_genomes_result env) as [e|gs]; [keeps_step|].
  intros w. unfold Anib.lookup_run, Anib.store_run. run_monad.
  destruct (Rt.runs w !! run) as [row|] eqn:Hrow; simpl.
  - apply advances_store. by rewrite Hrow.
  - apply advances_refl.
Qed.

Lemma keeps_makedirs (env : Anib.Env) (p : Pathlib.Path) :
  Anib.keeps (Anib.makedirs env p).
Proof.
  unfold Anib.makedirs. keeps_step; [keeps_step|].
  destruct (Anib.makedirs_fault env p); keeps_step.
Qed.

Lemma keeps_fragment_fasta_file (fault : Rt.write_fault) (fuel : nat)
    (inpath outdir : Pathlib.Path) (fragsize : Z) :
  Anib.keeps (Anib.fragment_fasta_file fault fuel inpath outdir fragsize).
Proof.
  unfold Anib.fragment_fasta_file, Rt.SeqIO_parse, Rt.SeqIO_write.
  destruct fault; repeat keeps_step.
Qed.

Lemma keeps_fragment_genomes (env : Anib.Env) (fuel : nat) (args : Anib.Namespace)
    (fragdir : Pathlib.Path) (genomes : list Orm.Genome) :
  Anib.keeps (Anib.fragment_genomes env fuel args fragdir genomes).
Proof.
  unfold Anib.fragment_genomes. keeps_step. keeps_step.
  - apply keeps_fragment_fasta_file.
  - destruct a as [fragpath fraglengths]. keeps_step.
Qed.

Lemma keeps_setup_and_fragment (env : Anib.Env) (fuel : nat) (args : Anib.Namespace) :
  Anib.keeps (Anib.setup_and_fragment env fuel args).
Proof.
  unfold Anib.setup_and_fragment, Anib.get_version, Anib.get_session,
    Anib.run_genomes_all, Rt.logger_info, Rt.logger_error.
  repeat first
    [ apply keeps_add_run
    | apply keeps_add_run_genomes
    | apply keeps_makedirs
    | apply keeps_fragment_genomes
    | match goal with
      | |- Anib.keeps (match ?x with _ => _ end) => destruct x
      end
    | keeps_step ].
Qed.

(** What follows line 173 has no part in what [subcmd_anib] does. *)
Lemma subcmd_anib_stops (env : Anib.Env) (fuel : nat) (args : Anib.Namespace)
    (tail : string → Z → list Orm.Genome → Rt.M unit) (w : Rt.World) :
  ('(blastn_version, run, genomes) ← Anib.setup_and_fragment env fuel args;
   (Rt.raise Py.NotImplementedError : Rt.M unit);;
   tail blastn_version run genomes) w
  = ((Anib.setup_and_fragment env fuel args w).1,
     match (Anib.setup_and_fragment env fuel args w).2 with
     | Rt.Val _ => Rt.Exc Py.NotImplementedError
     | Rt.Exc e => Rt.Exc e
     | Rt.OutOfFuel => Rt.OutOfFuel
     end).
Proof.
  unfold mbind, Rt.M_bind, Rt.bind.
  destruct (Anib.setup_and_fragment env fuel args w) as [w' [[[v run] gs]|e|]]; done.
Qed.

(** C4. When the loop that fragments the genomes completes,
    [subcmd_anib] raises [NotImplementedError], in the world the loop
    left. On every input: the call does not return; none of its events
    is of the comparison stage (no enumeration, no filter on existing
    comparisons, no update of the matrices, no scan for recovery, no
    job list); a row of the run table keeps the status it had, and a
    row the call made has the status [started]; and the code after
    line 173 can be replaced by any other without a change to what the
    call does. *)
Theorem subcmd_anib_not_implemented (env : Anib.Env) (fuel : nat)
    (args : Anib.Namespace) (w : Rt.World) :
  let head := Anib.setup_and_fragment env fuel args w in
  let out := Anib.subcmd_anib env fuel args w in
  (∀ locals, head.2 = Rt.Val locals → out = (head.1, Rt.Exc Py.NotImplementedError))
  ∧ out.2 ≠ Rt.Val ()
  ∧ (∃ evs, Rt.trace out.1 = Rt.trace w ++ evs
            ∧ Forall (λ ev, Anib.comparison_stage ev = false) evs)
  ∧ (∀ run row', Rt.runs out.1 !! run = Some row' →
       match Rt.runs w !! run with
       | Some row => Orm.status row' = Orm.status row
       | None => Orm.status row' = "started"
       end)
  ∧ (∀ tail : string → Z → list Orm.Genome → Rt.M unit,
       ('(blastn_version, run, genomes) ← Anib.setup_and_fragment env fuel args;
        (Rt.raise Py.NotImplementedError : Rt.M unit);;
        tail blastn_version run genomes) w = out).
Proof.
  intros head out.
  assert (out = (head.1, match head.2 with
                         | Rt.Val _ => Rt.Exc Py.NotImplementedError
                         | Rt.Exc e => Rt.Exc e
                         | Rt.OutOfFuel => Rt.OutOfFuel
                         end)) as Hout.
  { apply (subcmd_anib_stops env fuel args (Anib.compare_and_aggregate env args)). }
  pose proof (keeps_setup_and_fragment env fuel args w) as (Hev & Hst & _).
  fold head in Hev, Hst. rewrite Hout. cbn [fst snd]. split_and!.
  - by intros locals ->.
  - by destruct head.2.
  - done.
  - done.
  - intros tail. apply subcmd_anib_stops.
Qed.

Lemma subcmd_anib_not_implemented_witness :
  let out := Anib.subcmd_anib Examples.env_ok 7 Examples.args_anib
               Examples.world_two_genomes in
  out.2 = Rt.Exc Py.NotImplementedError
  ∧ Forall (λ ev, Anib.comparison_stage ev = false) (Rt.trace out.1).
Proof.
  destruct (subcmd_anib_not_implemented Examples.env_ok 7 Examples.args_anib
              Examples.world_two_genomes) as (Hraise & _ & (evs & Hevs & Hquiet) & _).
  split.
  - erewrite Hraise; [reflexivity|]. vm_compute. reflexivity.
  - rewrite Hevs. exact Hquiet.
Defined.

Ltac run_anib :=
  unfold Anib.subcmd_anib, Anib.setup_and_fragment, Anib.get_version,
    Anib.get_session, Anib.add_run, Anib.add_run_genomes, Anib.run_genomes_all,
    Anib.makedirs, Anib.lookup_run, Anib.store_run, Anib.fresh_id,
    Rt.logger_info, Rt.logger_error, Rt.try_except, Rt.read_local;
  run_monad.

(** C5. When the store lets the session and the run through and then
    refuses the genomes of the run with its own exception, [subcmd_anib]
    logs the error and ends with an exception at the very next
    statement: the handler leaves [genome_ids] unassigned, and the log
    line that follows reads it. The interpreter exits with a status
    other than zero. The events stop at the error line: the genomes of
    the run are not read back, no directory is made, no genome is
    fragmented and no comparison is enumerated, filtered or run; no file
    is written. *)
Theorem genomes_failure_halts (env : Anib.Env) (fuel : nat) (args : Anib.Namespace)
    (w : Rt.World) :
  Anib.get_session_fault env (Anib.dbpath args) = None →
  Anib.add_run_fault env = None →
  Anib.add_run_genomes_result env = inl Py.PyaniORMException →
  let out := Anib.subcmd_anib env fuel args w in
  let name := Anib.py_or (Anib.name args)
                (Py.join "_" ["ANIb"; Anib.now_isoformat env]) in
  out.2 = Rt.Exc (Py.UnboundLocalError "genome_ids")
  ∧ Py.exit_status (Py.UnboundLocalError "genome_ids") ≠ 0%Z
  ∧ Rt.files out.1 = Rt.files w
  ∧ Rt.trace out.1
    = Rt.trace w
      ++ [Rt.Log Rt.Info "Running ANIm analysis";
          Rt.Call Rt.GetVersion (Anib.blastn_exe args);
          Rt.Log Rt.Info "BLAST+ blastn version: {blastn_version}";
          Rt.Log Rt.Info "Analysis name: {name}";
          Rt.Log Rt.Info "Connecting to database {args.dbpath}";
          Rt.Call Rt.GetSession (Anib.dbpath args);
          Rt.Log Rt.Info "Adding run info to database {args.dbpath}...";
          Rt.Call Rt.AddRun name;
          Rt.Log Rt.Info "\t...added run ID: {run} to the database";
          Rt.Log Rt.Info "Adding files for {run} to database...";
          Rt.Call Rt.AddRunGenomes (Pathlib.str (Anib.indir args));
          Rt.Log Rt.Error
            "Could not add genomes to database for run {run} (exiting)"].
Proof.
  intros Hsession Hrun Hgenomes out name. subst out.
  run_anib. rewrite Hsession, Hrun. simpl. rewrite Hgenomes. simpl.
  split_and!; [done.. |]. by rewrite <- !app_assoc.
Qed.

Lemma genomes_failure_halts_witness :
  let out := Anib.subcmd_anib Examples.env_no_genomes 7 Examples.args_anib
               Examples.world_two_genomes in
  out.2 = Rt.Exc (Py.UnboundLocalError "genome_ids")
  ∧ Py.exit_status (Py.UnboundLocalError "genome_ids") ≠ 0%Z
  ∧ Rt.files out.1 = Rt.files Examples.world_two_genomes.
Proof.
  destruct (genomes_failure_halts Examples.env_no_genomes 7 Examples.args_anib
              Examples.world_two_genomes) as (Hexc & Hstatus & Hfiles & _).
  - reflexivity.
  - reflexivity.
  - reflexivity.
  - split_and!; [exact Hexc | exact Hstatus | exact Hfiles].
Defined.

(** C7. When the store cannot be reached, [subcmd_anib] logs the error
    and raises [SystemExit(1)]: the events stop at the error line, no
    run is added, nothing is read from the store, and the run table and
    the files are as before. When the output directory cannot be made,
    it logs the error and raises [SystemError(1)]: the events stop at
    the error line, no genome is fragmented and no file is written. In
    both cases the interpreter exits with a status other than zero,
    and no event is of the comparison stage. *)
Theorem setup_failures_abort (env : Anib.Env) (fuel : nat) (args : Anib.Namespace)
    (w : Rt.World) :
  let out := Anib.subcmd_anib env fuel args w in
  let name := Anib.py_or (Anib.name args)
                (Py.join "_" ["ANIb"; Anib.now_isoformat env]) in
  (∀ e, Anib.get_session_fault env (Anib.dbpath args) = Some e →
        Py.is_Exception e = true →
        out.2 = Rt.Exc (Py.SystemExit 1)
        ∧ Py.exit_status (Py.SystemExit 1) ≠ 0%Z
        ∧ Rt.files out.1 = Rt.files w
        ∧ Rt.runs out.1 = Rt.runs w
        ∧ Rt.trace out.1
          = Rt.trace w
            ++ [Rt.Log Rt.Info "Running ANIm analysis";
                Rt.Call Rt.GetVersion (Anib.blastn_exe args);
                Rt.Log Rt.Info "BLAST+ blastn version: {blastn_version}";
                Rt.Log Rt.Info "Analysis name: {name}";
                Rt.Log Rt.Info "Connecting to database {args.dbpath}";
                Rt.Call Rt.GetSession (Anib.dbpath args);
                Rt.Log Rt.Error
                  "Could not connect to database {args.dbpath} (exiting)"])
  ∧ (∀ e gs, Anib.get_session_fault env (Anib.dbpath args) = None →
        Anib.add_run_fault env = None →
        Anib.add_run_genomes_result env = inr gs →
        Anib.makedirs_fault env (Anib.outdir args) = Some e →
        Py.is_OSError e = true →
        out.2 = Rt.Exc (Py.SystemError 1)
        ∧ Py.exit_status (Py.SystemError 1) ≠ 0%Z
        ∧ Rt.files out.1 = Rt.files w
        ∧ Rt.trace out.1
          = Rt.trace w
            ++ [Rt.Log Rt.Info "Running ANIm analysis";
                Rt.Call Rt.GetVersion (Anib.blastn_exe args);
                Rt.Log Rt.Info "BLAST+ blastn version: {blastn_version}";
                Rt.Log Rt.Info "Analysis name: {name}";
                Rt.Log Rt.Info "Connecting to database {args.dbpath}";
                Rt.Call Rt.GetSession (Anib.dbpath args);
                Rt.Log Rt.Info "Adding run info to database {args.dbpath}...";
                Rt.Call Rt.AddRun name;
                Rt.Log Rt.Info "\t...added run ID: {run} to the database";
                Rt.Log Rt.Info "Adding files for {run} to database...";
                Rt.Call Rt.AddRunGenomes (Pathlib.str (Anib.indir args));
                Rt.Log Rt.Info "\t...added genome IDs: {genome_ids}";
                Rt.Log Rt.Info "Compiling genomes for comparison";
                Rt.Call Rt.RunGenomesAll "";
                Rt.Log Rt.Info "\tCollected {len(genomes)} genomes for this run";
                Rt.Log Rt.Info "Creating output directory {args.outdir}";
                Rt.Makedirs (Anib.outdir args);
                Rt.Log Rt.Error
                  "Could not create output directory {args.outdir} (exiting)"]).
Proof.
  intros out name. subst out. split.
  - intros e Hsession He. run_anib. rewrite Hsession. simpl. rewrite He. simpl.
    split_and!; [done.. |]. by rewrite <- !app_assoc.
  - intros e gs Hsession Hrun Hgenomes Hdir He.
    run_anib. rewrite Hsession, Hrun. simpl. rewrite Hgenomes. simpl.
    rewrite !lookup_insert_eq. simpl. rewrite Hdir. simpl. rewrite He. simpl.
    split_and!; [done.. |]. by rewrite <- !app_assoc.
Qed.

Lemma setup_failures_abort_witness :
  (Anib.subcmd_anib Examples.env_no_store 7 Examples.args_anib
     Examples.world_two_genomes).2 = Rt.Exc (Py.SystemExit 1)
  ∧ (Anib.subcmd_anib Examples.env_no_outdir 7 Examples.args_anib
       Examples.world_two_genomes).2 = Rt.Exc (Py.SystemError 1).
Proof.
  split.
  - apply (proj1 (setup_failures_abort Examples.env_no_store 7 Examples.args_anib
                    Examples.world_two_genomes)
             (Py.OtherException "OperationalError")); reflexivity.
  - apply (proj2 (setup_failures_abort Examples.env_no_outdir 7 Examples.args_anib
                    Examples.world_two_genomes)
             (Py.OSError "PermissionError") [Examples.g1; Examples.g2]);
      reflexivity.
Defined.

(** C3, as stated, fails: a run on which the filter on existing
    comparisons would leave nothing pending neither updates the
    matrices nor returns. With two genomes whose two comparisons are
    both in the store, [subcmd_anib] raises [NotImplementedError] after
    fragmenting; it never calls the filter or the update of the
    matrices, and the row of the run keeps its empty matrices. *)
Lemma rerun_neither_updates_nor_returns :
  let out := Anib.subcmd_anib Examples.env_ok 7 Examples.args_anib
               Examples.world_two_genomes in
  filter (λ c, Anib.already_computed Examples.env_ok c.1 c.2 "blastn" "2.9.0+" 3
               = false)
    (Py.permutations2 [Examples.g1; Examples.g2]) = []
  ∧ out.2 = Rt.Exc Py.NotImplementedError
  ∧ out.2 ≠ Rt.Val ()
  ∧ (Rt.Call Rt.FilterExistingComparisons "blastn" ∉ Rt.trace out.1)
  ∧ (Rt.Call Rt.UpdateComparisonMatrices "" ∉ Rt.trace out.1)
  ∧ Orm.df_identity <$> Rt.runs out.1 !! 1%Z = Some "".
Proof.
  assert (∀ (ev : Rt.event) (evs : list Rt.event),
            Anib.comparison_stage ev = true →
            Forall (λ ev, Anib.comparison_stage ev = false) evs → ev ∉ evs) as Hnot.
  { intros ev evs Hev Hevs Hin. rewrite Forall_forall in Hevs.
    specialize (Hevs ev Hin). congruence. }
  assert (Forall (λ ev, Anib.comparison_stage ev = false)
            (Rt.trace (Anib.subcmd_anib Examples.env_ok 7 Examples.args_anib
                         Examples.world_two_genomes).1)) as Hquiet.
  { vm_compute. repeat constructor. }
  split_and!.
  - vm_compute. reflexivity.
  - vm_compute. reflexivity.
  - assert ((Anib.subcmd_anib Examples.env_ok 7 Examples.args_anib
               Examples.world_two_genomes).2 = Rt.Exc Py.NotImplementedError) as ->
      by (vm_compute; reflexivity).
    discriminate.
  - by apply Hnot.
  - by apply Hnot.
  - vm_compute. reflexivity.
Qed.

Ltac run_tail :=
  unfold Anib.compare_and_aggregate, Anib.filter_existing_comparisons,
    Anib.update_comparison_matrices, Anib.lookup_run, Anib.store_run,
    Rt.logger_info;
  run_monad.

(** C3, as the code has it. The code of lines 175 to 238, run on its
    own: when the filter on existing comparisons leaves nothing
    pending, it logs that, calls the update of the matrices of the run,
    and returns. Its events are the enumeration, the filter and the
    update, with their log lines: no scan for recovery, no fragmenting
    and no job list, and no file is written. The row of the run becomes
    what the update makes of it from the store. ([subcmd_anib] itself
    raises before it reaches this code.) *)
Theorem nothing_pending_updates_and_returns (env : Anib.Env) (args : Anib.Namespace)
    (blastn_version : string) (run : Z) (genomes : list Orm.Genome) (w : Rt.World) :
  filter (λ c, Anib.already_computed env c.1 c.2 "blastn" blastn_version
                 (Anib.fragsize args) = false)
    (Py.permutations2 genomes) = [] →
  let out := Anib.compare_and_aggregate env args blastn_version run genomes w in
  out.2 = Rt.Val ()
  ∧ Rt.files out.1 = Rt.files w
  ∧ Rt.runs out.1
    = match Rt.runs w !! run with
      | Some row => <[run := Anib.summary_matrices env row]> (Rt.runs w)
      | None => Rt.runs w
      end
  ∧ Rt.trace out.1
    = Rt.trace w
      ++ [Rt.Log Rt.Info
            "Compiling pairwise comparisons (this can take time for large datasets)...";
          Rt.Call Rt.Tqdm "";
          Rt.Log Rt.Info
            "\t...total parwise comparisons to be performed: {len(comparisons)}";
          Rt.Log Rt.Info "Checking database for existing comparison data...";
          Rt.Call Rt.FilterExistingComparisons "blastn";
          Rt.Log Rt.Info
            "\t...after check, still need to run {len(comparisons_to_run)} comparisons";
          Rt.Log Rt.Info
            "All comparison results present in database (skipping comparisons)";
          Rt.Log Rt.Info "Updating summary matrices with existing results";
          Rt.Call Rt.UpdateComparisonMatrices ""].
Proof.
  intros Hnone out. subst out. run_tail. rewrite Hnone. simpl.
  destruct (Rt.runs w !! run) as [row|]; simpl;
    (split_and!; [done.. |]); by rewrite <- !app_assoc.
Qed.

Lemma nothing_pending_updates_and_returns_witness :
  let out := Anib.compare_and_aggregate Examples.env_ok Examples.args_anib
               "2.9.0+" 1 [Examples.g1; Examples.g2] Examples.world_two_genomes in
  out.2 = Rt.Val () ∧ Rt.files out.1 = Rt.files Examples.world_two_genomes.
Proof.
  destruct (nothing_pending_updates_and_returns Examples.env_ok Examples.args_anib
              "2.9.0+" 1 [Examples.g1; Examples.g2] Examples.world_two_genomes)
    as (Hval & Hfiles & _).
  - reflexivity.
  - split; [exact Hval | exact Hfiles].
Defined.

(** * The events of a computation *)

Lemma after_nil (w : Rt.World) : Obs.after w [] = w.
Proof. destruct w. unfold Obs.after. simpl. by rewrite app_nil_r. Qed.

Lemma after_after (w : Rt.World) (evs evs' : list Rt.event) :
  Obs.after (Obs.after w evs) evs' = Obs.after w (evs ++ evs').
Proof. unfold Obs.after. simpl. by rewrite app_assoc. Qed.

Section says.
Context {A B : Type}.

Lemma says_ret (a : A) : Obs.says (mret a : Rt.M A) [] a.
Proof. intros w. by rewrite after_nil. Qed.

Lemma says_bind (m : Rt.M A) (k : A → Rt.M B) (evs evs' : list Rt.event)
    (a : A) (b : B) :
  Obs.says m evs a → Obs.says (k a) evs' b → Obs.says (m ≫= k) (evs ++ evs') b.
Proof.
  intros Hm Hk w. unfold mbind, Rt.M_bind, Rt.bind.
  by rewrite Hm, Hk, after_after.
Qed.

End says.

Lemma says_emit (ev : Rt.event) : Obs.says (Rt.emit ev) [ev] ().
Proof. done. Qed.

Lemma says_for_each {A : Type} (xs : list A) (body : A → Rt.M unit)
    (evs : A → list Rt.event) :
  (∀ x, Obs.says (body x) (evs x) ()) →
  Obs.says (Rt.for_each xs body) (xs ≫= evs) ().
Proof.
  intros Hbody. induction xs as [|x xs IH].
  - apply says_ret.
  - cbn [Rt.for_each]. rewrite bind_cons.
    eapply says_bind; [apply Hbody | apply IH].
Qed.

Section throws.
Context {A B : Type}.

Lemma throws_raise (e : Py.exn) : Obs.throws (Rt.raise e : Rt.M A) [] e.
Proof. intros w. by rewrite after_nil. Qed.

Lemma throws_bind (m : Rt.M A) (k : A → Rt.M B) (evs : list Rt.event)
    (e : Py.exn) :
  Obs.throws m evs e → Obs.throws (m ≫= k) evs e.
Proof. intros Hm w. unfold mbind, Rt.M_bind, Rt.bind. by rewrite Hm. Qed.

Lemma says_throws (m : Rt.M A) (k : A → Rt.M B) (evs evs' : list Rt.event)
    (a : A) (e : Py.exn) :
  Obs.says m evs a → Obs.throws (k a) evs' e →
  Obs.throws (m ≫= k) (evs ++ evs') e.
Proof.
  intros Hm Hk w. unfold mbind, Rt.M_bind, Rt.bind.
  by rewrite Hm, Hk, after_after.
Qed.

End throws.

Lemma says_acquire_results (run_id : Z) (session : Plot.Session)
    (args : Plot.Namespace) :
  Obs.says (Plot.acquire_results run_id session args)
    [Rt.Logf Rt.Info "Acquiring results for run {run_id}" [Py.str_of_Z run_id];
     Rt.Log Rt.Info "\t...retrieving results matrices";
     Rt.Call Rt.QueryRun (Plot.run_id args);
     Rt.Call Rt.GetMatrixLabels (Plot.run_id args);
     Rt.Call Rt.GetMatrixClasses (Plot.run_id args)]
    (Plot.run_first session (Plot.run_id args),
     Plot.matrix_labels_for_run session (Plot.run_id args),
     Plot.matrix_classes_for_run session (Plot.run_id args)).
Proof.
  intros w.
  unfold Obs.after, Plot.acquire_results, Plot.query_run_first,
    Plot.get_matrix_labels_for_run, Plot.get_matrix_classes_for_run,
    Rt.logger_info, Rt.logger_info_f.
  run_monad. by rewrite <- !app_assoc.
Qed.

Section emits_only.
Context {A B : Type} (ok : Rt.event → Prop).

Lemma emits_only_ret (a : A) : Obs.emits_only ok (mret a : Rt.M A).
Proof. intros w. exists []. by rewrite app_nil_r. Qed.

Lemma emits_only_raise (e : Py.exn) : Obs.emits_only ok (Rt.raise e : Rt.M A).
Proof. intros w. exists []. by rewrite app_nil_r. Qed.

Lemma emits_only_bind (m : Rt.M A) (k : A → Rt.M B) :
  Obs.emits_only ok m → (∀ a, Obs.emits_only ok (k a)) →
  Obs.emits_only ok (m ≫= k).
Proof.
  intros Hm Hk w. unfold mbind, Rt.M_bind, Rt.bind.
  destruct (Hm w) as (evs & Ht & Hevs).
  destruct (m w) as [w' [a|e|]]; simpl in *; [|by eauto..].
  destruct (Hk a w') as (evs' & Ht' & Hevs').
  exists (evs ++ evs'). split; [by rewrite Ht', Ht, app_assoc | by apply Forall_app].
Qed.

End emits_only.

Lemma emits_only_emit (ok : Rt.event → Prop) (ev : Rt.event) :
  ok ev → Obs.emits_only ok (Rt.emit ev).
Proof. intros Hev w. exists [ev]. split; [done | by constructor]. Qed.

Lemma emits_only_for_each {A : Type} (ok : Rt.event → Prop) (xs : list A)
    (body : A → Rt.M unit) :
  (∀ x, Obs.emits_only ok (body x)) → Obs.emits_only ok (Rt.for_each xs body).
Proof.
  intros Hbody. induction xs as [|x xs IH]; simpl.
  - apply emits_only_ret.
  - apply emits_only_bind; [apply Hbody | by intros _].
Qed.

Lemma emits_only_ints_of (ok : Rt.event → Prop) (env : Plot.Env)
    (runs : list string) :
  Obs.emits_only ok (Plot.ints_of env runs).
Proof.
  induction runs as [|run runs IH]; simpl.
  - apply emits_only_ret.
  - destruct (Plot.int_of env run); [|apply emits_only_raise].
    apply emits_only_bind; [done | intros zs; apply emits_only_ret].
Qed.

Ltac emits_step :=
  first
    [ apply emits_only_bind; [|intros ?]
    | apply emits_only_for_each; intros ?
    | apply emits_only_emit; exact I
    | apply emits_only_emit; reflexivity
    | apply emits_only_ret
    | apply emits_only_raise
    | apply emits_only_ints_of
    | match goal with
      | |- Obs.emits_only _ (match ?x with _ => _ end) => destruct x
      | |- Obs.emits_only _ (if ?x then _ else _) => destruct x
      end ].

(** * The [run_id] parameter of [write_run_heatmaps] *)

Lemma alike_refl (w : Rt.World) : Plot.alike w w.
Proof. by split_and!. Qed.

Section agree.
Context {A B : Type}.

Lemma agree_refl (m : Rt.M A) :
  (∀ w1 w2, Plot.alike w1 w2 →
     Plot.alike (m w1).1 (m w2).1 ∧ (m w1).2 = (m w2).2) →
  Plot.agree m m.
Proof. done. Qed.

Lemma agree_ret (a : A) : Plot.agree (mret a : Rt.M A) (mret a).
Proof. by intros w1 w2 Hw. Qed.

Lemma agree_raise (e : Py.exn) : Plot.agree (Rt.raise e : Rt.M A) (Rt.raise e).
Proof. by intros w1 w2 Hw. Qed.

Lemma agree_bind (m1 m2 : Rt.M A) (k1 k2 : A → Rt.M B) :
  Plot.agree m1 m2 → (∀ a, Plot.agree (k1 a) (k2 a)) →
  Plot.agree (m1 ≫= k1) (m2 ≫= k2).
Proof.
  intros Hm Hk w1 w2 Hw. unfold mbind, Rt.M_bind, Rt.bind.
  destruct (Hm w1 w2 Hw) as [Hw' Hr].
  destruct (m1 w1) as [w1' r1], (m2 w2) as [w2' r2]. simpl in *. subst r2.
  destruct r1 as [a|e|]; [by apply Hk | done..].
Qed.

End agree.

Lemma agree_emit (ev1 ev2 : Rt.event) :
  Plot.unnamed ev1 = Plot.unnamed ev2 → Plot.agree (Rt.emit ev1) (Rt.emit ev2).
Proof.
  intros Hev w1 w2 (Hf & Hr & Ht). split; [|done].
  unfold Rt.emit. cbn [fst snd]. split_and!; cbn [Rt.files Rt.runs Rt.trace]; [done..|].
  rewrite !fmap_app, Ht. f_equal. change (?f <$> [?x]) with [f x]. by rewrite Hev.
Qed.

Lemma agree_for_each {A : Type} (xs : list A) (body1 body2 : A → Rt.M unit) :
  (∀ x, Plot.agree (body1 x) (body2 x)) →
  Plot.agree (Rt.for_each xs body1) (Rt.for_each xs body2).
Proof.
  intros Hbody. induction xs as [|x xs IH]; simpl.
  - apply agree_ret.
  - apply agree_bind; [apply Hbody | by intros _].
Qed.

Lemma agree_method_lookup (key : string) :
  Plot.agree (Plot.method_lookup key) (Plot.method_lookup key).
Proof.
  unfold Plot.method_lookup. case_bool_decide; [apply agree_ret | apply agree_raise].
Qed.

Lemma agree_getattr {A : Type} (results : option Orm.Run) (attribute : string)
    (field : Orm.Run → A) :
  Plot.agree (Plot.getattr results attribute field)
    (Plot.getattr results attribute field).
Proof. destruct results; [apply agree_ret | apply agree_raise]. Qed.

Lemma agree_read_json (env : Plot.Env) (text : string) :
  Plot.agree (Plot.read_json env text) (Plot.read_json env text).
Proof.
  unfold Plot.read_json.
  destruct (Plot.readable_json env text); [apply agree_ret | apply agree_raise].
Qed.

Ltac agree_step :=
  first
    [ apply agree_bind; [|intros ?]
    | apply agree_for_each; intros ?
    | apply agree_emit; reflexivity
    | apply agree_ret
    | apply agree_raise
    | apply agree_method_lookup
    | apply agree_getattr
    | apply agree_read_json ].

Lemma agree_write_heatmap (env : Plot.Env) (r1 r2 : Z) (matdata : Plot.MatrixData)
    (result_labels result_classes : Py.dict string) (outfmts : list string)
    (args : Plot.Namespace) :
  Plot.agree
    (Plot.write_heatmap env r1 matdata result_labels result_classes outfmts args)
    (Plot.write_heatmap env r2 matdata result_labels result_classes outfmts args).
Proof.
  unfold Plot.write_heatmap, Rt.logger_info, Rt.logger_info_f. repeat agree_step.
Qed.

Lemma agree_write_distribution (r1 r2 : Z) (matdata : Plot.MatrixData)
    (outfmts : list string) (args : Plot.Namespace) :
  Plot.agree (Plot.write_distribution r1 matdata outfmts args)
    (Plot.write_distribution r2 matdata outfmts args).
Proof.
  unfold Plot.write_distribution, Rt.logger_info, Rt.logger_info_f.
  repeat agree_step.
Qed.

Lemma agree_acquire_results (r1 r2 : Z) (session : Plot.Session)
    (args : Plot.Namespace) :
  Plot.agree (Plot.acquire_results r1 session args)
    (Plot.acquire_results r2 session args).
Proof.
  unfold Plot.acquire_results, Plot.query_run_first, Plot.get_matrix_labels_for_run,
    Plot.get_matrix_classes_for_run, Rt.logger_info, Rt.logger_info_f.
  repeat agree_step.
Qed.

Lemma agree_write_run_heatmaps (env : Plot.Env) (r1 r2 : Z) (session : Plot.Session)
    (outfmts : list string) (args : Plot.Namespace) :
  Plot.agree (Plot.write_run_heatmaps env r1 session outfmts args)
    (Plot.write_run_heatmaps env r2 session outfmts args).
Proof.
  unfold Plot.write_run_heatmaps.
  apply agree_bind; [apply agree_acquire_results|].
  intros [[results labels] classes].
  repeat first
    [ apply agree_write_heatmap | apply agree_write_distribution | agree_step ].
Qed.

Lemma acquire_results_value (run_id : Z) (session : Plot.Session)
    (args : Plot.Namespace) (w : Rt.World) :
  (Plot.acquire_results run_id session args w).2
  = Rt.Val (Plot.run_first session (Plot.run_id args),
            Plot.matrix_labels_for_run session (Plot.run_id args),
            Plot.matrix_classes_for_run session (Plot.run_id args)).
Proof. reflexivity. Qed.

(** The events of [write_run_heatmaps] start with the log line of
    line 110, which quotes the [run_id] parameter. *)
Lemma write_run_heatmaps_logs_run_id (env : Plot.Env) (run_id : Z)
    (session : Plot.Session) (outfmts : list string) (args : Plot.Namespace)
    (w : Rt.World) :
  ∃ evs,
    Rt.trace (Plot.write_run_heatmaps env run_id session outfmts args w).1
    = Rt.trace w
      ++ Rt.Logf Rt.Info "Acquiring results for run {run_id}" [Py.str_of_Z run_id]
         :: evs.
Proof.
  unfold Plot.write_run_heatmaps.
  unfold mbind at 1, Rt.M_bind at 1, Rt.bind at 1.
  rewrite says_acquire_results.
  match goal with
  | |- ∃ evs, Rt.trace (?k ?w').1 = _ =>
      assert (Obs.emits_only (λ _, True) k) as Hrest
  end.
  { unfold Plot.getattr, Plot.read_json, Plot.write_heatmap, Plot.write_distribution,
      Plot.method_lookup, Rt.logger_info, Rt.logger_info_f.
    repeat emits_step. }
  destruct (Hrest (Obs.after w
              [Rt.Logf Rt.Info "Acquiring results for run {run_id}"
                 [Py.str_of_Z run_id];
               Rt.Log Rt.Info "\t...retrieving results matrices";
               Rt.Call Rt.QueryRun (Plot.run_id args);
               Rt.Call Rt.GetMatrixLabels (Plot.run_id args);
               Rt.Call Rt.GetMatrixClasses (Plot.run_id args)]))
    as (evs & -> & _).
  eexists. unfold Obs.after. cbn [Rt.trace]. rewrite <- app_assoc. reflexivity.
Qed.

(** C10, as stated, fails: the [run_id] parameter is also written to
    the log. Two calls of [write_run_heatmaps] with the parameters 7 and
    8, on the stored run and with one output format, both return; with
    the name of the output file and the plot title taken out of every
    plot and of every log line that names a file, their events still
    differ: the first of them is the line [Acquiring results for run 7]
    in one call and [Acquiring results for run 8] in the other, and it
    is their only difference. *)
Lemma run_id_parameter_is_logged :
  let out7 := Plot.write_run_heatmaps Examples.env_plot 7 Examples.session_one_run
                ["png"] Examples.args_plot Examples.world_empty in
  let out8 := Plot.write_run_heatmaps Examples.env_plot 8 Examples.session_one_run
                ["png"] Examples.args_plot Examples.world_empty in
  out7.2 = Rt.Val ()
  ∧ out8.2 = Rt.Val ()
  ∧ Plot.untitled <$> Rt.trace out7.1 ≠ Plot.untitled <$> Rt.trace out8.1
  ∧ head (Plot.untitled <$> Rt.trace out7.1)
    = Some (Rt.Logf Rt.Info "Acquiring results for run {run_id}" ["7"])
  ∧ head (Plot.untitled <$> Rt.trace out8.1)
    = Some (Rt.Logf Rt.Info "Acquiring results for run {run_id}" ["8"])
  ∧ tail (Plot.untitled <$> Rt.trace out7.1) = tail (Plot.untitled <$> Rt.trace out8.1).
Proof.
  split_and!.
  - vm_compute. reflexivity.
  - vm_compute. reflexivity.
  - intros Heq. apply (f_equal head) in Heq. vm_compute in Heq. discriminate.
  - vm_compute. reflexivity.
  - vm_compute. reflexivity.
  - vm_compute. reflexivity.
Qed.

(** C10, as the code has it. For one [args] and one session, two calls
    of [write_run_heatmaps] that differ in the [run_id] parameter only
    read the same from the store: the run row, the labels and the
    classes are those the session has under [args.run_id], whatever
    the parameter is. From the same world the two calls end the same
    way, leave the same files and the same run table, and make the
    same events once three things are taken out: the name of the file
    and the title of each plot, the name of the file in the log line
    that announces a plot, and the run identifier in the log line
    [Acquiring results for run {run_id}], which is the first event of
    each call and quotes the parameter. *)
Theorem run_id_parameter_names_only (env : Plot.Env) (session : Plot.Session)
    (outfmts : list string) (args : Plot.Namespace) (w : Rt.World) (r1 r2 : Z) :
  let read1 := Plot.acquire_results r1 session args w in
  let read2 := Plot.acquire_results r2 session args w in
  let out1 := Plot.write_run_heatmaps env r1 session outfmts args w in
  let out2 := Plot.write_run_heatmaps env r2 session outfmts args w in
  read1.2 = Rt.Val (Plot.run_first session (Plot.run_id args),
                    Plot.matrix_labels_for_run session (Plot.run_id args),
                    Plot.matrix_classes_for_run session (Plot.run_id args))
  ∧ read1.2 = read2.2
  ∧ out1.2 = out2.2
  ∧ Rt.files out1.1 = Rt.files out2.1
  ∧ Rt.runs out1.1 = Rt.runs out2.1
  ∧ Plot.unnamed <$> Rt.trace out1.1 = Plot.unnamed <$> Rt.trace out2.1
  ∧ (∃ evs1, Rt.trace out1.1
             = Rt.trace w
               ++ Rt.Logf Rt.Info "Acquiring results for run {run_id}"
                    [Py.str_of_Z r1] :: evs1)
  ∧ (∃ evs2, Rt.trace out2.1
             = Rt.trace w
               ++ Rt.Logf Rt.Info "Acquiring results for run {run_id}"
                    [Py.str_of_Z r2] :: evs2).
Proof.
  intros read1 read2 out1 out2.
  destruct (agree_write_run_heatmaps env r1 r2 session outfmts args w w
              (alike_refl w)) as [(Hf & Hr & Ht) Hres].
  split_and!; try done; apply write_run_heatmaps_logs_run_id.
Qed.

(** * Further properties of [subcmd_anib.py] *)

(** X1. The code of lines 175 to 238 returns exactly when the filter on
    existing comparisons leaves nothing pending: with a comparison
    still to run it ends with an exception, whatever the collaborators
    answer. *)
Theorem comparison_stage_returns_iff_nothing_pending (env : Anib.Env)
    (args : Anib.Namespace) (blastn_version : string) (run : Z)
    (genomes : list Orm.Genome) (w : Rt.World) :
  let pending :=
    filter (λ c, Anib.already_computed env c.1 c.2 "blastn" blastn_version
                   (Anib.fragsize args) = false)
      (Py.permutations2 genomes) in
  let out := Anib.compare_and_aggregate env args blastn_version run genomes w in
  (out.2 = Rt.Val () ↔ pending = [])
  ∧ (pending ≠ [] → ∃ e, out.2 = Rt.Exc e).
Proof.
  intros pending out. subst out.
  unfold Anib.compare_and_aggregate, Anib.filter_existing_comparisons,
    Anib.update_comparison_matrices, Anib.collect_existing_output,
    Anib.anib_fragment_fasta_files, Anib.generate_joblist, Anib.makedirs,
    Anib.lookup_run, Anib.store_run, Rt.logger_info, Rt.logger_warning.
  run_monad. fold pending.
  destruct (decide (pending = [])) as [Hp|Hp].
  - rewrite bool_decide_eq_true_2 by done. simpl.
    split; [|done]. split; [done|]. intros _. by destruct (Rt.runs w !! run).
  - rewrite bool_decide_eq_false_2 by done.
    destruct (Anib.recovery args); simpl;
      destruct (Anib.makedirs_fault env _); simpl;
      destruct (Anib.fragment_fasta_files_result env); simpl;
      (split; [split; [done | intros ?; done] | eauto]).
Qed.

Lemma comparison_stage_returns_iff_nothing_pending_witness :
  ∃ e, (Anib.compare_and_aggregate Inputs.env_nothing_stored Examples.args_anib
          "2.9.0+" 1 [Examples.g1; Examples.g2] Examples.world_two_genomes).2
       = Rt.Exc e.
Proof.
  apply (proj2 (comparison_stage_returns_iff_nothing_pending
                  Inputs.env_nothing_stored Examples.args_anib "2.9.0+" 1
                  [Examples.g1; Examples.g2] Examples.world_two_genomes)).
  vm_compute. discriminate.
Defined.



(** X3. When [add_run] fails, [subcmd_anib] stops before it touches
    the run table: the store's own exception is logged and turned into
    [SystemExit(1)], any other exception leaves the subcommand as it
    is, without a log line; in both cases no row is added, the genomes
    are not sent to the store and no file is written. *)
Theorem add_run_failure_stops (env : Anib.Env) (fuel : nat) (args : Anib.Namespace)
    (w : Rt.World) (e : Py.exn) :
  Anib.get_session_fault env (Anib.dbpath args) = None →
  Anib.add_run_fault env = Some e →
  let out := Anib.subcmd_anib env fuel args w in
  let name := Anib.py_or (Anib.name args)
                (Py.join "_" ["ANIb"; Anib.now_isoformat env]) in
  out.2 = Rt.Exc (if Py.is_PyaniORMException e then Py.SystemExit 1 else e)
  ∧ Rt.runs out.1 = Rt.runs w
  ∧ Rt.files out.1 = Rt.files w
  ∧ Rt.trace out.1
    = Rt.trace w
      ++ [Rt.Log Rt.Info "Running ANIm analysis";
          Rt.Call Rt.GetVersion (Anib.blastn_exe args);
          Rt.Log Rt.Info "BLAST+ blastn version: {blastn_version}";
          Rt.Log Rt.Info "Analysis name: {name}";
          Rt.Log Rt.Info "Connecting to database {args.dbpath}";
          Rt.Call Rt.GetSession (Anib.dbpath args);
          Rt.Log Rt.Info "Adding run info to database {args.dbpath}...";
          Rt.Call Rt.AddRun name]
      ++ (if Py.is_PyaniORMException e
          then [Rt.Log Rt.Error "Could not add run to the database (exiting)"]
          else []).
Proof.
  intros Hsession Hrun out name. subst out.
  run_anib. rewrite Hsession, Hrun. simpl.
  destruct (Py.is_PyaniORMException e) eqn:He; simpl;
    (split_and!; [done..|]); by rewrite <- !app_assoc, ?app_nil_r.
Qed.

Lemma add_run_failure_stops_witness :
  let out := Anib.subcmd_anib Inputs.env_no_run 7 Examples.args_anib
               Examples.world_two_genomes in
  out.2 = Rt.Exc (Py.SystemExit 1) ∧ Rt.runs out.1 = ∅.
Proof.
  destruct (add_run_failure_stops Inputs.env_no_run 7 Examples.args_anib
              Examples.world_two_genomes Py.PyaniORMException)
    as (Hexc & Hruns & _).
  - reflexivity.
  - reflexivity.
  - split; [exact Hexc | exact Hruns].
Defined.

Lemma runs_fragment_fasta_file (fault : Rt.write_fault) (fuel : nat)
    (inpath outdir : Pathlib.Path) (fragsize : Z) (w : Rt.World) :
  Rt.runs (Anib.fragment_fasta_file fault fuel inpath outdir fragsize w).1 = Rt.runs w.
Proof.
  unfold Anib.fragment_fasta_file, Rt.SeqIO_parse, Rt.SeqIO_write. run_monad.
  destruct (Rt.files w !! inpath); [|done]. simpl.
  destruct (Anib.for_seq _ _ _ _); [|done]. simpl.
  by destruct fault.
Qed.

Lemma runs_fragment_genomes (env : Anib.Env) (fuel : nat) (args : Anib.Namespace)
    (fragdir : Pathlib.Path) (genomes : list Orm.Genome) (w : Rt.World) :
  Rt.runs (Anib.fragment_genomes env fuel args fragdir genomes w).1 = Rt.runs w.
Proof.
  revert w. induction genomes as [|g genomes IH]; intros w; [done|].
  unfold Anib.fragment_genomes in *. cbn [Rt.for_each].
  unfold mbind, Rt.M_bind, Rt.bind at 1 2.
  pose proof (runs_fragment_fasta_file
                (Anib.write_fault_at env (Anib.fragpath_of (Orm.path g) fragdir))
                fuel (Orm.path g) fragdir (Anib.fragsize args) w) as Hone.
  destruct (Anib.fragment_fasta_file _ _ _ _ _ w) as [w' [[p text]|e|]];
    simpl in *; [|done..].
  unfold Rt.emit. simpl. rewrite IH. done.
Qed.

(** X4. Once the session is open and [add_run] goes through, the run
    table has one row more when [subcmd_anib] ends, however it ends:
    the row is under an identifier no row had, with the method [ANIb],
    the command line, the start time, the status [started], the name
    given on the command line or else [ANIb_] and the start time, and
    the genomes that [add_run_genomes] registered, if it did. Every
    other row is as it was. *)
Theorem run_row_created (env : Anib.Env) (fuel : nat) (args : Anib.Namespace)
    (w : Rt.World) :
  Anib.get_session_fault env (Anib.dbpath args) = None →
  Anib.add_run_fault env = None →
  let out := Anib.subcmd_anib env fuel args w in
  let run := Anib.fresh_run_id (Rt.runs w) in
  Rt.runs w !! run = None
  ∧ Rt.runs out.1
    = <[run := {| Orm.run_id := run;
                  Orm.method := "ANIb";
                  Orm.cmdline := Anib.cmdline args;
                  Orm.date := Anib.now_isoformat env;
                  Orm.status := "started";
                  Orm.run_name :=
                    match Anib.name args with
                    | Some given => if decide (given = "")
                                    then "ANIb_" +:+ Anib.now_isoformat env
                                    else given
                    | None => "ANIb_" +:+ Anib.now_isoformat env
                    end;
                  Orm.genomes :=
                    match Anib.add_run_genomes_result env with
                    | inr gs => gs
                    | inl _ => []
                    end;
                  Orm.df_identity := ""; Orm.df_coverage := "";
                  Orm.df_alnlength := ""; Orm.df_simerrors := "";
                  Orm.df_hadamard := "" |}]> (Rt.runs w).
Proof.
  intros Hsession Hrun out run. split; [apply fresh_run_id_fresh|]. subst out.
  assert (Anib.py_or (Anib.name args) (Py.join "_" ["ANIb"; Anib.now_isoformat env])
          = match Anib.name args with
            | Some given => if decide (given = "")
                            then "ANIb_" +:+ Anib.now_isoformat env
                            else given
            | None => "ANIb_" +:+ Anib.now_isoformat env
            end) as Hname by done.
  rewrite <- Hname. clear Hname.
  set (name := Anib.py_or _ _).
  unfold Anib.subcmd_anib, Anib.setup_and_fragment.
  unfold Anib.get_version, Anib.get_session, Anib.add_run, Anib.add_run_genomes,
    Anib.run_genomes_all, Anib.makedirs, Anib.lookup_run, Anib.store_run,
    Anib.fresh_id, Rt.logger_info, Rt.logger_error, Rt.try_except, Rt.read_local.
  unfold mbind, Rt.M_bind, mret, Rt.M_ret, Rt.bind, Rt.ret, Rt.raise, Rt.emit.
  cbn -[Anib.fragment_genomes Anib.py_or Py.join].
  rewrite Hsession, Hrun. cbn -[Anib.fragment_genomes Anib.py_or Py.join].
  fold run. fold name.
  destruct (Anib.add_run_genomes_result env) as [e|gs];
    cbn -[Anib.fragment_genomes Anib.py_or Py.join].
  - by destruct (Py.is_PyaniORMException e).
  - rewrite !lookup_insert_eq. cbn -[Anib.fragment_genomes Anib.py_or Py.join].
    rewrite insert_insert_eq.
    destruct (Anib.makedirs_fault env (Anib.outdir args)) as [e1|];
      cbn -[Anib.fragment_genomes Anib.py_or Py.join];
      [by destruct (Py.is_OSError e1)|].
    destruct (Anib.makedirs_fault env (Pathlib.div (Anib.outdir args) "fragments"));
      cbn -[Anib.fragment_genomes Anib.py_or Py.join]; [done|].
    destruct (Anib.makedirs_fault env (Pathlib.div (Anib.outdir args) "blastdbs"));
      cbn -[Anib.fragment_genomes Anib.py_or Py.join]; [done|].
    match goal with
    | |- context [Anib.fragment_genomes ?e ?f ?a ?d ?g ?w0] =>
        pose proof (runs_fragment_genomes e f a d g w0) as Hfg;
        destruct (Anib.fragment_genomes e f a d g w0) as [w' [[]|e'|]]
    end; by simpl in *.
Qed.

Lemma run_row_created_witness :
  let out := Anib.subcmd_anib Examples.env_ok 7 Inputs.args_named
               Examples.world_two_genomes in
  ∃ row, Rt.runs out.1 !! 1%Z = Some row
         ∧ Orm.run_name row = "trial"
         ∧ Orm.status row = "started"
         ∧ Orm.genomes row = [Examples.g1; Examples.g2].
Proof.
  destruct (run_row_created Examples.env_ok 7 Inputs.args_named
              Examples.world_two_genomes) as [_ Hruns].
  - reflexivity.
  - reflexivity.
  - eexists. split; [|split_and!].
    + rewrite Hruns. apply lookup_insert_eq.
    + reflexivity.
    + reflexivity.
    + reflexivity.
Defined.

(** X5. The guard of lines 148 to 154 covers the output directory
    only. When the directory of the fragments cannot be made,
    [os.makedirs] raises out of [subcmd_anib] as it is: no error line
    is logged, the directory of the databases is not tried, and no
    genome is fragmented. *)
Theorem fragments_directory_failure_propagates (env : Anib.Env) (fuel : nat)
    (args : Anib.Namespace) (w : Rt.World) (gs : list Orm.Genome) (e : Py.exn) :
  Anib.get_session_fault env (Anib.dbpath args) = None →
  Anib.add_run_fault env = None →
  Anib.add_run_genomes_result env = inr gs →
  Anib.makedirs_fault env (Anib.outdir args) = None →
  Anib.makedirs_fault env (Pathlib.div (Anib.outdir args) "fragments") = Some e →
  let out := Anib.subcmd_anib env fuel args w in
  let name := Anib.py_or (Anib.name args)
                (Py.join "_" ["ANIb"; Anib.now_isoformat env]) in
  out.2 = Rt.Exc e
  ∧ Rt.files out.1 = Rt.files w
  ∧ Rt.trace out.1
    = Rt.trace w
      ++ [Rt.Log Rt.Info "Running ANIm analysis";
          Rt.Call Rt.GetVersion (Anib.blastn_exe args);
          Rt.Log Rt.Info "BLAST+ blastn version: {blastn_version}";
          Rt.Log Rt.Info "Analysis name: {name}";
          Rt.Log Rt.Info "Connecting to database {args.dbpath}";
          Rt.Call Rt.GetSession (Anib.dbpath args);
          Rt.Log Rt.Info "Adding run info to database {args.dbpath}...";
          Rt.Call Rt.AddRun name;
          Rt.Log Rt.Info "\t...added run ID: {run} to the database";
          Rt.Log Rt.Info "Adding files for {run} to database...";
          Rt.Call Rt.AddRunGenomes (Pathlib.str (Anib.indir args));
          Rt.Log Rt.Info "\t...added genome IDs: {genome_ids}";
          Rt.Log Rt.Info "Compiling genomes for comparison";
          Rt.Call Rt.RunGenomesAll "";
          Rt.Log Rt.Info "\tCollected {len(genomes)} genomes for this run";
          Rt.Log Rt.Info "Creating output directory {args.outdir}";
          Rt.Makedirs (Anib.outdir args);
          Rt.Log Rt.Info "\t...creating subdirectories";
          Rt.Makedirs (Pathlib.div (Anib.outdir args) "fragments")].
Proof.
  intros Hsession Hrun Hgenomes Hdir Hfragdir out name. subst out.
  run_anib. rewrite Hsession, Hrun. simpl. rewrite Hgenomes. simpl.
  rewrite !lookup_insert_eq. simpl. rewrite Hdir. simpl. rewrite Hfragdir. simpl.
  split_and!; [done.. |]. by rewrite <- !app_assoc.
Qed.

Lemma fragments_directory_failure_propagates_witness :
  (Anib.subcmd_anib Inputs.env_no_fragdir 7 Examples.args_anib
     Examples.world_two_genomes).2 = Rt.Exc (Py.OSError "PermissionError").
Proof.
  apply (fragments_directory_failure_propagates Inputs.env_no_fragdir 7
           Examples.args_anib Examples.world_two_genomes
           [Examples.g1; Examples.g2]); reflexivity.
Defined.

Lemma fragment_genomes_stuck (env : Anib.Env) (fuel : nat) (args : Anib.Namespace)
    (fragdir : Pathlib.Path) (g : Orm.Genome) (gs : list Orm.Genome)
    (records : list Bio.SeqRecord) (w : Rt.World) :
  Rt.files w !! Orm.path g = Some records →
  Exists (λ r, 0 < Bio.len r) records →
  (Anib.fragsize args ≤ 0)%Z →
  (Anib.fragment_genomes env fuel args fragdir (g :: gs) w).2 = Rt.OutOfFuel.
Proof.
  intros Hfile Hletters Hsize.
  unfold Anib.fragment_genomes. cbn [Rt.for_each].
  unfold Anib.fragment_fasta_file, Rt.SeqIO_parse. run_monad.
  rewrite Hfile. simpl. by rewrite for_seq_stuck.
Qed.

(** X6. [subcmd_anib] does not check the fragment size. With a size of
    zero or less, once the store and the directories are set up and
    the first genome of the run has a record with a letter in it, the
    subcommand never ends: it runs out of any fuel, with the run left
    in the store as [started]. *)
Theorem nonpositive_fragsize_hangs (env : Anib.Env) (args : Anib.Namespace)
    (w : Rt.World) (g : Orm.Genome) (gs : list Orm.Genome)
    (records : list Bio.SeqRecord) :
  Anib.get_session_fault env (Anib.dbpath args) = None →
  Anib.add_run_fault env = None →
  Anib.add_run_genomes_result env = inr (g :: gs) →
  (∀ p, Anib.makedirs_fault env p = None) →
  Rt.files w !! Orm.path g = Some records →
  Exists (λ r, 0 < Bio.len r) records →
  (Anib.fragsize args ≤ 0)%Z →
  ∀ fuel,
    let out := Anib.subcmd_anib env fuel args w in
    out.2 = Rt.OutOfFuel
    ∧ Orm.status <$> Rt.runs out.1 !! Anib.fresh_run_id (Rt.runs w) = Some "started".
Proof.
  intros Hsession Hrun Hgenomes Hdirs Hfile Hletters Hsize fuel out. subst out.
  unfold Anib.subcmd_anib, Anib.setup_and_fragment.
  unfold Anib.get_version, Anib.get_session, Anib.add_run, Anib.add_run_genomes,
    Anib.run_genomes_all, Anib.makedirs, Anib.lookup_run, Anib.store_run,
    Anib.fresh_id, Rt.logger_info, Rt.logger_error, Rt.try_except, Rt.read_local.
  unfold mbind, Rt.M_bind, mret, Rt.M_ret, Rt.bind, Rt.ret, Rt.raise, Rt.emit.
  cbn -[Anib.fragment_genomes Anib.py_or Py.join].
  rewrite Hsession, Hrun. cbn -[Anib.fragment_genomes Anib.py_or Py.join].
  rewrite Hgenomes. cbn -[Anib.fragment_genomes Anib.py_or Py.join].
  rewrite lookup_insert_eq. cbn -[Anib.fragment_genomes Anib.py_or Py.join].
  rewrite lookup_insert_eq. cbn -[Anib.fragment_genomes Anib.py_or Py.join].
  rewrite !Hdirs. cbn -[Anib.fragment_genomes Anib.py_or Py.join].
  match goal with
  | |- context [Anib.fragment_genomes ?e ?f ?a ?d ?l ?w0] =>
      pose proof (fragment_genomes_stuck e f a d g gs records w0 Hfile Hletters
                    Hsize) as Hstuck;
      pose proof (runs_fragment_genomes e f a d l w0) as Hruns;
      destruct (Anib.fragment_genomes e f a d l w0) as [w' r]
  end.
  cbn [fst snd Rt.runs] in *. subst r. cbn [fst snd]. rewrite Hruns.
  by rewrite insert_insert_eq, lookup_insert_eq.
Qed.

Lemma nonpositive_fragsize_hangs_witness :
  (Anib.subcmd_anib Examples.env_ok 1000 Inputs.args_fragsize_zero
     Examples.world_two_genomes).2 = Rt.OutOfFuel.
Proof.
  apply (nonpositive_fragsize_hangs Examples.env_ok Inputs.args_fragsize_zero
           Examples.world_two_genomes Examples.g1 [Examples.g2]
           Examples.genome_two_contigs).
  - reflexivity.
  - reflexivity.
  - reflexivity.
  - intros p. reflexivity.
  - vm_compute. reflexivity.
  - apply Exists_cons_hd. vm_compute. lia.
  - simpl. lia.
Defined.

Lemma for_seq_empty (fuel : nat) (fragsize : Z) (records : list Bio.SeqRecord)
    (l : Anib.Locals) :
  Forall (λ r, Bio.len r = 0) records →
  Anib.for_seq fuel fragsize records l = Some l.
Proof.
  induction records as [|r records IH]; intros Hempty; simpl; [done|].
  apply Forall_cons in Hempty as [Hr Hempty].
  rewrite while_idx_empty by done. by apply IH.
Qed.

(** X7. A genome file without a letter (no record, or empty records
    only) is no error and needs no turn of the loop: for every fragment
    size, positive or not, [fragment_fasta_file] writes a fragment file
    without a record and returns the JSON text of the empty
    dictionary. *)
Theorem empty_genome_gives_empty_fragment_file (w : Rt.World) (fuel : nat)
    (inpath outdir : Pathlib.Path) (fragsize : Z) (records : list Bio.SeqRecord) :
  Rt.files w !! inpath = Some records →
  Forall (λ r, Bio.len r = 0) records →
  let out := Anib.fragment_fasta_file Rt.NoFault fuel inpath outdir fragsize w in
  out.2 = Rt.Val (Anib.fragpath_of inpath outdir, String "{" "}")
  ∧ Rt.files out.1 !! Anib.fragpath_of inpath outdir = Some [].
Proof.
  intros Hfile Hempty out. subst out.
  unfold Anib.fragment_fasta_file, Rt.SeqIO_parse, Rt.SeqIO_write. run_monad.
  rewrite Hfile. simpl. rewrite for_seq_empty by done. simpl.
  split; [done | apply lookup_insert_eq].
Qed.

Lemma empty_genome_gives_empty_fragment_file_witness :
  (Anib.fragment_fasta_file Rt.NoFault 0 ["genomes"; "e.fasta"] ["out"] (-5)
     Inputs.world_empty_genome).2
  = Rt.Val (["out"; "e-fragments.fasta"], String "{" "}").
Proof.
  apply (empty_genome_gives_empty_fragment_file Inputs.world_empty_genome 0
           ["genomes"; "e.fasta"] ["out"] (-5) Inputs.genome_empty).
  - reflexivity.
  - repeat constructor.
Defined.

Lemma fragment_genomes_cons (env : Anib.Env) (fuel : nat) (args : Anib.Namespace)
    (fragdir : Pathlib.Path) (g : Orm.Genome) (gs : list Orm.Genome) (w : Rt.World) :
  Anib.fragment_genomes env fuel args fragdir (g :: gs) w
  = let out := Anib.fragment_fasta_file
                 (Anib.write_fault_at env (Anib.fragpath_of (Orm.path g) fragdir))
                 fuel (Orm.path g) fragdir (Anib.fragsize args) w in
    match out.2 with
    | Rt.Val (p, text) =>
        Anib.fragment_genomes env fuel args fragdir gs
          (Rt.mkWorld (Rt.files out.1) (Rt.runs out.1)
             (Rt.trace out.1 ++ [Rt.Print p (String.length text)]))
    | Rt.Exc e => (out.1, Rt.Exc e)
    | Rt.OutOfFuel => (out.1, Rt.OutOfFuel)
    end.
Proof.
  unfold Anib.fragment_genomes at 1. cbn [Rt.for_each]. run_monad.
  by destruct (Anib.fragment_fasta_file _ _ _ _ _ w) as [w' [[p text]|e|]].
Qed.

(** X8. The fragment file is named after the stem of the genome file
    alone. When two genomes of a run have one stem (the same file name
    in two directories, or two suffixes), the loop of [subcmd_anib]
    writes both to one path: both are reported under it, and when the
    loop is over the file holds the fragments of the second genome
    only. *)
Theorem same_stem_overwrites (env : Anib.Env) (fuel : nat) (args : Anib.Namespace)
    (fragdir : Pathlib.Path) (ga gb : Orm.Genome)
    (records_a records_b : list Bio.SeqRecord) (w : Rt.World) :
  (1 ≤ Anib.fragsize args)%Z →
  Pathlib.stem (Orm.path ga) = Pathlib.stem (Orm.path gb) →
  Rt.files w !! Orm.path ga = Some records_a →
  Rt.files w !! Orm.path gb = Some records_b →
  Orm.path gb ≠ Anib.fragpath_of (Orm.path ga) fragdir →
  Anib.write_fault_at env (Anib.fragpath_of (Orm.path ga) fragdir) = Rt.NoFault →
  Forall (λ r, Bio.len r ≤ fuel) (records_a ++ records_b) →
  let fragpath := Anib.fragpath_of (Orm.path ga) fragdir in
  let out := Anib.fragment_genomes env fuel args fragdir [ga; gb] w in
  out.2 = Rt.Val ()
  ∧ Anib.fragpath_of (Orm.path gb) fragdir = fragpath
  ∧ (∃ frs, Rt.files out.1 !! fragpath = Some frs
            ∧ Bio.seq <$> frs
              = mjoin (Anib.expected_fragments (Z.to_nat (Anib.fragsize args))
                       ∘ Bio.seq <$> records_b))
  ∧ (∀ p, p ≠ fragpath → Rt.files out.1 !! p = Rt.files w !! p)
  ∧ ∃ na nb, filter (λ ev, Anib.fragmenting ev = true)
               (drop (length (Rt.trace w)) (Rt.trace out.1))
             = [Rt.SeqIOParse (Orm.path ga);
                Rt.SeqIOWrite fragpath na;
                Rt.Print fragpath (String.length
                  (Py.json_dumps (Anib.sizedict
                     (Anib.final_locals (Z.to_nat (Anib.fragsize args)) records_a))));
                Rt.SeqIOParse (Orm.path gb);
                Rt.SeqIOWrite fragpath nb;
                Rt.Print fragpath (String.length
                  (Py.json_dumps (Anib.sizedict
                     (Anib.final_locals (Z.to_nat (Anib.fragsize args)) records_b))))].
Proof.
  intros HF Hstem Hfa Hfb Hne Hfault Hfuel fragpath out.
  apply Forall_app in Hfuel as [Hfuel_a Hfuel_b].
  assert (Anib.fragpath_of (Orm.path gb) fragdir = fragpath) as Hsame.
  { unfold fragpath, Anib.fragpath_of. by rewrite Hstem. }
  subst out fragpath. rewrite fragment_genomes_cons. cbv zeta.
  rewrite (fragment_fasta_file_run w _ fuel (Orm.path ga) fragdir _ records_a)
    by done.
  cbv zeta. rewrite Hfault. cbn [fst snd Rt.files Rt.runs Rt.trace].
  rewrite fragment_genomes_cons. cbv zeta. rewrite Hsame, Hfault.
  erewrite (fragment_fasta_file_run _ _ fuel (Orm.path gb) fragdir _ records_b);
    [|done| |done].
  2: { cbn [Rt.files]. by rewrite lookup_insert_ne. }
  cbv zeta. rewrite Hsame. cbn [fst snd Rt.files Rt.runs Rt.trace].
  unfold Anib.fragment_genomes. cbn [Rt.for_each]. unfold Rt.ret.
  cbn [fst snd Rt.files Rt.runs Rt.trace].
  split_and!; [done..| | |].
  - eexists. split; [by rewrite lookup_insert_eq|].
    apply seq_file_fragments.
  - intros p Hp. by rewrite !lookup_insert_ne.
  - eexists _, _. rewrite <- !app_assoc, drop_app_length. reflexivity.
Qed.

Lemma same_stem_overwrites_witness :
  let out := Anib.fragment_genomes Examples.env_ok 7 Examples.args_anib ["out"]
               [Orm.mkGenome 1 ["a"; "g.fasta"] "first";
                Orm.mkGenome 2 ["b"; "g.fna"] "second"]
               Inputs.world_same_stem in
  out.2 = Rt.Val ()
  ∧ ∃ frs, Rt.files out.1 !! ["out"; "g-fragments.fasta"] = Some frs
           ∧ Bio.seq <$> frs
             = [replicate 3 "G"%char; replicate 2 "G"%char].
Proof.
  destruct (same_stem_overwrites Examples.env_ok 7 Examples.args_anib ["out"]
              (Orm.mkGenome 1 ["a"; "g.fasta"] "first")
              (Orm.mkGenome 2 ["b"; "g.fna"] "second")
              Examples.genome_two_contigs Examples.genome_one_contig
              Inputs.world_same_stem) as (Hval & _ & Hfile & _).
  - simpl. lia.
  - reflexivity.
  - reflexivity.
  - reflexivity.
  - discriminate.
  - reflexivity.
  - repeat constructor.
  - split; [exact Hval | exact Hfile].
Defined.

Lemma elem_of_file_fragments (F c0 : nat) (records : list Bio.SeqRecord)
    (fr : Bio.SeqRecord) :
  fr ∈ mjoin (Anib.file_fragments F c0 records) →
  ∃ r c j, r ∈ records ∧ fr = Anib.fragment_at F r c j
           ∧ j < Anib.ceil_div (Bio.len r) F.
Proof.
  revert c0. induction records as [|r records IH]; intros c0; simpl.
  - by intros ?%elem_of_nil.
  - intros [Hin|Hin]%elem_of_app.
    + apply list_elem_of_lookup in Hin as [j Hj].
      apply lookup_record_fragments in Hj as [Hlt ->].
      exists r, c0, j. split_and!; [left | done | done].
    + destruct (IH _ Hin) as (r' & c & j & Hr' & -> & Hlt).
      exists r', c, j. split_and!; [by right | done | done].
Qed.

(** X9. In memory, a fragment is its record under a new identifier:
    with a fragment size of one or more and fuel for the longest
    record, the loops of [fragment_fasta_file] end, and every record
    object they have put in [outseqs], the list that is handed to the
    writer, has the name and the description of a record of the genome
    file, of which its sequence is the slice at a multiple of the
    fragment size, and an identifier made of [frag] and a number: the
    assignment of line 283 changes the [id] attribute only. (What the
    writer makes of these attributes in the header line of the file is
    Biopython's and is not said here.) *)
Theorem fragments_keep_name_and_description (fuel : nat) (fragsize : Z)
    (records : list Bio.SeqRecord) :
  (1 ≤ fragsize)%Z →
  Forall (λ r, Bio.len r ≤ fuel) records →
  let F := Z.to_nat fragsize in
  ∃ l : Anib.Locals,
    Anib.for_seq fuel fragsize records
      {| Anib.sizedict := []; Anib.outseqs := []; Anib.count := 0 |} = Some l
    ∧ ∀ fr, fr ∈ Anib.outseqs l →
        ∃ r c j, r ∈ records
          ∧ Bio.name fr = Bio.name r
          ∧ Bio.description fr = Bio.description r
          ∧ Bio.seq fr = take F (drop (j * F) (Bio.seq r))
          ∧ j * F < Bio.len r
          ∧ Bio.id fr = Anib.frag_id c.
Proof.
  intros HF Hfuel F. exists (Anib.final_locals F records). split.
  - rewrite <- (Z2Nat.id fragsize) by lia. apply for_seq_final; [unfold F; lia | done].
  - intros fr (r & c & j & Hr & -> & Hj)%elem_of_file_fragments.
    exists r, (c + S j), j. split_and!; try done.
    apply ceil_div_lt; [unfold F; lia | done].
Qed.

Lemma fragments_keep_name_and_description_witness :
  ∃ l : Anib.Locals,
    Anib.for_seq 7 3 Examples.genome_two_contigs
      {| Anib.sizedict := []; Anib.outseqs := []; Anib.count := 0 |} = Some l
    ∧ ∀ fr, fr ∈ Anib.outseqs l →
        ∃ r, r ∈ Examples.genome_two_contigs
             ∧ Bio.name fr = Bio.name r
             ∧ Bio.description fr = Bio.description r.
Proof.
  destruct (fragments_keep_name_and_description 7 3 Examples.genome_two_contigs)
    as (l & Hl & Hfrs).
  - lia.
  - repeat constructor.
  - exists l. split; [exact Hl|].
    intros fr Hfr. destruct (Hfrs fr Hfr) as (r & _ & _ & Hr & Hn & Hd & _).
    exists r. split_and!; [exact Hr | exact Hn | exact Hd].
Defined.

(** ** The number printed beside the path of a fragment file *)

Lemma length_join_lower (sep : string) (items : list string) (n : nat) :
  Forall (λ s, n ≤ String.length s) items →
  length items * n ≤ String.length (Py.join sep items).
Proof.
  induction items as [|s items IH]; intros Hitems; simpl; [lia|].
  apply Forall_cons in Hitems as [Hs Hitems].
  destruct items as [|s' items]; [simpl; lia|].
  rewrite !string_length_app. specialize (IH Hitems). simpl in *. lia.
Qed.

Lemma length_str_of_nat (n : nat) : 1 ≤ String.length (Py.str_of_nat n).
Proof.
  unfold Py.str_of_nat. rewrite length_string_of_uint.
  assert (Nat.to_uint n ≠ Decimal.Nil) as Hnil.
  { rewrite <- (Unsigned.of_to n) at 1. rewrite Unsigned.to_of. apply unorm_nonnil. }
  pose proof (nb_digits_0 (Nat.to_uint n)).
  destruct (Decimal.nb_digits (Nat.to_uint n)); [tauto | lia].
Qed.

Lemma length_json_dumps_lower (d : Py.dict nat) (k : nat) :
  Forall (λ key, k ≤ String.length key) (Py.dict_keys d) →
  2 + length d * (k + 5) ≤ String.length (Py.json_dumps d).
Proof.
  intros Hkeys. unfold Py.json_dumps. rewrite !string_length_app.
  pose proof (length_join_lower ", "
    ((λ kv : string * nat,
        Py.dquote +:+ kv.1 +:+ Py.dquote +:+ ": " +:+ Py.str_of_nat kv.2) <$> d)
    (k + 5)) as Hjoin.
  rewrite length_fmap in Hjoin. simpl String.length at 1 3.
  assert (Forall (λ s, k + 5 ≤ String.length s)
            ((λ kv : string * nat,
                Py.dquote +:+ kv.1 +:+ Py.dquote +:+ ": " +:+ Py.str_of_nat kv.2)
               <$> d)) as Hitems.
  { apply Forall_fmap, Forall_forall. intros [key v] Hin. simpl.
    rewrite !string_length_app.
    assert (k ≤ String.length key).
    { rewrite Forall_forall in Hkeys. apply Hkeys. unfold Py.dict_keys.
      apply list_elem_of_fmap. by exists (key, v). }
    pose proof (length_str_of_nat v). simpl. lia. }
  specialize (Hjoin Hitems). lia.
Qed.

(** X10. The number that [subcmd_anib] prints beside the path of a
    fragment file is the length of the JSON text that
    [fragment_fasta_file] returns, not the number of fragments: for a
    genome cut into [n] fragments it is at least [14 * n + 2], with
    [2] for a genome without a letter. *)
Theorem printed_number_is_text_length (env : Anib.Env) (fuel : nat)
    (args : Anib.Namespace) (fragdir : Pathlib.Path) (g : Orm.Genome)
    (records : list Bio.SeqRecord) (w : Rt.World) :
  (1 ≤ Anib.fragsize args)%Z →
  Rt.files w !! Orm.path g = Some records →
  Anib.write_fault_at env (Anib.fragpath_of (Orm.path g) fragdir) = Rt.NoFault →
  Forall (λ r, Bio.len r ≤ fuel) records →
  let fragpath := Anib.fragpath_of (Orm.path g) fragdir in
  let out := Anib.fragment_genomes env fuel args fragdir [g] w in
  ∃ (n : nat) (text : string),
    (Anib.fragment_fasta_file Rt.NoFault fuel (Orm.path g) fragdir
       (Anib.fragsize args) w).2 = Rt.Val (fragpath, text)
    ∧ length <$> Rt.files out.1 !! fragpath = Some n
    ∧ Rt.trace out.1
      = Rt.trace w ++ [Rt.SeqIOParse (Orm.path g); Rt.SeqIOWrite fragpath n;
                       Rt.Print fragpath (String.length text)]
    ∧ 14 * n + 2 ≤ String.length text.
Proof.
  intros HF Hfile Hfault Hfuel fragpath out. subst out fragpath.
  rewrite fragment_genomes_cons. cbv zeta. rewrite Hfault.
  rewrite (fragment_fasta_file_run w _ fuel (Orm.path g) fragdir _ records) by done.
  cbv zeta. cbn [fst snd Rt.files Rt.runs Rt.trace].
  unfold Anib.fragment_genomes. cbn [Rt.for_each]. unfold Rt.ret.
  cbn [fst snd Rt.files Rt.runs Rt.trace].
  set (frs := mjoin (Anib.file_fragments (Z.to_nat (Anib.fragsize args)) 0 records)).
  exists (length frs). eexists. split_and!.
  - reflexivity.
  - by rewrite lookup_insert_eq.
  - by rewrite <- app_assoc.
  - pose proof (length_json_dumps_lower
                  (Anib.sizedict
                     (Anib.final_locals (Z.to_nat (Anib.fragsize args)) records)) 9)
      as Hlen.
    unfold Anib.final_locals in *. fold frs in Hlen |- *. cbn [Anib.sizedict] in *.
    rewrite length_fmap in Hlen. etrans; [|apply Hlen]; [lia|].
    unfold Py.dict_keys. rewrite <- list_fmap_compose.
    apply Forall_fmap, Forall_forall. intros fr Hfr.
    apply elem_of_file_fragments in Hfr as (r & c & j & _ & -> & _).
    change (9 ≤ String.length (Anib.frag_id (c + S j))).
    rewrite length_frag_id. lia.
Qed.

Lemma printed_number_is_text_length_witness :
  let out := Anib.fragment_genomes Examples.env_ok 7 Examples.args_anib
               ["out"; "fragments"] [Examples.g1] Examples.world_two_genomes in
  ∃ (n : nat) (text : string),
    length <$> Rt.files out.1 !! ["out"; "fragments"; "g1-fragments.fasta"] = Some n
    ∧ Obs.printed (Rt.trace out.1) = [String.length text]
    ∧ 14 * n + 2 ≤ String.length text.
Proof.
  destruct (printed_number_is_text_length Examples.env_ok 7 Examples.args_anib
              ["out"; "fragments"] Examples.g1 Examples.genome_two_contigs
              Examples.world_two_genomes) as (n & text & _ & Hn & Htrace & Hlen).
  - simpl. lia.
  - reflexivity.
  - reflexivity.
  - repeat constructor.
  - exists n, text. split_and!; [exact Hn | | exact Hlen].
    rewrite Htrace. reflexivity.
Defined.

(** * Further properties of [subcmd_plot.py] *)


Lemma says_method_lookup (key : string) :
  key ∈ Plot.graphics_methods → Obs.says (Plot.method_lookup key) [] key.
Proof.
  intros Hkey. unfold Plot.method_lookup. rewrite bool_decide_eq_true_2 by done.
  apply says_ret.
Qed.

(** The file a plot of one matrix of one run is drawn to. *)
Lemma says_write_heatmap (env : Plot.Env) (run_id : Z) (matdata : Plot.MatrixData)
    (result_labels result_classes : Py.dict string) (outfmts : list string)
    (args : Plot.Namespace) :
  Plot.method args ∈ Plot.graphics_methods →
  Obs.says
    (Plot.write_heatmap env run_id matdata result_labels result_classes outfmts args)
    ([Rt.Log Rt.Info "Writing {matdata.name} matrix heatmaps"]
     ++ (fmt ← outfmts;
         let outfname :=
           Pathlib.div (Plot.outdir args)
             ("matrix_" +:+ Plot.name matdata +:+ "_run" +:+ Py.str_of_Z run_id
              +:+ "." +:+ fmt) in
         [Rt.Logf Rt.Info "\tWriting graphics to {outfname}" [Pathlib.str outfname]]
         ++ [] ++
         [Rt.Heatmap (Plot.method args) (Plot.data matdata) outfname
            ("matrix_" +:+ Plot.name matdata +:+ "_run" +:+ Py.str_of_Z run_id)
            (Rt.mkParams
               (Plot.get_colormap env (Plot.data matdata) (Plot.name matdata))
               result_labels result_classes)])
     ++ [Rt.PltCloseAll])
    ().
Proof.
  intros Hmethod. unfold Plot.write_heatmap.
  eapply says_bind; [apply says_emit|].
  eapply says_bind; [|apply says_emit].
  apply says_for_each. intros fmt. cbv zeta.
  eapply says_bind; [apply says_emit|].
  eapply says_bind; [by apply says_method_lookup | apply says_emit].
Qed.

Lemma says_write_distribution (run_id : Z) (matdata : Plot.MatrixData)
    (outfmts : list string) (args : Plot.Namespace) :
  Plot.method args ∈ Plot.graphics_methods →
  Obs.says (Plot.write_distribution run_id matdata outfmts args)
    ([Rt.Log Rt.Info "Writing distribution plot for {matdata.name} matrix"]
     ++ (fmt ← outfmts;
         let outfname :=
           Pathlib.div (Plot.outdir args)
             ("distribution_" +:+ Plot.name matdata +:+ "_run"
              +:+ Py.str_of_Z run_id +:+ "." +:+ fmt) in
         [Rt.Logf Rt.Info "\tWriting graphics to {outfname}" [Pathlib.str outfname]]
         ++ [] ++
         [Rt.Distribution (Plot.method args) (Plot.data matdata) outfname
            (Plot.name matdata)
            ("matrix_" +:+ Plot.name matdata +:+ "_run" +:+ Py.str_of_Z run_id)]))
    ().
Proof.
  intros Hmethod. unfold Plot.write_distribution.
  eapply says_bind; [apply says_emit|].
  apply says_for_each. intros fmt. cbv zeta.
  eapply says_bind; [apply says_emit|].
  eapply says_bind; [by apply says_method_lookup | apply says_emit].
Qed.

Lemma says_getattr {A : Type} (row : Orm.Run) (attribute : string)
    (field : Orm.Run → A) :
  Obs.says (Plot.getattr (Some row) attribute field) [] (field row).
Proof. apply says_ret. Qed.

Lemma says_read_json (env : Plot.Env) (text : string) :
  Plot.readable_json env text = true →
  Obs.says (Plot.read_json env text) [] (Rt.mkDataFrame text).
Proof. intros Htext. unfold Plot.read_json. rewrite Htext. apply says_ret. Qed.

Lemma throws_read_json (env : Plot.Env) (text : string) :
  Plot.readable_json env text = false →
  Obs.throws (Plot.read_json env text) [] Py.ValueError.
Proof. intros Htext. unfold Plot.read_json. rewrite Htext. apply throws_raise. Qed.

(** One matrix of a row that the store has, read and parsed. *)
Lemma says_matrix (env : Plot.Env) (row : Orm.Run) (attribute : string)
    (field : Orm.Run → string) :
  Plot.readable_json env (field row) = true →
  Obs.says (Plot.getattr (Some row) attribute field ≫= Plot.read_json env) []
    (Rt.mkDataFrame (field row)).
Proof.
  intros Htext.
  exact (says_bind _ _ [] [] _ _ (says_getattr row attribute field)
           (says_read_json env (field row) Htext)).
Qed.

Lemma throws_matrix (env : Plot.Env) (row : Orm.Run) (attribute : string)
    (field : Orm.Run → string) :
  Plot.readable_json env (field row) = false →
  Obs.throws (Plot.getattr (Some row) attribute field ≫= Plot.read_json env) []
    Py.ValueError.
Proof.
  intros Htext.
  exact (says_throws _ _ [] [] _ _ (says_getattr row attribute field)
           (throws_read_json env (field row) Htext)).
Qed.

Lemma says_nil_throws {A B : Type} (m : Rt.M A) (k : A → Rt.M B)
    (evs : list Rt.event) (a : A) (e : Py.exn) :
  Obs.says m [] a → Obs.throws (k a) evs e → Obs.throws (m ≫= k) evs e.
Proof. intros Hm Hk. exact (says_throws m k [] evs a e Hm Hk). Qed.

(** The five matrices of a row, each readable. *)
Lemma readable_matrices (env : Plot.Env) (row : Orm.Run) :
  Forall (λ text, Plot.readable_json env text = true) (Plot.matrices row) →
  Plot.readable_json env (Orm.df_identity row) = true
  ∧ Plot.readable_json env (Orm.df_coverage row) = true
  ∧ Plot.readable_json env (Orm.df_alnlength row) = true
  ∧ Plot.readable_json env (Orm.df_simerrors row) = true
  ∧ Plot.readable_json env (Orm.df_hadamard row) = true.
Proof.
  unfold Plot.matrices. rewrite !Forall_cons. tauto.
Qed.


Lemma bind_bind {A B C : Type} (f : A → list B) (g : B → list C) (xs : list A) :
  (xs ≫= f) ≫= g = xs ≫= (λ x, f x ≫= g).
Proof.
  induction xs as [|x xs IH]; [done|]. by rewrite !bind_cons, bind_app, IH.
Qed.

Lemma bind_ext_all {A B : Type} (f g : A → list B) (xs : list A) :
  (∀ x, f x = g x) → xs ≫= f = xs ≫= g.
Proof.
  intros Hfg. induction xs as [|x xs IH]; [done|]. by rewrite !bind_cons, Hfg, IH.
Qed.

(** The events of [write_run_heatmaps] on a run that the store has
    and whose matrices [pandas] reads, with a rendering method that
    [GMETHODS] has. *)
Lemma says_write_run_heatmaps (env : Plot.Env) (run_id : Z) (session : Plot.Session)
    (outfmts : list string) (args : Plot.Namespace) (row : Orm.Run) :
  Plot.run_first session (Plot.run_id args) = Some row →
  Forall (λ text, Plot.readable_json env text = true) (Plot.matrices row) →
  Plot.method args ∈ Plot.graphics_methods →
  Obs.says (Plot.write_run_heatmaps env run_id session outfmts args)
    ([Rt.Logf Rt.Info "Acquiring results for run {run_id}" [Py.str_of_Z run_id];
      Rt.Log Rt.Info "\t...retrieving results matrices";
      Rt.Call Rt.QueryRun (Plot.run_id args);
      Rt.Call Rt.GetMatrixLabels (Plot.run_id args);
      Rt.Call Rt.GetMatrixClasses (Plot.run_id args)]
     ++ ([] ++ [] ++ [] ++ [] ++ [] ++
     (matdata ← [Plot.mkMatrixData "identity" (Rt.mkDataFrame (Orm.df_identity row)) [];
                 Plot.mkMatrixData "coverage" (Rt.mkDataFrame (Orm.df_coverage row)) [];
                 Plot.mkMatrixData "aln_lengths"
                   (Rt.mkDataFrame (Orm.df_alnlength row)) [];
                 Plot.mkMatrixData "sim_errors"
                   (Rt.mkDataFrame (Orm.df_simerrors row)) [];
                 Plot.mkMatrixData "hadamard" (Rt.mkDataFrame (Orm.df_hadamard row)) []];
      ([Rt.Log Rt.Info "Writing {matdata.name} matrix heatmaps"]
       ++ (fmt ← outfmts;
           let outfname :=
             Pathlib.div (Plot.outdir args)
               ("matrix_" +:+ Plot.name matdata +:+ "_run" +:+ Py.str_of_Z run_id
                +:+ "." +:+ fmt) in
           [Rt.Logf Rt.Info "\tWriting graphics to {outfname}" [Pathlib.str outfname]]
           ++ [] ++
           [Rt.Heatmap (Plot.method args) (Plot.data matdata) outfname
              ("matrix_" +:+ Plot.name matdata +:+ "_run" +:+ Py.str_of_Z run_id)
              (Rt.mkParams
                 (Plot.get_colormap env (Plot.data matdata) (Plot.name matdata))
                 (Plot.matrix_labels_for_run session (Plot.run_id args))
                 (Plot.matrix_classes_for_run session (Plot.run_id args)))])
       ++ [Rt.PltCloseAll])
      ++ ([Rt.Log Rt.Info "Writing distribution plot for {matdata.name} matrix"]
          ++ (fmt ← outfmts;
              let outfname :=
                Pathlib.div (Plot.outdir args)
                  ("distribution_" +:+ Plot.name matdata +:+ "_run"
                   +:+ Py.str_of_Z run_id +:+ "." +:+ fmt) in
              [Rt.Logf Rt.Info "\tWriting graphics to {outfname}"
                 [Pathlib.str outfname]]
              ++ [] ++
              [Rt.Distribution (Plot.method args) (Plot.data matdata) outfname
                 (Plot.name matdata)
                 ("matrix_" +:+ Plot.name matdata +:+ "_run"
                  +:+ Py.str_of_Z run_id)])))))
    ().
Proof.
  intros Hrow (H1 & H2 & H3 & H4 & H5)%readable_matrices Hmethod.
  unfold Plot.write_run_heatmaps.
  eapply says_bind; [apply says_acquire_results|]. rewrite Hrow. cbv beta iota.
  eapply says_bind; [by apply says_matrix|].
  eapply says_bind; [by apply says_matrix|].
  eapply says_bind; [by apply says_matrix|].
  eapply says_bind; [by apply says_matrix|].
  eapply says_bind; [by apply says_matrix|].
  apply says_for_each. intros matdata.
  eapply says_bind; [by apply says_write_heatmap | by apply says_write_distribution].
Qed.

Lemma bind_empty {A B : Type} (f : A → list B) : ([] : list A) ≫= f = [].
Proof. done. Qed.

Lemma bind_nothing {A B : Type} (xs : list A) : (xs ≫= λ _, @nil B) = [].
Proof. induction xs as [|x xs IH]; [done|]. by rewrite bind_cons, IH. Qed.

(** What an observation that sees plots only makes of the events of
    [write_run_heatmaps]. *)
Lemma observe_plots {M F B : Type} (g : Rt.event → list B) (pre : list Rt.event)
    (mds : list M) (fmts : list F) (l1 l2 : M → Rt.event)
    (lf1 lf2 h d : M → F → Rt.event) (c : Rt.event) :
  pre ≫= g = [] →
  (∀ md, g (l1 md) = []) → (∀ md, g (l2 md) = []) →
  (∀ md fmt, g (lf1 md fmt) = []) → (∀ md fmt, g (lf2 md fmt) = []) →
  g c = [] →
  (pre ++ ([] ++ [] ++ [] ++ [] ++ [] ++
     (md ← mds;
      ([l1 md] ++ (fmt ← fmts; [lf1 md fmt] ++ [] ++ [h md fmt]) ++ [c])
      ++ ([l2 md] ++ (fmt ← fmts; [lf2 md fmt] ++ [] ++ [d md fmt]))))) ≫= g
  = md ← mds; (fmt ← fmts; g (h md fmt)) ++ (fmt ← fmts; g (d md fmt)).
Proof.
  intros Hpre Hl1 Hl2 Hlf1 Hlf2 Hc.
  rewrite bind_app, Hpre, !app_nil_l, bind_bind.
  apply bind_ext_all. intros md.
  rewrite !bind_app, !bind_cons, !bind_empty, Hl1, Hl2, Hc, !bind_bind.
  rewrite !app_nil_l, !app_nil_r. f_equal.
  - apply bind_ext_all. intros fmt.
    by rewrite !bind_app, !bind_cons, !bind_empty, Hlf1, !app_nil_l, app_nil_r.
  - apply bind_ext_all. intros fmt.
    by rewrite !bind_app, !bind_cons, !bind_empty, Hlf2, !app_nil_l, app_nil_r.
Qed.



(** X12. When the store has no run under [args.run_id],
    [write_run_heatmaps] raises [AttributeError] on the first matrix it
    reads from the missing row: the labels and the classes have been
    asked for by then, and no plot is drawn. *)
Theorem missing_run_raises (env : Plot.Env) (run_id : Z) (session : Plot.Session)
    (outfmts : list string) (args : Plot.Namespace) (w : Rt.World) :
  Plot.run_first session (Plot.run_id args) = None →
  let out := Plot.write_run_heatmaps env run_id session outfmts args w in
  out.2 = Rt.Exc (Py.AttributeError "df_identity")
  ∧ Rt.trace out.1
    = Rt.trace w
      ++ [Rt.Logf Rt.Info "Acquiring results for run {run_id}" [Py.str_of_Z run_id];
          Rt.Log Rt.Info "\t...retrieving results matrices";
          Rt.Call Rt.QueryRun (Plot.run_id args);
          Rt.Call Rt.GetMatrixLabels (Plot.run_id args);
          Rt.Call Rt.GetMatrixClasses (Plot.run_id args)].
Proof.
  intros Hrow out.
  assert (out = (Obs.after w
                   [Rt.Logf Rt.Info "Acquiring results for run {run_id}"
                      [Py.str_of_Z run_id];
                    Rt.Log Rt.Info "\t...retrieving results matrices";
                    Rt.Call Rt.QueryRun (Plot.run_id args);
                    Rt.Call Rt.GetMatrixLabels (Plot.run_id args);
                    Rt.Call Rt.GetMatrixClasses (Plot.run_id args)],
                 Rt.Exc (Py.AttributeError "df_identity"))) as ->.
  { subst out. unfold Plot.write_run_heatmaps.
    unfold mbind at 1, Rt.M_bind at 1, Rt.bind at 1.
    rewrite says_acquire_results, Hrow. reflexivity. }
  done.
Qed.

Lemma missing_run_raises_witness :
  (Plot.write_run_heatmaps Examples.env_plot 1 Inputs.session_no_run ["png"]
     Examples.args_plot Examples.world_empty).2
  = Rt.Exc (Py.AttributeError "df_identity").
Proof.
  apply (missing_run_raises Examples.env_plot 1 Inputs.session_no_run ["png"]
           Examples.args_plot Examples.world_empty).
  reflexivity.
Defined.



Lemma throws_method_lookup (key : string) :
  key ∉ Plot.graphics_methods →
  Obs.throws (Plot.method_lookup key) [] (Py.KeyError key).
Proof.
  intros Hkey. unfold Plot.method_lookup. rewrite bool_decide_eq_false_2 by done.
  apply throws_raise.
Qed.

Lemma says_write_heatmap_no_format (env : Plot.Env) (run_id : Z)
    (matdata : Plot.MatrixData) (result_labels result_classes : Py.dict string)
    (args : Plot.Namespace) :
  Obs.says
    (Plot.write_heatmap env run_id matdata result_labels result_classes [] args)
    ([Rt.Log Rt.Info "Writing {matdata.name} matrix heatmaps"]
     ++ [] ++ [Rt.PltCloseAll]) ().
Proof.
  unfold Plot.write_heatmap.
  eapply says_bind; [apply says_emit|].
  eapply says_bind; [apply says_ret | apply says_emit].
Qed.

Lemma says_write_distribution_no_format (run_id : Z) (matdata : Plot.MatrixData)
    (args : Plot.Namespace) :
  Obs.says (Plot.write_distribution run_id matdata [] args)
    ([Rt.Log Rt.Info "Writing distribution plot for {matdata.name} matrix"] ++ [])
    ().
Proof.
  unfold Plot.write_distribution.
  eapply says_bind; [apply says_emit | apply says_ret].
Qed.

Lemma throws_write_heatmap (env : Plot.Env) (run_id : Z) (matdata : Plot.MatrixData)
    (result_labels result_classes : Py.dict string) (fmt : string)
    (outfmts : list string) (args : Plot.Namespace) :
  Plot.method args ∉ Plot.graphics_methods →
  Obs.throws
    (Plot.write_heatmap env run_id matdata result_labels result_classes
       (fmt :: outfmts) args)
    ([Rt.Log Rt.Info "Writing {matdata.name} matrix heatmaps"]
     ++ ([Rt.Logf Rt.Info "\tWriting graphics to {outfname}"
            [Pathlib.str
               (Pathlib.div (Plot.outdir args)
                  ("matrix_" +:+ Plot.name matdata +:+ "_run"
                   +:+ Py.str_of_Z run_id +:+ "." +:+ fmt))]]
         ++ []))
    (Py.KeyError (Plot.method args)).
Proof.
  intros Hmethod. unfold Plot.write_heatmap.
  eapply says_throws; [apply says_emit|].
  apply throws_bind. cbn [Rt.for_each]. apply throws_bind. cbv zeta.
  eapply says_throws; [apply says_emit|].
  apply throws_bind. by apply throws_method_lookup.
Qed.

(** X13. The rendering method is looked up in [GMETHODS] once per
    output format, inside the loop. On a run that the store has and
    whose matrices [pandas] reads, with a method that is not a key of
    [GMETHODS] and at least one format, [write_run_heatmaps] raises
    [KeyError] at the first heat map, after the store was read and the
    file name logged, and draws nothing; without any format it never
    looks the method up, draws nothing and returns. *)
Theorem unknown_method_raises (env : Plot.Env) (run_id : Z) (session : Plot.Session)
    (outfmts : list string) (args : Plot.Namespace) (row : Orm.Run) (w : Rt.World) :
  Plot.run_first session (Plot.run_id args) = Some row →
  Forall (λ text, Plot.readable_json env text = true) (Plot.matrices row) →
  Plot.method args ∉ Plot.graphics_methods →
  let out := Plot.write_run_heatmaps env run_id session outfmts args w in
  let new := drop (length (Rt.trace w)) (Rt.trace out.1) in
  out.2 = match outfmts with
          | [] => Rt.Val ()
          | _ :: _ => Rt.Exc (Py.KeyError (Plot.method args))
          end
  ∧ Forall (λ ev, Obs.draws ev = false) new.
Proof.
  intros Hrow (H1 & H2 & H3 & H4 & H5)%readable_matrices Hmethod out new.
  assert (∃ evs, out = (Obs.after w evs,
                        match outfmts with
                        | [] => Rt.Val ()
                        | _ :: _ => Rt.Exc (Py.KeyError (Plot.method args))
                        end)
                 ∧ Forall (λ ev, Obs.draws ev = false) evs) as (evs & -> & Hevs).
  { subst out new. destruct outfmts as [|fmt outfmts].
    - eexists. split.
      + unfold Plot.write_run_heatmaps.
        eapply says_bind; [apply says_acquire_results|]. rewrite Hrow. cbv beta iota.
        eapply says_bind; [by apply says_matrix|].
        eapply says_bind; [by apply says_matrix|].
        eapply says_bind; [by apply says_matrix|].
        eapply says_bind; [by apply says_matrix|].
        eapply says_bind; [by apply says_matrix|].
        apply (says_for_each _ _
                 (λ _, ([Rt.Log Rt.Info "Writing {matdata.name} matrix heatmaps"]
                        ++ [] ++ [Rt.PltCloseAll])
                       ++ ([Rt.Log Rt.Info
                              "Writing distribution plot for {matdata.name} matrix"]
                           ++ []))).
        intros matdata.
        eapply says_bind;
          [apply says_write_heatmap_no_format
          | apply says_write_distribution_no_format].
      + repeat constructor.
    - eexists. split.
      + unfold Plot.write_run_heatmaps.
        eapply says_throws; [apply says_acquire_results|]. rewrite Hrow.
        cbv beta iota.
        eapply says_throws; [by apply says_matrix|].
        eapply says_throws; [by apply says_matrix|].
        eapply says_throws; [by apply says_matrix|].
        eapply says_throws; [by apply says_matrix|].
        eapply says_throws; [by apply says_matrix|].
        cbn [Rt.for_each]. apply throws_bind, throws_bind.
        by apply throws_write_heatmap.
      + repeat constructor. }
  subst new. unfold Obs.after. cbn [fst snd Rt.trace].
  by rewrite drop_app_length.
Qed.

Lemma unknown_method_raises_witness :
  (Plot.write_run_heatmaps Examples.env_plot 1 Examples.session_one_run
     ["png"; "pdf"] Inputs.args_plot_bokeh Examples.world_empty).2
  = Rt.Exc (Py.KeyError "bokeh").
Proof.
  apply (unknown_method_raises Examples.env_plot 1 Examples.session_one_run
           ["png"; "pdf"] Inputs.args_plot_bokeh Examples.stored_run
           Examples.world_empty).
  - reflexivity.
  - repeat (constructor; [vm_compute; reflexivity|]). constructor.
  - intros Hin. repeat (apply elem_of_cons in Hin as [Hin|Hin]; [discriminate|]).
    by apply elem_of_nil in Hin.
Defined.

Ltac read_matrix env text :=
  destruct (Plot.readable_json env text) eqn:?;
    [ eapply says_nil_throws; [by apply says_matrix|]
    | apply throws_bind; by apply throws_matrix ].

(** X18. The matrices of the row are parsed before the first plot: when
    the store has a run under [args.run_id] but [pandas] cannot read
    one of its five matrices (as for a run whose matrices were never
    filled in), [write_run_heatmaps] raises [ValueError] once the store
    was read, whatever the output formats and the rendering method are;
    nothing is drawn and no file is named in the log, also not for the
    matrices that come before the unreadable one. *)
Theorem unreadable_matrix_raises (env : Plot.Env) (run_id : Z)
    (session : Plot.Session) (outfmts : list string) (args : Plot.Namespace)
    (row : Orm.Run) (w : Rt.World) :
  Plot.run_first session (Plot.run_id args) = Some row →
  Exists (λ text, Plot.readable_json env text = false) (Plot.matrices row) →
  let out := Plot.write_run_heatmaps env run_id session outfmts args w in
  out.2 = Rt.Exc Py.ValueError
  ∧ Rt.files out.1 = Rt.files w
  ∧ Rt.runs out.1 = Rt.runs w
  ∧ Rt.trace out.1
    = Rt.trace w
      ++ [Rt.Logf Rt.Info "Acquiring results for run {run_id}" [Py.str_of_Z run_id];
          Rt.Log Rt.Info "\t...retrieving results matrices";
          Rt.Call Rt.QueryRun (Plot.run_id args);
          Rt.Call Rt.GetMatrixLabels (Plot.run_id args);
          Rt.Call Rt.GetMatrixClasses (Plot.run_id args)].
Proof.
  intros Hrow Hbad out.
  assert (Obs.throws (Plot.write_run_heatmaps env run_id session outfmts args)
            ([Rt.Logf Rt.Info "Acquiring results for run {run_id}"
                [Py.str_of_Z run_id];
              Rt.Log Rt.Info "\t...retrieving results matrices";
              Rt.Call Rt.QueryRun (Plot.run_id args);
              Rt.Call Rt.GetMatrixLabels (Plot.run_id args);
              Rt.Call Rt.GetMatrixClasses (Plot.run_id args)] ++ [])
            Py.ValueError) as Hthrows.
  { unfold Plot.write_run_heatmaps.
    eapply says_throws; [apply says_acquire_results|]. rewrite Hrow. cbv beta iota.
    read_matrix env (Orm.df_identity row).
    read_matrix env (Orm.df_coverage row).
    read_matrix env (Orm.df_alnlength row).
    read_matrix env (Orm.df_simerrors row).
    read_matrix env (Orm.df_hadamard row).
    exfalso. unfold Plot.matrices in Hbad.
    rewrite !Exists_cons, Exists_nil in Hbad.
    destruct Hbad as [?|[?|[?|[?|[?|[]]]]]]; congruence. }
  subst out. rewrite Hthrows. unfold Obs.after. cbn [fst snd Rt.files Rt.runs Rt.trace].
  by rewrite app_nil_r.
Qed.

Lemma unreadable_matrix_raises_witness :
  let out := Plot.write_run_heatmaps Examples.env_plot 1 Inputs.session_fresh_run
               ["png"] Examples.args_plot Examples.world_empty in
  out.2 = Rt.Exc Py.ValueError
  ∧ Rt.trace out.1
    = [Rt.Logf Rt.Info "Acquiring results for run {run_id}" ["1"];
       Rt.Log Rt.Info "\t...retrieving results matrices";
       Rt.Call Rt.QueryRun "1";
       Rt.Call Rt.GetMatrixLabels "1";
       Rt.Call Rt.GetMatrixClasses "1"].
Proof.
  destruct (unreadable_matrix_raises Examples.env_plot 1 Inputs.session_fresh_run
              ["png"] Examples.args_plot Inputs.fresh_run Examples.world_empty)
    as (Hexc & _ & _ & Htrace).
  - reflexivity.
  - apply Exists_cons_hd. vm_compute. reflexivity.
  - split; [exact Hexc | exact Htrace].
Defined.

Lemma ints_of_fails (env : Plot.Env) (runs : list string) (w : Rt.World) :
  Exists (λ run, Plot.int_of env run = None) runs →
  Plot.ints_of env runs w = (w, Rt.Exc Py.ValueError).
Proof.
  induction runs as [|run runs IH]; intros Hbad.
  - by apply Exists_nil in Hbad.
  - simpl. destruct (Plot.int_of env run) as [z|] eqn:Hrun; [|done].
    apply Exists_cons in Hbad as [Hbad|Hbad]; [congruence|].
    unfold mbind, Rt.M_bind, Rt.bind. by rewrite IH.
Qed.


(** X14. The run identifiers are all converted before the first run is
    plotted. When one item of the comma-separated list is not a number,
    wherever it stands, [subcmd_plot] raises [ValueError] once the
    output directory is made and the session is open: the store is not
    queried and no plot is drawn, also not for the runs before the bad
    item. *)
Theorem malformed_run_id_stops (env : Plot.Env) (args : Plot.Namespace)
    (w : Rt.World) :
  Plot.makedirs_fault env (Plot.outdir args) = None →
  Exists (λ run, Plot.int_of env run = None) (Plot.split "," (Plot.run_id args)) →
  let out := Plot.subcmd_plot env args w in
  out.2 = Rt.Exc Py.ValueError
  ∧ Rt.trace out.1
    = Rt.trace w
      ++ [Rt.Log Rt.Info "Generating graphical output for analyses";
          Rt.Log Rt.Info "Writing output to: {args.outdir}";
          Rt.Makedirs (Plot.outdir args);
          Rt.Log Rt.Info "Rendering method: {args.method}";
          Rt.Log Rt.Info "Activating session for database: {args.dbpath}";
          Rt.Call Rt.GetSession (Plot.dbpath args);
          Rt.Log Rt.Info "Requested output formats: {outfmts}"].
Proof.
  intros Hdir Hbad out.
  assert (Obs.throws (Plot.subcmd_plot env args)
            ([Rt.Log Rt.Info "Generating graphical output for analyses"]
             ++ [Rt.Log Rt.Info "Writing output to: {args.outdir}"]
             ++ [Rt.Makedirs (Plot.outdir args)]
             ++ []
             ++ [Rt.Log Rt.Info "Rendering method: {args.method}"]
             ++ [Rt.Log Rt.Info "Activating session for database: {args.dbpath}"]
             ++ [Rt.Call Rt.GetSession (Plot.dbpath args)]
             ++ [Rt.Log Rt.Info "Requested output formats: {outfmts}"]
             ++ [])
            Py.ValueError) as Hthrows.
  { unfold Plot.subcmd_plot, Rt.logger_info. rewrite Hdir.
    do 3 (eapply says_throws; [apply says_emit|]).
    eapply says_throws; [apply says_ret|].
    do 3 (eapply says_throws; [apply says_emit|]).
    cbv zeta. eapply says_throws; [apply says_emit|].
    apply throws_bind. intros w'. rewrite after_nil. by apply ints_of_fails. }
  subst out. by rewrite Hthrows.
Qed.

Lemma malformed_run_id_stops_witness :
  (Plot.subcmd_plot Examples.env_plot Inputs.args_plot_bad_id
     Examples.world_empty).2 = Rt.Exc Py.ValueError.
Proof.
  apply (malformed_run_id_stops Examples.env_plot Inputs.args_plot_bad_id
           Examples.world_empty).
  - reflexivity.
  - apply Exists_cons_tl, Exists_cons_hd. reflexivity.
Defined.


(** X15. Every query that [subcmd_plot] makes on the store, for every
    run of the list, asks under one key: the whole text of
    [args.run_id], commas and all, never the number of the run that is
    being plotted. *)
Theorem subcmd_plot_queries_one_key (env : Plot.Env) (args : Plot.Namespace)
    (w : Rt.World) :
  ∃ evs, Rt.trace (Plot.subcmd_plot env args w).1 = Rt.trace w ++ evs
         ∧ Forall (Obs.keyed_by (Plot.run_id args)) evs.
Proof.
  revert w.
  change (Obs.emits_only (Obs.keyed_by (Plot.run_id args))
            (Plot.subcmd_plot env args)).
  unfold Plot.subcmd_plot, Plot.write_run_heatmaps, Plot.acquire_results,
    Plot.query_run_first, Plot.get_matrix_labels_for_run,
    Plot.get_matrix_classes_for_run, Plot.getattr, Plot.read_json,
    Plot.write_heatmap, Plot.write_distribution, Plot.method_lookup,
    Rt.logger_info, Rt.logger_info_f.
  repeat emits_step.
Qed.

(** ** [str.split] and [str.join] *)

Lemma split_not_nil (c : ascii) (s : string) : Plot.split c s ≠ [].
Proof.
  destruct s as [|a s]; simpl; [done|].
  destruct (decide (a = c)); [done|]. by destruct (Plot.split c s).
Qed.

(** X16. The output formats and the run identifiers are the items of
    the option text between its commas: joined with commas again they
    give the text back, no item has a comma in it, and there is always
    at least one item, so that an empty text is one empty item. *)
Theorem split_then_join (s : string) :
  let items := Plot.split "," s in
  Py.join "," items = s
  ∧ items ≠ []
  ∧ Forall (λ item, Pathlib.rfind_from "," item 0 = None) items.
Proof.
  intros items. subst items. split_and!; [| apply split_not_nil |].
  - induction s as [|a s IH]; [done|]. simpl.
    pose proof (split_not_nil "," s) as Hne.
    destruct (Plot.split "," s) as [|item rest]; [done|].
    destruct (decide (a = ","%char)) as [->|Hne'].
    + change (Py.join "," ("" :: item :: rest))
        with (String "," (Py.join "," (item :: rest))).
      by rewrite IH.
    + destruct rest as [|item' rest].
      * simpl in *. by rewrite IH.
      * change (Py.join "," (String a item :: item' :: rest))
          with (String a (Py.join "," (item :: item' :: rest))).
        by rewrite IH.
  - assert (∀ item i j, Pathlib.rfind_from "," item i = None →
                        Pathlib.rfind_from "," item j = None) as Hshift.
    { induction item as [|a item IHi]; intros i j; simpl; [done|].
      destruct (Pathlib.rfind_from "," item (S i)) eqn:Hi; [done|].
      rewrite (IHi (S i) (S j) Hi). by destruct (decide (a = ","%char)). }
    induction s as [|a s IH]; simpl.
    + by repeat constructor.
    + pose proof (split_not_nil "," s) as Hne.
      destruct (Plot.split "," s) as [|item rest]; [done|].
      apply Forall_cons in IH as [Hitem Hrest].
      destruct (decide (a = ","%char)) as [->|Hne'].
      * by repeat constructor.
      * constructor; [|done]. simpl.
        rewrite (Hshift item 0 1 Hitem).
        by destruct (decide (a = ","%char)).
Qed.

Lemma says_ints_of (env : Plot.Env) (runs : list string) (ids : list Z) :
  Forall2 (λ run id, Plot.int_of env run = Some id) runs ids →
  Obs.says (Plot.ints_of env runs) [] ids.
Proof.
  induction 1 as [|run id runs ids Hrun _ IH]; simpl.
  - apply says_ret.
  - rewrite Hrun. change [] with (@nil Rt.event ++ []).
    eapply says_bind; [apply IH | apply says_ret].
Qed.

Lemma says_events {A : Type} (m : Rt.M A) (evs : list Rt.event) (a : A) :
  Obs.says m evs a → Obs.says m (Rt.trace (m Examples.world_empty).1) a.
Proof. intros Hm. by rewrite (Hm Examples.world_empty). Qed.

(** What an observation that sees plots only makes of the events of
    one call of [write_run_heatmaps]. *)
Lemma observe_write_run_heatmaps {B : Type} (g : Rt.event → list B) (env : Plot.Env)
    (run_id : Z) (session : Plot.Session) (outfmts : list string)
    (args : Plot.Namespace) (row : Orm.Run) :
  Plot.run_first session (Plot.run_id args) = Some row →
  Forall (λ text, Plot.readable_json env text = true) (Plot.matrices row) →
  Plot.method args ∈ Plot.graphics_methods →
  (∀ lvl t, g (Rt.Log lvl t) = []) →
  (∀ lvl t v, g (Rt.Logf lvl t v) = []) →
  (∀ c a, g (Rt.Call c a) = []) →
  g Rt.PltCloseAll = [] →
  Rt.trace (Plot.write_run_heatmaps env run_id session outfmts args
              Examples.world_empty).1 ≫= g
  = matdata ← [Plot.mkMatrixData "identity" (Rt.mkDataFrame (Orm.df_identity row)) [];
               Plot.mkMatrixData "coverage" (Rt.mkDataFrame (Orm.df_coverage row)) [];
               Plot.mkMatrixData "aln_lengths"
                 (Rt.mkDataFrame (Orm.df_alnlength row)) [];
               Plot.mkMatrixData "sim_errors"
                 (Rt.mkDataFrame (Orm.df_simerrors row)) [];
               Plot.mkMatrixData "hadamard" (Rt.mkDataFrame (Orm.df_hadamard row)) []];
    (fmt ← outfmts;
     g (Rt.Heatmap (Plot.method args) (Plot.data matdata)
          (Pathlib.div (Plot.outdir args)
             ("matrix_" +:+ Plot.name matdata +:+ "_run" +:+ Py.str_of_Z run_id
              +:+ "." +:+ fmt))
          ("matrix_" +:+ Plot.name matdata +:+ "_run" +:+ Py.str_of_Z run_id)
          (Rt.mkParams
             (Plot.get_colormap env (Plot.data matdata) (Plot.name matdata))
             (Plot.matrix_labels_for_run session (Plot.run_id args))
             (Plot.matrix_classes_for_run session (Plot.run_id args)))))
    ++ (fmt ← outfmts;
        g (Rt.Distribution (Plot.method args) (Plot.data matdata)
             (Pathlib.div (Plot.outdir args)
                ("distribution_" +:+ Plot.name matdata +:+ "_run"
                 +:+ Py.str_of_Z run_id +:+ "." +:+ fmt))
             (Plot.name matdata)
             ("matrix_" +:+ Plot.name matdata +:+ "_run" +:+ Py.str_of_Z run_id))).
Proof.
  intros Hrow Hread Hmethod Hlog Hlogf Hcall Hclose.
  rewrite (says_write_run_heatmaps env run_id session outfmts args row Hrow Hread
             Hmethod).
  unfold Obs.after, Examples.world_empty. cbn [fst Rt.trace]. rewrite app_nil_l.
  cbv zeta. rewrite observe_plots; [done| |done..].
  by rewrite !bind_cons, bind_empty, Hlog, Hlogf, !Hcall.
Qed.

(** X17. When the output directory is made, every item of the list of
    runs is a number, the store has a run under the whole text of
    [args.run_id], [pandas] reads its five matrices and the rendering
    method is known, [subcmd_plot] returns 0 and draws for every number
    of the list, in turn, the plots of one run, named after that
    number; and the data of the plots are, for every number alike, the
    five matrices of the one row the store has under [args.run_id]. *)
Theorem every_run_plots_one_row (env : Plot.Env) (args : Plot.Namespace)
    (ids : list Z) (row : Orm.Run) (w : Rt.World) :
  Plot.makedirs_fault env (Plot.outdir args) = None →
  Forall2 (λ run id, Plot.int_of env run = Some id)
    (Plot.split "," (Plot.run_id args)) ids →
  Plot.run_first (Plot.session_of env (Plot.dbpath args)) (Plot.run_id args)
  = Some row →
  Forall (λ text, Plot.readable_json env text = true) (Plot.matrices row) →
  Plot.method args ∈ Plot.graphics_methods →
  let outfmts := Plot.split "," (Plot.formats args) in
  let out := Plot.subcmd_plot env args w in
  let new := drop (length (Rt.trace w)) (Rt.trace out.1) in
  out.2 = Rt.Val 0%Z
  ∧ Obs.heatmap_files new
    = (id ← ids; name ← Obs.matrix_names; fmt ← outfmts;
       [Pathlib.div (Plot.outdir args)
          ("matrix_" +:+ name +:+ "_run" +:+ Py.str_of_Z id +:+ "." +:+ fmt)])
  ∧ Obs.plotted_data new
    = (_ ← ids;
       data ← Rt.mkDataFrame <$> Plot.matrices row;
       (_ ← outfmts; [data]) ++ (_ ← outfmts; [data])).
Proof.
  intros Hdir Hids Hrow Hread Hmethod outfmts out new.
  set (session := Plot.session_of env (Plot.dbpath args)) in *.
  assert (Obs.says (Plot.subcmd_plot env args)
            ([Rt.Log Rt.Info "Generating graphical output for analyses"]
             ++ [Rt.Log Rt.Info "Writing output to: {args.outdir}"]
             ++ [Rt.Makedirs (Plot.outdir args)]
             ++ []
             ++ [Rt.Log Rt.Info "Rendering method: {args.method}"]
             ++ [Rt.Log Rt.Info "Activating session for database: {args.dbpath}"]
             ++ [Rt.Call Rt.GetSession (Plot.dbpath args)]
             ++ [Rt.Log Rt.Info "Requested output formats: {outfmts}"]
             ++ []
             ++ [Rt.Log Rt.Info "Generating graphics for runs: {run_ids}"]
             ++ (id ← ids;
                 Rt.trace (Plot.write_run_heatmaps env id session outfmts args
                             Examples.world_empty).1)
             ++ [])
            0%Z) as Hsays.
  { unfold Plot.subcmd_plot, Rt.logger_info. rewrite Hdir.
    do 3 (eapply says_bind; [apply says_emit|]).
    eapply says_bind; [apply says_ret|].
    do 3 (eapply says_bind; [apply says_emit|]).
    cbv zeta. eapply says_bind; [apply says_emit|].
    eapply says_bind; [by apply says_ints_of|].
    eapply says_bind; [apply says_emit|].
    eapply says_bind; [|apply says_ret].
    apply says_for_each. intros id.
    eapply says_events. by apply says_write_run_heatmaps. }
  subst out new. rewrite Hsays. unfold Obs.after. cbn [fst snd Rt.trace].
  rewrite drop_app_length. split; [done|].
  unfold Obs.heatmap_files, Obs.plotted_data, Obs.matrix_names, Plot.matrices.
  rewrite !bind_app, !bind_cons, !bind_empty, !app_nil_l, !app_nil_r, !bind_bind.
  split.
  - apply bind_ext_all. intros id.
    rewrite (observe_write_run_heatmaps _ env id session outfmts args row)
      by done.
    rewrite !bind_cons, !bind_empty, !bind_nothing. cbn [app Plot.name].
    by rewrite !app_nil_r.
  - apply bind_ext_all. intros id.
    rewrite (observe_write_run_heatmaps _ env id session outfmts args row)
      by done.
    cbn [fmap list_fmap]. rewrite !bind_cons, !bind_empty. cbn [Plot.data].
    by rewrite !app_nil_r.
Qed.

Lemma every_run_plots_one_row_witness :
  let out := Plot.subcmd_plot Inputs.env_plot_any_key Inputs.args_plot_two
               Examples.world_empty in
  out.2 = Rt.Val 0%Z
  ∧ Obs.plotted_data (Rt.trace out.1)
    = (_ ← [1%Z; 2%Z];
       data ← Rt.mkDataFrame <$> Plot.matrices Examples.stored_run;
       [data; data]).
Proof.
  destruct (every_run_plots_one_row Inputs.env_plot_any_key Inputs.args_plot_two
              [1%Z; 2%Z] Examples.stored_run Examples.world_empty)
    as (Hval & _ & Hdata).
  - reflexivity.
  - repeat constructor.
  - reflexivity.
  - repeat (constructor; [vm_compute; reflexivity|]). constructor.
  - left.
  - split; [exact Hval | exact Hdata].
Defined.
